(** * Terraform providers (Pureport, vendored AzureRM): resource locking,
      storage-key cache and create/read error handling.

    Shallow embedding of
    - azurerm/resource_arm_ddos_protection_plan.go
    - azurerm/config.go (getKeyForStorageAccount)
    - the provider file of the pureport package (Provider, providerConfigure)
    - pureport/resource_azure_connection.go (the Azure and the dummy
      connection resources)

    Go values are modelled as follows: a [*T] pointer is an [option T]
    ([None] is nil), an [error] result is an [option error], a
    [map[string]string] is a [gmap string string] whose index expression
    yields the zero value on a missing key, and the remote services are
    functions over an abstract remote state. *)

From Stdlib Require Import Ascii.
From stdpp Require Import gmap strings list fin_maps sets sorting.

(** ** Go runtime notions shared by both providers *)

(** An [error] value: either produced by an external call or built by
    [fmt.Errorf] from a format and its string arguments, with or without a
    cause printed by a trailing verb. *)
Inductive error : Type :=
| ErrorNew (msg : string)
| Errorf (format : string) (args : list string)
| Wrapf (format : string) (args : list string) (cause : error).

(** [m[k]] on a Go [map[string]string]: the zero value when [k] is absent. *)
Definition index (m : gmap string string) (k : string) : string :=
  default "" (m !! k).

(** How a Go call ends: it returns (with the world it leaves behind), it
    blocks for ever on a mutex, or the runtime aborts it (a panic or a fatal
    error such as unlocking an unlocked mutex). *)
Inductive outcome (W A : Type) : Type :=
| Done (a : A) (w : W)
| Blocked
| Aborted (why : string).
Arguments Done {W A} a w.
Arguments Blocked {W A}.
Arguments Aborted {W A} why.

Definition M (W A : Type) : Type := W -> outcome W A.

Definition ret {W A} (a : A) : M W A := fun w => Done a w.

Definition bind {W A B} (m : M W A) (k : A -> M W B) : M W B :=
  fun w => match m w with
           | Done a w' => k a w'
           | Blocked => Blocked
           | Aborted why => Aborted why
           end.

Definition panic {W A} (why : string) : M W A := fun _ => Aborted why.

(** [defer f(); body]: [f] runs when the body has returned. A body that
    blocks never reaches its return. *)
Definition defer {W A} (f : M W unit) (body : M W A) : M W A :=
  fun w => match body w with
           | Done a w' =>
               match f w' with
               | Done _ w'' => Done a w''
               | Blocked => Blocked
               | Aborted why => Aborted why
               end
           | Blocked => Blocked
           | Aborted why => Aborted why
           end.

(** [*p]: dereferencing nil panics. *)
Definition deref {W A} (p : option A) : M W A :=
  match p with
  | Some a => ret a
  | None => panic "invalid memory address or nil pointer dereference"
  end.

Declare Scope go_scope.
Delimit Scope go_scope with go.
Notation "x <- m ;; k" := (bind m (fun x => k))
  (at level 100, m at next level, right associativity) : go_scope.
Notation "m ;;; k" := (bind m (fun _ => k))
  (at level 100, right associativity) : go_scope.
Local Open Scope go_scope.

(** [for _, x := range l { acc = body(acc, x) }] where the body may panic. *)
Fixpoint rangeM {W A B} (body : B -> A -> M W B) (l : list A) (acc : B) : M W B :=
  match l with
  | [] => ret acc
  | x :: l' => acc' <- body acc x ;; rangeM body l' acc'
  end.

Module Azurerm.

(** *** helpers/azure: the parsed resource ID (fields the resource reads) *)
Record ResourceID : Type := {
  ResourceGroup : string;
  Path : gmap string string
}.

(** *** network SDK structs (the fields the resource reads) *)
Record SubResource : Type := { SubResource_ID : option string }.

Record DdosProtectionPlanPropertiesFormat : Type := {
  VirtualNetworks : option (list SubResource)
}.

Record DdosProtectionPlan : Type := {
  (* utils.ResponseWasNotFound(plan.Response) *)
  ResponseWasNotFound : bool;
  ID : option string;
  Name : option string;
  Location : option string;
  Properties : option DdosProtectionPlanPropertiesFormat;
  Tags : gmap string string
}.

(** *** schema.ResourceData of azurerm_ddos_protection_plan *)
Record ResourceData : Type := {
  d_Id : string;
  d_IsNewResource : bool;
  d_name : string;
  d_location : string;
  d_resource_group_name : string;
  d_virtual_network_ids : list string;
  d_tags : gmap string string
}.

Definition SetId (id : string) (d : ResourceData) : ResourceData :=
  {| d_Id := id; d_IsNewResource := d_IsNewResource d; d_name := d_name d;
     d_location := d_location d;
     d_resource_group_name := d_resource_group_name d;
     d_virtual_network_ids := d_virtual_network_ids d; d_tags := d_tags d |}.

Definition Set_name (v : string) (d : ResourceData) : ResourceData :=
  {| d_Id := d_Id d; d_IsNewResource := d_IsNewResource d; d_name := v;
     d_location := d_location d;
     d_resource_group_name := d_resource_group_name d;
     d_virtual_network_ids := d_virtual_network_ids d; d_tags := d_tags d |}.

Definition Set_resource_group_name (v : string) (d : ResourceData) : ResourceData :=
  {| d_Id := d_Id d; d_IsNewResource := d_IsNewResource d; d_name := d_name d;
     d_location := d_location d;
     d_resource_group_name := v;
     d_virtual_network_ids := d_virtual_network_ids d; d_tags := d_tags d |}.

Definition Set_location (v : string) (d : ResourceData) : ResourceData :=
  {| d_Id := d_Id d; d_IsNewResource := d_IsNewResource d; d_name := d_name d;
     d_location := v;
     d_resource_group_name := d_resource_group_name d;
     d_virtual_network_ids := d_virtual_network_ids d; d_tags := d_tags d |}.

Definition Set_virtual_network_ids (v : list string) (d : ResourceData) : ResourceData :=
  {| d_Id := d_Id d; d_IsNewResource := d_IsNewResource d; d_name := d_name d;
     d_location := d_location d;
     d_resource_group_name := d_resource_group_name d;
     d_virtual_network_ids := v; d_tags := d_tags d |}.

Definition Set_tags (v : gmap string string) (d : ResourceData) : ResourceData :=
  {| d_Id := d_Id d; d_IsNewResource := d_IsNewResource d; d_name := d_name d;
     d_location := d_location d;
     d_resource_group_name := d_resource_group_name d;
     d_virtual_network_ids := d_virtual_network_ids d; d_tags := v |}.

(** Modelled from the spec: [sliceContainsValue] is a helper of the azurerm
    package that is not part of the sources at hand; the names are kept "as
    a set", so it is the membership test on a slice of strings. *)
Fixpoint sliceContainsValue (input : list string) (value : string) : bool :=
  match input with
  | [] => false
  | v :: input' => if decide (v = value) then true else sliceContainsValue input' value
  end.

(** [flattenArmVirtualNetworkIDs]: both dereferences are written as such,
    so that a nil dereference would show as [Aborted]. *)
Definition flattenArmVirtualNetworkIDs {W} (input : option (list SubResource))
  : M W (list string) :=
  let vnetIDs := [] in
  match input with
  | None => ret vnetIDs
  | Some _ =>
      subs <- deref input ;;
      rangeM (fun vnetIDs subRes =>
                match SubResource_ID subRes with
                | Some _ => id <- deref (SubResource_ID subRes) ;; ret (vnetIDs ++ [id])
                | None => ret vnetIDs
                end) subs vnetIDs
  end.

Section Extract.

(** [parseAzureResourceID] lives in the azurerm package outside the sources
    at hand: it is taken as a parameter. *)
Variable parseAzureResourceID : string -> error + ResourceID.

(** The loop of [extractVnetNames], from the names collected so far. *)
Fixpoint extractVnetNames_loop (vnetIDs : list string) (vnetNames : list string)
  : error + list string :=
  match vnetIDs with
  | [] => inr vnetNames
  | vnetID :: rest =>
      match parseAzureResourceID vnetID with
      | inl err => inl err
      | inr vnetResourceID =>
          let vnetName := index (Path vnetResourceID) "virtualNetworks" in
          if negb (sliceContainsValue vnetNames vnetName)
          then extractVnetNames_loop rest (vnetNames ++ [vnetName])
          else extractVnetNames_loop rest vnetNames
      end
  end.

Definition extractVnetNames (d : ResourceData) : error + list string :=
  extractVnetNames_loop (d_virtual_network_ids d) [].

(** The virtual-network name an ID denotes, when it parses. *)
Definition vnetNameOf (vnetID : string) : option string :=
  match parseAzureResourceID vnetID with
  | inl _ => None
  | inr rid => Some (index (Path rid) "virtualNetworks")
  end.

End Extract.

(** In the words of the specification ("a dynamically computed set of
    resource names, in a stable order"): a list of names with only the first
    occurrence of each kept. It is compared with [extractVnetNames] below. *)
Fixpoint firstOccurrences (names : list string) : list string :=
  match names with
  | [] => []
  | n :: names' => n :: filter (fun m => m ≠ n) (firstOccurrences names')
  end.

(** *** The named locks of the provider *)

Inductive LockEvent : Type :=
| Acquire (key : string)
| Release (key : string).

(** The keys acquired along a log, in order. *)
Definition acquired (log : list LockEvent) : list string :=
  omap (fun e => match e with Acquire k => Some k | Release _ => None end) log.

Definition released (log : list LockEvent) : list string :=
  omap (fun e => match e with Release k => Some k | Acquire _ => None end) log.

(** What a resource function works on: the [*schema.ResourceData] it was
    handed, the remote service, the keys of [armMutexKV] whose mutex is
    locked, and the lock operations performed so far. *)
Record World (Remote : Type) : Type := {
  d : ResourceData;
  remote : Remote;
  armMutexKV : gset string;
  lockLog : list LockEvent
}.
Arguments d {Remote} _.
Arguments remote {Remote} _.
Arguments armMutexKV {Remote} _.
Arguments lockLog {Remote} _.

Section Locks.
Context {Remote : Type}.

Definition getD : M (World Remote) ResourceData := fun w => Done (d w) w.

Definition modifyD (f : ResourceData -> ResourceData) : M (World Remote) unit :=
  fun w => Done tt {| d := f (d w); remote := remote w;
                      armMutexKV := armMutexKV w; lockLog := lockLog w |}.

(** A call of a client method: it answers and moves the remote state. *)
Definition call {A} (op : Remote -> A * Remote) : M (World Remote) A :=
  fun w => let '(a, r) := op (remote w) in
           Done a {| d := d w; remote := r;
                     armMutexKV := armMutexKV w; lockLog := lockLog w |}.

(** Modelled from the spec: the lock helpers of the azurerm package
    (locks.go, over the process-wide [armMutexKV]) are not part of the
    sources at hand. Locks are "named locks (by resource name)": the key is
    the resource type and the name; locking a key whose mutex is locked
    waits, and unlocking a mutex that is not locked is a fatal error of the
    Go runtime. *)
Definition lockKey (name resourceType : string) : string :=
  resourceType +:+ "." +:+ name.

(** Modelled from the spec: see [lockKey]. *)
Definition azureRMLockByName (name resourceType : string) : M (World Remote) unit :=
  fun w =>
    let updatedName := lockKey name resourceType in
    if decide (updatedName ∈ armMutexKV w) then Blocked
    else Done tt {| d := d w; remote := remote w;
                    armMutexKV := {[updatedName]} ∪ armMutexKV w;
                    lockLog := lockLog w ++ [Acquire updatedName] |}.

(** Modelled from the spec: see [lockKey]. *)
Definition azureRMUnlockByName (name resourceType : string) : M (World Remote) unit :=
  fun w =>
    let updatedName := lockKey name resourceType in
    if decide (updatedName ∈ armMutexKV w)
    then Done tt {| d := d w; remote := remote w;
                    armMutexKV := armMutexKV w ∖ {[updatedName]};
                    lockLog := lockLog w ++ [Release updatedName] |}
    else Aborted "sync: unlock of unlocked mutex".

(** Modelled from the spec: the names are locked one after the other.
    Here they are taken as the slice lists them; the arrangement "in a fixed
    order" that the specification speaks of is added in [LockOrder]
    below. *)
Fixpoint azureRMLockMultipleByName (names : list string) (resourceType : string)
  : M (World Remote) unit :=
  match names with
  | [] => ret tt
  | name :: names' =>
      azureRMLockByName name resourceType ;;;
      azureRMLockMultipleByName names' resourceType
  end.

(** Modelled from the spec: the names are unlocked one after the other,
    as the slice lists them (see [azureRMLockMultipleByName]). *)
Fixpoint azureRMUnlockMultipleByName (names : list string) (resourceType : string)
  : M (World Remote) unit :=
  match names with
  | [] => ret tt
  | name :: names' =>
      azureRMUnlockByName name resourceType ;;;
      azureRMUnlockMultipleByName names' resourceType
  end.

End Locks.

(** *** The DDoS protection plan resource *)

Definition azureDDoSProtectionPlanResourceName : string := "azurerm_ddos_protection_plan".

(** The methods of [ddosProtectionPlanClient] (and of the future it
    returns) that the resource calls. *)
Record DdosProtectionPlansClient (Remote Future : Type) : Type := {
  Get : string -> string -> Remote -> (DdosProtectionPlan * option error) * Remote;
  CreateOrUpdate : string -> string -> option string * gmap string string ->
                   Remote -> (Future * option error) * Remote;
  Delete : string -> string -> Remote -> (Future * option error) * Remote;
  WaitForCompletionRef : Future -> Remote -> option error * Remote
}.
Arguments Get {Remote Future} _.
Arguments CreateOrUpdate {Remote Future} _.
Arguments Delete {Remote Future} _.
Arguments WaitForCompletionRef {Remote Future} _.

(** What the resource file uses from the rest of the azurerm package and
    from the schema library. *)
Record Package : Type := {
  parseAzureResourceID : string -> error + ResourceID;
  requireResourcesToBeImported : bool;
  virtualNetworkResourceName : string;
  NormalizeLocation : string -> string;
  expandTags : gmap string string -> gmap string string;
  flattenAndSetTags : gmap string string -> ResourceData -> ResourceData;
  ImportAsExistsError : string -> string -> error;
  (* the error, if any, of d.Set("virtual_network_ids", v) *)
  Set_virtual_network_ids_err : list string -> option error
}.

Section DDoSProtectionPlan.
Context {Remote Future : Type}.
Variable pkg : Package.
Variable client : DdosProtectionPlansClient Remote Future.

Definition resourceArmDDoSProtectionPlanRead : M (World Remote) (option error) :=
  d <- getD ;;
  match parseAzureResourceID pkg (d_Id d) with
  | inl err => ret (Some err)
  | inr id =>
      let resourceGroup := ResourceGroup id in
      let name := index (Path id) "ddosProtectionPlans" in
      r <- call (Get client resourceGroup name) ;;
      let '(plan, err) := r in
      match err with
      | Some err =>
          if ResponseWasNotFound plan
          then modifyD (SetId "") ;;; ret None
          else ret (Some (Wrapf "Error making Read request on DDoS Protection Plan %q (Resource Group %q): %+v"
                                [name; resourceGroup] err))
      | None =>
          modifyD (Set_name (default "" (Name plan))) ;;;
          modifyD (Set_resource_group_name resourceGroup) ;;;
          match Location plan with
          | Some location => modifyD (Set_location (NormalizeLocation pkg location))
          | None => ret tt
          end ;;;
          err <- match Properties plan with
                 | Some props =>
                     vNetIDs <- flattenArmVirtualNetworkIDs (VirtualNetworks props) ;;
                     match Set_virtual_network_ids_err pkg vNetIDs with
                     | Some err =>
                         ret (Some (Wrapf "Error setting `virtual_network_ids`: %+v" [] err))
                     | None => modifyD (Set_virtual_network_ids vNetIDs) ;;; ret None
                     end
                 | None => ret None
                 end ;;
          match err with
          | Some err => ret (Some err)
          | None =>
              modifyD (flattenAndSetTags pkg (Tags plan)) ;;;
              ret None
          end
      end
  end.

(** The part of create/update that runs with the locks held. *)
Definition createUpdate_locked (name resourceGroup location : string)
    (tags : gmap string string) : M (World Remote) (option error) :=
  let parameters := (Some location, expandTags pkg tags) in
  r <- call (CreateOrUpdate client resourceGroup name parameters) ;;
  let '(future, err) := r in
  match err with
  | Some err =>
      ret (Some (Wrapf "Error creating/updating DDoS Protection Plan %q (Resource Group %q): %+v"
                       [name; resourceGroup] err))
  | None =>
      err <- call (WaitForCompletionRef client future) ;;
      match err with
      | Some err =>
          ret (Some (Wrapf "Error waiting for creation/update of DDoS Protection Plan %q (Resource Group %q): %+v"
                           [name; resourceGroup] err))
      | None =>
          r <- call (Get client resourceGroup name) ;;
          let '(plan, err) := r in
          match err with
          | Some err =>
              ret (Some (Wrapf "Error retrieving DDoS Protection Plan %q (Resource Group %q): %+v"
                               [name; resourceGroup] err))
          | None =>
              match ID plan with
              | None =>
                  ret (Some (Errorf "Cannot read DDoS Protection Plan %q (Resource Group %q) ID"
                                    [name; resourceGroup]))
              | Some id =>
                  modifyD (SetId id) ;;;
                  resourceArmDDoSProtectionPlanRead
              end
          end
      end
  end.

(** The import check at the head of create/update: [Some] is the error the
    function returns with. *)
Definition createUpdate_importCheck (d : ResourceData) (name resourceGroup : string)
  : M (World Remote) (option error) :=
  if requireResourcesToBeImported pkg && d_IsNewResource d then
    r <- call (Get client resourceGroup name) ;;
    let '(existing, err) := r in
    let returned :=
      match err with
      | Some err =>
          if negb (ResponseWasNotFound existing)
          then Some (Wrapf "Error checking for presence of existing DDoS Protection Plan %q (Resource Group %q): %s"
                           [name; resourceGroup] err)
          else None
      | None => None
      end in
    match returned with
    | Some err => ret (Some err)
    | None =>
        match ID existing with
        | Some id =>
            if decide (id ≠ "")
            then ret (Some (ImportAsExistsError pkg "azurerm_ddos_protection_plan" id))
            else ret None
        | None => ret None
        end
    end
  else ret None.

Definition resourceArmDDoSProtectionPlanCreateUpdate : M (World Remote) (option error) :=
  d <- getD ;;
  let name := d_name d in
  let resourceGroup := d_resource_group_name d in
  err <- createUpdate_importCheck d name resourceGroup ;;
  match err with
  | Some err => ret (Some err)
  | None =>
      let location := NormalizeLocation pkg (d_location d) in
      let tags := d_tags d in
      match extractVnetNames (parseAzureResourceID pkg) d with
      | inl err =>
          ret (Some (Wrapf "Error extracting names of Virtual Network: %+v" [] err))
      | inr vnetsToLock =>
          azureRMLockByName name azureDDoSProtectionPlanResourceName ;;;
          defer (azureRMUnlockByName name azureDDoSProtectionPlanResourceName)
            (azureRMLockMultipleByName vnetsToLock (virtualNetworkResourceName pkg) ;;;
             defer (azureRMUnlockMultipleByName vnetsToLock (virtualNetworkResourceName pkg))
               (createUpdate_locked name resourceGroup location tags))
      end
  end.

(** The part of delete that runs with the locks held. *)
Definition delete_locked (name resourceGroup : string) : M (World Remote) (option error) :=
  r <- call (Delete client resourceGroup name) ;;
  let '(future, err) := r in
  match err with
  | Some err =>
      ret (Some (Wrapf "Error deleting DDoS Protection Plan %q (Resource Group %q): %+v"
                       [name; resourceGroup] err))
  | None =>
      err <- call (WaitForCompletionRef client future) ;;
      match err with
      | Some err =>
          ret (Some (Wrapf "Error waiting for the deletion of DDoS Protection Plan %q (Resource Group %q): %+v"
                           [name; resourceGroup] err))
      | None => ret err
      end
  end.

Definition resourceArmDDoSProtectionPlanDelete : M (World Remote) (option error) :=
  d <- getD ;;
  match parseAzureResourceID pkg (d_Id d) with
  | inl err => ret (Some err)
  | inr id =>
      let resourceGroup := ResourceGroup id in
      let name := index (Path id) "ddosProtectionPlans" in
      r <- call (Get client resourceGroup name) ;;
      let '(read, err) := r in
      match err with
      | Some err =>
          if ResponseWasNotFound read
          then ret None
          else ret (Some (Wrapf "Error retrieving DDoS Protection Plan %q (Resource Group %q): %+v"
                                [name; resourceGroup] err))
      | None =>
          d <- getD ;;
          match extractVnetNames (parseAzureResourceID pkg) d with
          | inl err =>
              ret (Some (Wrapf "Error extracting names of Virtual Network: %+v" [] err))
          | inr vnetsToLock =>
              azureRMLockByName name azureDDoSProtectionPlanResourceName ;;;
              defer (azureRMUnlockByName name azureDDoSProtectionPlanResourceName)
                (azureRMLockMultipleByName vnetsToLock (virtualNetworkResourceName pkg) ;;;
                 defer (azureRMUnlockMultipleByName vnetsToLock (virtualNetworkResourceName pkg))
                   (delete_locked name resourceGroup))
          end
      end
  end.

End DDoSProtectionPlan.

(** **** Notions used to state the locking properties *)

(** The lock operations a call added to the log. *)
Definition newEvents {Remote} (w w' : World Remote) : list LockEvent :=
  drop (length (lockLog w)) (lockLog w').

(** The keys a call has locked, in the order it locked them, when it
    returns. *)
Definition locksAcquired {Remote A} (call : M (World Remote) A) (w : World Remote)
  : list string :=
  match call w with
  | Done _ w' => acquired (newEvents w w')
  | Blocked | Aborted _ => []
  end.

(** A step that returns and leaves the locks alone. *)
Definition lock_neutral {Remote A} (m : M (World Remote) A) : Prop :=
  ∀ w, ∃ a w', m w = Done a w' ∧
               armMutexKV w' = armMutexKV w ∧ lockLog w' = lockLog w.

(** The keys of the virtual networks, under their resource name. *)
Definition vnetKeys (resourceType : string) (names : list string) : list string :=
  (fun name => lockKey name resourceType) <$> names.

(** The two mutations of the resource. *)
Inductive Mutation : Type := CreateUpdate | DeleteOp.

Definition runMutation {Remote Future} (pkg : Package)
    (client : DdosProtectionPlansClient Remote Future) (m : Mutation)
  : M (World Remote) (option error) :=
  match m with
  | CreateUpdate => resourceArmDDoSProtectionPlanCreateUpdate pkg client
  | DeleteOp => resourceArmDDoSProtectionPlanDelete pkg client
  end.

(** The name under which a mutation locks the plan: create/update reads it
    from the configuration, delete from the ID in state. *)
Definition planNameFor (pkg : Package) (m : Mutation) (d : ResourceData) : string :=
  match m with
  | CreateUpdate => d_name d
  | DeleteOp =>
      match parseAzureResourceID pkg (d_Id d) with
      | inr id => index (Path id) "ddosProtectionPlans"
      | inl _ => ""
      end
  end.

(** What "every lock acquired is released at return" says of the world
    before and after a call: the log has only grown, the keys it acquired
    are those it released, none of them is held any more, and the held keys
    are those held before. *)
Definition all_released {Remote} (w w' : World Remote) : Prop :=
  lockLog w' = lockLog w ++ newEvents w w' ∧
  acquired (newEvents w w') ≡ₚ released (newEvents w w') ∧
  Forall (fun k => k ∉ armMutexKV w') (acquired (newEvents w w')) ∧
  armMutexKV w' = armMutexKV w.


(** **** A small remote service and two states, for the examples *)

Module Sample.

Definition vnetA_ID : string :=
  "/subscriptions/s1/resourceGroups/rg1/providers/Microsoft.Network/virtualNetworks/vnetA".
Definition vnetB_ID : string :=
  "/subscriptions/s1/resourceGroups/rg1/providers/Microsoft.Network/virtualNetworks/vnetB".
Definition plan_ID : string :=
  "/subscriptions/s1/resourceGroups/rg1/providers/Microsoft.Network/ddosProtectionPlans/plan1".

(** The value of [parseAzureResourceID] on the three IDs above; any other
    string is taken not to parse. *)
Definition parse (id : string) : error + ResourceID :=
  if decide (id = vnetA_ID)
  then inr {| ResourceGroup := "rg1"; Path := {[ "virtualNetworks" := "vnetA" ]} |}
  else if decide (id = vnetB_ID)
  then inr {| ResourceGroup := "rg1"; Path := {[ "virtualNetworks" := "vnetB" ]} |}
  else if decide (id = plan_ID)
  then inr {| ResourceGroup := "rg1"; Path := {[ "ddosProtectionPlans" := "plan1" ]} |}
  else inl (ErrorNew "Cannot parse Azure ID").

Definition pkg : Package :=
  {| parseAzureResourceID := parse;
     requireResourcesToBeImported := false;
     virtualNetworkResourceName := "azurerm_virtual_network";
     NormalizeLocation := fun l => l;
     expandTags := fun t => t;
     flattenAndSetTags := Set_tags;
     ImportAsExistsError := fun r id =>
       Errorf "A resource with the ID %q already exists" [id; r];
     Set_virtual_network_ids_err := fun _ => None |}.

(** The plan the service holds; it is attached to no virtual network. *)
Definition plan : DdosProtectionPlan :=
  {| ResponseWasNotFound := false;
     ID := Some plan_ID;
     Name := Some "plan1";
     Location := Some "westeurope";
     Properties := Some {| VirtualNetworks := None |};
     Tags := ∅ |}.

(** A service that holds [plan] and accepts every request. *)
Definition client : DdosProtectionPlansClient unit unit :=
  {| Get := fun _ _ r => ((plan, None), r);
     CreateOrUpdate := fun _ _ _ r => ((tt, None), r);
     Delete := fun _ _ r => ((tt, None), r);
     WaitForCompletionRef := fun _ r => (None, r) |}.

Definition notFoundPlan : DdosProtectionPlan :=
  {| ResponseWasNotFound := true; ID := None; Name := None; Location := None;
     Properties := None; Tags := ∅ |}.

(** A service that answers every Get with a failure whose response is 404. *)
Definition clientNotFound : DdosProtectionPlansClient unit unit :=
  {| Get := fun _ _ r => ((notFoundPlan, Some (ErrorNew "StatusCode=404")), r);
     CreateOrUpdate := fun _ _ _ r => ((tt, None), r);
     Delete := fun _ _ r => ((tt, None), r);
     WaitForCompletionRef := fun _ r => (None, r) |}.

Definition state (vnetIDs : list string) : ResourceData :=
  {| d_Id := plan_ID; d_IsNewResource := false; d_name := "plan1";
     d_location := "westeurope"; d_resource_group_name := "rg1";
     d_virtual_network_ids := vnetIDs; d_tags := ∅ |}.

Definition world (vnetIDs : list string) : World unit :=
  {| d := state vnetIDs; remote := tt; armMutexKV := ∅; lockLog := [] |}.

End Sample.

(** *** config.go: the storage-key cache *)

Record AccountKey : Type := { Value : option string }.

Record AccountListKeysResult : Type := {
  (* utils.ResponseWasNotFound(accountKeys.Response) *)
  ListKeys_ResponseWasNotFound : bool;
  Keys : option (list AccountKey)
}.

(** A [sync.RWMutex]: the number of readers inside and whether a writer is. *)
Record RWMutex : Type := { readers : nat; writer : bool }.

(** The package-level variables [storageKeyCacheMu] and [storageKeyCache],
    the storage service, and the [ListKeys] calls made so far. *)
Record Process (Remote : Type) : Type := {
  storageKeyCacheMu : RWMutex;
  storageKeyCache : gmap string string;
  storage : Remote;
  listKeysCalls : list (string * string)
}.
Arguments storageKeyCacheMu {Remote} _.
Arguments storageKeyCache {Remote} _.
Arguments storage {Remote} _.
Arguments listKeysCalls {Remote} _.

Section StorageKeyCache.
Context {Remote : Type}.

(** [c.storageServiceClient.ListKeys] *)
Variable ListKeys : string -> string -> Remote ->
                    (AccountListKeysResult * option error) * Remote.

Definition withMu (f : RWMutex -> option RWMutex) (stuck : outcome (Process Remote) unit)
  : M (Process Remote) unit :=
  fun p => match f (storageKeyCacheMu p) with
           | Some mu => Done tt {| storageKeyCacheMu := mu;
                                   storageKeyCache := storageKeyCache p;
                                   storage := storage p;
                                   listKeysCalls := listKeysCalls p |}
           | None => stuck
           end.

Definition RLock : M (Process Remote) unit :=
  withMu (fun mu => if writer mu then None
                    else Some {| readers := S (readers mu); writer := false |})
         Blocked.

Definition RUnlock : M (Process Remote) unit :=
  withMu (fun mu => match readers mu with
                    | O => None
                    | S n => Some {| readers := n; writer := writer mu |}
                    end)
         (Aborted "sync: RUnlock of unlocked RWMutex").

Definition Lock : M (Process Remote) unit :=
  withMu (fun mu => if writer mu then None
                    else match readers mu with
                         | O => Some {| readers := O; writer := true |}
                         | S _ => None
                         end)
         Blocked.

Definition Unlock : M (Process Remote) unit :=
  withMu (fun mu => if writer mu
                    then Some {| readers := readers mu; writer := false |}
                    else None)
         (Aborted "sync: Unlock of unlocked RWMutex").

(** [key, ok := storageKeyCache[cacheIndex]] *)
Definition cacheLookup (cacheIndex : string) : M (Process Remote) (option string) :=
  fun p => Done (storageKeyCache p !! cacheIndex) p.

(** [storageKeyCache[cacheIndex] = key] *)
Definition cacheStore (cacheIndex key : string) : M (Process Remote) unit :=
  fun p => Done tt {| storageKeyCacheMu := storageKeyCacheMu p;
                      storageKeyCache := <[cacheIndex := key]> (storageKeyCache p);
                      storage := storage p;
                      listKeysCalls := listKeysCalls p |}.

Definition callListKeys (resourceGroupName storageAccountName : string)
  : M (Process Remote) (AccountListKeysResult * option error) :=
  fun p => let '(a, r) := ListKeys resourceGroupName storageAccountName (storage p) in
           Done a {| storageKeyCacheMu := storageKeyCacheMu p;
                     storageKeyCache := storageKeyCache p;
                     storage := r;
                     listKeysCalls := listKeysCalls p
                                      ++ [(resourceGroupName, storageAccountName)] |}.

Definition cacheIndexOf (resourceGroupName storageAccountName : string) : string :=
  resourceGroupName +:+ "/" +:+ storageAccountName.

(** The body of the [if !ok] block under the write lock. *)
Definition fetchKey (cacheIndex resourceGroupName storageAccountName : string)
  : M (Process Remote) (string * bool * option error) :=
  r <- callListKeys resourceGroupName storageAccountName ;;
  let '(accountKeys, err) := r in
  if ListKeys_ResponseWasNotFound accountKeys then ret ("", false, None)
  else
    match err with
    | Some err =>
        ret ("", true, Some (Wrapf "Error retrieving keys for storage storeAccount %q: %s"
                                   [storageAccountName] err))
    | None =>
        match Keys accountKeys with
        | None =>
            ret ("", false, Some (Errorf "Nil key returned for storage storeAccount %q"
                                         [storageAccountName]))
        | Some _ =>
            keys <- deref (Keys accountKeys) ;;
            if bool_decide (length keys ≤ 0)
            then ret ("", false, Some (Errorf "No keys returned for storage storeAccount %q"
                                              [storageAccountName]))
            else
              key0 <- match keys !! 0%nat with
                      | Some k => ret k
                      | None => panic "index out of range"
                      end ;;
              let keyPtr := Value key0 in
              match keyPtr with
              | None =>
                  ret ("", false,
                       Some (Errorf "The first key returned is nil for storage storeAccount %q"
                                    [storageAccountName]))
              | Some _ =>
                  key <- deref keyPtr ;;
                  cacheStore cacheIndex key ;;;
                  ret (key, true, None)
              end
        end
    end.

(** The part of [getKeyForStorageAccount] under the write lock. *)
Definition getKey_locked (cacheIndex resourceGroupName storageAccountName : string)
  : M (Process Remote) (string * bool * option error) :=
  r <- cacheLookup cacheIndex ;;
  match r with
  | None => fetchKey cacheIndex resourceGroupName storageAccountName
  | Some key => ret (key, true, None)
  end.

Definition getKeyForStorageAccount (resourceGroupName storageAccountName : string)
  : M (Process Remote) (string * bool * option error) :=
  let cacheIndex := cacheIndexOf resourceGroupName storageAccountName in
  RLock ;;;
  r <- cacheLookup cacheIndex ;;
  RUnlock ;;;
  match r with
  | Some key => ret (key, true, None)
  | None =>
      Lock ;;;
      defer Unlock (getKey_locked cacheIndex resourceGroupName storageAccountName)
  end.

(** A sequence of calls, one after the other, with what each returned. *)
Fixpoint getKeys (calls : list (string * string))
  : M (Process Remote) (list (string * bool * option error)) :=
  match calls with
  | [] => ret []
  | (rg, acct) :: calls' =>
      r <- getKeyForStorageAccount rg acct ;;
      rs <- getKeys calls' ;;
      ret (r :: rs)
  end.

End StorageKeyCache.

(** **** Notions used to state the cache properties *)

(** Nobody is inside [storageKeyCacheMu]. *)
Definition mu_free {Remote} (p : Process Remote) : Prop :=
  storageKeyCacheMu p = {| readers := 0; writer := false |}.

(** "A key was actually fetched": the answer of [ListKeys] is not a
    not-found response, carries no error, and its first key has a value. *)
Definition firstKey (answer : AccountListKeysResult * option error) : option string :=
  let '(accountKeys, err) := answer in
  if ListKeys_ResponseWasNotFound accountKeys then None
  else match err with
       | Some _ => None
       | None =>
           match Keys accountKeys with
           | Some (key0 :: _) => Value key0
           | _ => None
           end
       end.

(** A name without the separator of the cache index. *)
Fixpoint no_slash (s : string) : Prop :=
  match s with
  | EmptyString => True
  | String c s' => c ≠ "/"%char ∧ no_slash s'
  end.

(** **** A small storage service, for the examples *)

Module SampleStorage.

(** The account rg1/acct1 has two keys; every other account is not found. *)
Definition ListKeys (resourceGroupName storageAccountName : string) (r : unit)
  : (AccountListKeysResult * option error) * unit :=
  if decide (resourceGroupName = "rg1" ∧ storageAccountName = "acct1")
  then (({| ListKeys_ResponseWasNotFound := false;
            Keys := Some [ {| Value := Some "key-one" |}; {| Value := Some "key-two" |} ] |},
         None), r)
  else (({| ListKeys_ResponseWasNotFound := true; Keys := None |},
         Some (ErrorNew "StatusCode=404")), r).

Definition start : Process unit :=
  {| storageKeyCacheMu := {| readers := 0; writer := false |};
     storageKeyCache := ∅; storage := tt; listKeysCalls := [] |}.

Definition warm : Process unit :=
  {| storageKeyCacheMu := {| readers := 0; writer := false |};
     storageKeyCache := {[ "rg1/acct1" := "key-one" ]}; storage := tt;
     listKeysCalls := [("rg1", "acct1")] |}.

End SampleStorage.

End Azurerm.

Module Pureport.

(** ** provider.go *)

Inductive ValueType : Type := TypeString | TypeInt.

Inductive DefaultValue : Type :=
| DefaultString (s : string)
| DefaultInt (n : Z).

Record Schema : Type := {
  Type_ : ValueType;
  Optional : bool;
  Default : DefaultValue;
  Description : string
}.

(** [descriptions], as [init] fills it. *)
Definition descriptions : gmap string string :=
  list_to_map [("access_key", ""); ("secret_key", ""); ("profile", "");
               ("token", ""); ("max_retries", "")].

(** The [Schema] of [Provider()], in the order of the source. *)
Definition Provider_Schema : list (string * Schema) :=
  [ ("access_key", {| Type_ := TypeString; Optional := true;
                      Default := DefaultString "";
                      Description := index descriptions "access_key" |});
    ("secret_key", {| Type_ := TypeString; Optional := true;
                      Default := DefaultString "";
                      Description := index descriptions "secret_key" |});
    ("profile", {| Type_ := TypeString; Optional := true;
                   Default := DefaultString "";
                   Description := index descriptions "profile" |});
    ("token", {| Type_ := TypeString; Optional := true;
                 Default := DefaultString "";
                 Description := index descriptions "token" |});
    ("max_retries", {| Type_ := TypeInt; Optional := true;
                       Default := DefaultInt 25;
                       Description := index descriptions "max_retries" |}) ].

(** The provider configuration handed to [ConfigureFunc]: one value per
    field of [Provider_Schema]. *)
Record ProviderData : Type := {
  access_key : string;
  secret_key : string;
  profile : string;
  token : string;
  max_retries : Z
}.

(** What [providerConfigure] calls in pureport-sdk-go. *)
Record SDK (Configuration LogConfig Session : Type) : Type := {
  NewConfiguration : string -> Configuration;
  WithEndPoint : Configuration -> string -> Configuration;
  NewLogConfig : LogConfig;
  NewSession : Configuration -> Session
}.
Arguments NewConfiguration {Configuration LogConfig Session} _.
Arguments WithEndPoint {Configuration LogConfig Session} _.
Arguments NewLogConfig {Configuration LogConfig Session} _.
Arguments NewSession {Configuration LogConfig Session} _.

Section Provider.
Context {Configuration LogConfig Session : Type}.
Variable sdk : SDK Configuration LogConfig Session.

(** [ppLog.SetupLogger]: the process-wide logger takes the configuration. *)
Definition SetupLogger (logCfg : LogConfig) : M (option LogConfig) unit :=
  fun _ => Done tt (Some logCfg).

Definition providerConfigure (d : ProviderData)
  : M (option LogConfig) (Session * option error) :=
  let cfg := NewConfiguration sdk "" in
  let cfg := WithEndPoint sdk cfg "https://dev1-api.pureportdev.com" in
  let logCfg := NewLogConfig sdk in
  SetupLogger logCfg ;;;
  let s := NewSession sdk cfg in
  ret (s, None).

End Provider.

(** ** resource_azure_connection.go and resource_dummy_connection.go *)

(** swagger structs *)
Record Link : Type := { Link_Id : string; Link_Href : string }.

Record CustomerNetwork : Type := { cn_Name : string; cn_Address : string }.

Record PeeringConfiguration : Type := { Peering_Type_ : string }.

Record AzureExpressRouteConnection (Nat : Type) : Type := {
  az_Type_ : string;
  az_Name : string;
  az_Speed : Z;
  az_Location : option Link;
  az_Network : option Link;
  az_BillingTerm : string;
  az_ServiceKey : string;
  az_CustomerNetworks : list CustomerNetwork;
  az_Nat : option Nat;
  az_Description : string;
  az_HighAvailability : bool;
  az_Peering : option PeeringConfiguration
}.
Arguments az_Type_ {Nat} _.
Arguments az_Name {Nat} _.
Arguments az_Speed {Nat} _.
Arguments az_Location {Nat} _.
Arguments az_Network {Nat} _.
Arguments az_BillingTerm {Nat} _.
Arguments az_ServiceKey {Nat} _.
Arguments az_CustomerNetworks {Nat} _.
Arguments az_Nat {Nat} _.
Arguments az_Description {Nat} _.
Arguments az_HighAvailability {Nat} _.
Arguments az_Peering {Nat} _.

Record DummyConnection (Nat : Type) : Type := {
  dm_Type_ : string;
  dm_Name : string;
  dm_Speed : Z;
  dm_Location : option Link;
  dm_Network : option Link;
  dm_BillingTerm : string;
  dm_CustomerNetworks : list CustomerNetwork;
  dm_Nat : option Nat;
  dm_Description : string;
  dm_HighAvailability : bool;
  dm_Peering : option PeeringConfiguration
}.
Arguments dm_Type_ {Nat} _.
Arguments dm_Name {Nat} _.
Arguments dm_Speed {Nat} _.
Arguments dm_Location {Nat} _.
Arguments dm_Network {Nat} _.
Arguments dm_BillingTerm {Nat} _.
Arguments dm_CustomerNetworks {Nat} _.
Arguments dm_Nat {Nat} _.
Arguments dm_Description {Nat} _.
Arguments dm_HighAvailability {Nat} _.
Arguments dm_Peering {Nat} _.

(** The dynamic type of the connection an API call carries. *)
Inductive Connection (Nat : Type) : Type :=
| IsAzureExpressRouteConnection (c : AzureExpressRouteConnection Nat)
| IsDummyConnection (c : DummyConnection Nat)
| IsOtherConnection.
Arguments IsAzureExpressRouteConnection {Nat} c.
Arguments IsDummyConnection {Nat} c.
Arguments IsOtherConnection {Nat}.

(** [*http.Response], as far as it is read. *)
Record Response : Type := {
  StatusCode : Z;
  Header_Get : string -> string
}.

Record URL : Type := { URL_Path : string }.

(** The values the resources hand to [d.Set]. *)
Inductive Value : Type :=
| VString (s : string)
| VInt (n : Z)
| VBool (b : bool)
| VMap (m : gmap string string)
| VMaps (l : list (gmap string string)).

(** [*schema.ResourceData] of a connection resource: the ID and the
    configuration the create functions read. *)
Record ResourceData : Type := {
  d_Id : string;
  d_network : list (gmap string string);
  d_speed : Z;
  d_name : string;
  d_location : list (gmap string string);
  d_billing_term : string;
  d_service_key : string;
  d_description : string;
  d_high_availability : bool
}.

Definition SetId (id : string) (d : ResourceData) : ResourceData :=
  {| d_Id := id; d_network := d_network d; d_speed := d_speed d;
     d_name := d_name d; d_location := d_location d;
     d_billing_term := d_billing_term d; d_service_key := d_service_key d;
     d_description := d_description d;
     d_high_availability := d_high_availability d |}.

(** What the resource files use from the SDK, from the rest of the
    package (connection.go) and from the Go libraries. *)
Record Deps (Remote Nat : Type) : Type := {
  AddConnection : string -> Connection Nat -> Remote ->
                  (option Response * option error) * Remote;
  GetConnection : string -> Remote ->
                  (Connection Nat * option Response * option error) * Remote;
  AddCustomerNetworks : ResourceData -> list CustomerNetwork;
  AddNATConfiguration : ResourceData -> option Nat;
  AddPeeringType : ResourceData -> option PeeringConfiguration;
  url_Parse : string -> error + URL;
  filepath_Base : string -> string;
  (* d.Set(key, value): the data it leaves, or its error *)
  ResourceData_Set : string -> Value -> ResourceData -> error + ResourceData
}.
Arguments AddConnection {Remote Nat} _.
Arguments GetConnection {Remote Nat} _.
Arguments AddCustomerNetworks {Remote Nat} _.
Arguments AddNATConfiguration {Remote Nat} _.
Arguments AddPeeringType {Remote Nat} _.
Arguments url_Parse {Remote Nat} _.
Arguments filepath_Base {Remote Nat} _.
Arguments ResourceData_Set {Remote Nat} _.

Record World (Remote : Type) : Type := {
  d : ResourceData;
  remote : Remote
}.
Arguments d {Remote} _.
Arguments remote {Remote} _.

(** [int32(speed)] *)
Definition int32 (n : Z) : Z := ((n + 2147483648) mod 4294967296 - 2147483648)%Z.

Section Connections.
Context {Remote Nat : Type}.
Variable deps : Deps Remote Nat.

Definition getD : M (World Remote) ResourceData := fun w => Done (d w) w.

Definition modifyD (f : ResourceData -> ResourceData) : M (World Remote) unit :=
  fun w => Done tt {| d := f (d w); remote := remote w |}.

Definition call {A} (op : Remote -> A * Remote) : M (World Remote) A :=
  fun w => let '(a, r) := op (remote w) in Done a {| d := d w; remote := r |}.

(** [d.Set(key, value)]; the error is given back, the data changes on
    success. *)
Definition dSet (key : string) (value : Value) : M (World Remote) (option error) :=
  fun w => match ResourceData_Set deps key value (d w) with
           | inl err => Done (Some err) w
           | inr d' => Done None {| d := d'; remote := remote w |}
           end.

(** [l[0].(map[string]interface{})[key].(string)] *)
Definition first_field (l : list (gmap string string)) (key : string)
  : M (World Remote) string :=
  match l !! 0%nat with
  | None => panic "index out of range"
  | Some m =>
      match m !! key with
      | None => panic "interface conversion: interface {} is nil, not string"
      | Some v => ret v
      end
  end.

Definition first_link (l : list (gmap string string)) : M (World Remote) Link :=
  id <- first_field l "id" ;;
  href <- first_field l "href" ;;
  ret {| Link_Id := id; Link_Href := href |}.

(** [d.GetOk("description")] and [d.GetOk("high_availability")]: set and
    not the zero value. *)
Definition GetOk_description (d : ResourceData) : string * bool :=
  (d_description d, bool_decide (d_description d ≠ "")).

Definition GetOk_high_availability (d : ResourceData) : bool * bool :=
  (d_high_availability d, d_high_availability d).

Definition customerNetworks_flat (l : list CustomerNetwork) : list (gmap string string) :=
  (fun cn => {[ "name" := cn_Name cn; "address" := cn_Address cn ]}) <$> l.

Definition link_flat (l : Link) : gmap string string :=
  {[ "id" := Link_Id l; "href" := Link_Href l ]}.

(** The tail shared by both read functions once the connection has been
    asserted to its type: [kind] and [kind'] are the words of the messages. *)
Definition read_fields (kind kind' : string)
    (CustomerNetworks : list CustomerNetwork) (Description : string)
    (HighAvailability : bool) (Location Network : option Link)
  : M (World Remote) (option error) :=
  let customerNetworks := customerNetworks_flat CustomerNetworks in
  err <- dSet "customer_networks" (VMaps customerNetworks) ;;
  match err with
  | Some err =>
      d <- getD ;;
      ret (Some (Wrapf ("Error setting customer networks for " +:+ kind +:+ " Cloud Connection %s: %s")
                       [d_Id d] err))
  | None =>
      dSet "description" (VString Description) ;;;
      dSet "high_availability" (VBool HighAvailability) ;;;
      loc <- deref Location ;;
      err <- dSet "location" (VMap (link_flat loc)) ;;
      match err with
      | Some err =>
          d <- getD ;;
          ret (Some (Wrapf ("Error setting location for " +:+ kind +:+ " Cloud Connection %s: %s")
                           [d_Id d] err))
      | None =>
          net <- deref Network ;;
          err <- dSet "network" (VMap (link_flat net)) ;;
          match err with
          | Some err =>
              d <- getD ;;
              ret (Some (Wrapf ("Error setting " +:+ kind' +:+ " for " +:+ kind +:+ " Cloud Connection %s: %s")
                               [d_Id d] err))
          | None => ret None
          end
      end
  end.

(** The head shared by both read functions: the call and the checks on its
    answer. [inl] is what the function returns with. *)
Definition read_get (kind : string) : M (World Remote) (option error + Connection Nat) :=
  d <- getD ;;
  let connectionId := d_Id d in
  r <- call (GetConnection deps connectionId) ;;
  let '(c, resp, err) := r in
  match err with
  | Some err =>
      resp <- deref resp ;;
      (if bool_decide (StatusCode resp = 404%Z) then modifyD (SetId "") else ret tt) ;;;
      ret (inl (Some (Wrapf ("Error reading data for " +:+ kind +:+ " Connection: %s") [] err)))
  | None =>
      resp <- deref resp ;;
      if bool_decide (StatusCode resp >= 300)%Z
      then ret (inl (Some (Errorf ("Error Response while reading " +:+ kind +:+ " Connection: code=%v")
                                  [])))
      else ret (inr c)
  end.

Definition resourceAzureConnectionRead : M (World Remote) (option error) :=
  r <- read_get "Azure" ;;
  match r with
  | inl returned => ret returned
  | inr c =>
      match c with
      | IsAzureExpressRouteConnection conn =>
          dSet "service_key" (VString (az_ServiceKey conn)) ;;;
          peering <- deref (az_Peering conn) ;;
          dSet "peering" (VString (Peering_Type_ peering)) ;;;
          dSet "speed" (VInt (az_Speed conn)) ;;;
          read_fields "Azure" "location" (az_CustomerNetworks conn) (az_Description conn)
                      (az_HighAvailability conn) (az_Location conn) (az_Network conn)
      | _ => panic "interface conversion: interface {} is not swagger.AzureExpressRouteConnection"
      end
  end.

Definition resourceDummyConnectionRead : M (World Remote) (option error) :=
  r <- read_get "Dummy" ;;
  match r with
  | inl returned => ret returned
  | inr c =>
      match c with
      | IsDummyConnection conn =>
          peering <- deref (dm_Peering conn) ;;
          dSet "peering" (VString (Peering_Type_ peering)) ;;;
          dSet "speed" (VInt (dm_Speed conn)) ;;;
          read_fields "Dummy" "network" (dm_CustomerNetworks conn) (dm_Description conn)
                      (dm_HighAvailability conn) (dm_Location conn) (dm_Network conn)
      | _ => panic "interface conversion: interface {} is not swagger.DummyConnection"
      end
  end.

(** From the answer of [AddConnection] to the return, the same statements in
    both create functions; [read] is the read function of the resource. *)
Definition create_finish (read : M (World Remote) (option error))
    (resp : option Response) (err : option error) : M (World Remote) (option error) :=
  match err with
  | Some _ => modifyD (SetId "") ;;; ret None
  | None =>
      resp <- deref resp ;;
      if bool_decide (StatusCode resp >= 300)%Z
      then modifyD (SetId "") ;;; ret None
      else
        let loc := Header_Get resp "location" in
        match url_Parse deps loc with
        | inl _ => ret None
        | inr u =>
            let id := filepath_Base deps (URL_Path u) in
            modifyD (SetId id) ;;;
            if decide (id = "") then ret None
            else read
        end
  end.

(** The statements of [resourceAzureConnectionCreate] up to the call: the
    network ID and the body of the request. *)
Definition azureConnection_request : M (World Remote) (string * Connection Nat) :=
  d <- getD ;;
  let network := d_network d in
  let speed := d_speed d in
  let name := d_name d in
  let location := d_location d in
  let billingTerm := d_billing_term d in
  let serviceKey := d_service_key d in
  locationLink <- first_link location ;;
  networkLink <- first_link network ;;
  let '(description, ok) := GetOk_description d in
  let Description := if ok then description else "" in
  let '(highAvailability, ok) := GetOk_high_availability d in
  let HighAvailability := if ok then highAvailability else false in
  let connection :=
    {| az_Type_ := "AZURE_EXPRESS_ROUTE";
       az_Name := name;
       az_Speed := int32 speed;
       az_Location := Some locationLink;
       az_Network := Some networkLink;
       az_BillingTerm := billingTerm;
       az_ServiceKey := serviceKey;
       az_CustomerNetworks := AddCustomerNetworks deps d;
       az_Nat := AddNATConfiguration deps d;
       az_Description := Description;
       az_HighAvailability := HighAvailability;
       az_Peering := AddPeeringType deps d |} in
  networkId <- first_field network "id" ;;
  ret (networkId, IsAzureExpressRouteConnection connection).

Definition resourceAzureConnectionCreate : M (World Remote) (option error) :=
  request <- azureConnection_request ;;
  let '(networkId, connection) := request in
  r <- call (AddConnection deps networkId connection) ;;
  let '(resp, err) := r in
  create_finish resourceAzureConnectionRead resp err.

(** The statements of [resourceDummyConnectionCreate] up to the call. *)
Definition dummyConnection_request : M (World Remote) (string * Connection Nat) :=
  d <- getD ;;
  let network := d_network d in
  let speed := d_speed d in
  let name := d_name d in
  let location := d_location d in
  let billingTerm := d_billing_term d in
  locationLink <- first_link location ;;
  networkLink <- first_link network ;;
  let '(description, ok) := GetOk_description d in
  let Description := if ok then description else "" in
  let '(highAvailability, ok) := GetOk_high_availability d in
  let HighAvailability := if ok then highAvailability else false in
  let connection :=
    {| dm_Type_ := "DUMMY";
       dm_Name := name;
       dm_Speed := int32 speed;
       dm_Location := Some locationLink;
       dm_Network := Some networkLink;
       dm_BillingTerm := billingTerm;
       dm_CustomerNetworks := AddCustomerNetworks deps d;
       dm_Nat := AddNATConfiguration deps d;
       dm_Description := Description;
       dm_HighAvailability := HighAvailability;
       dm_Peering := AddPeeringType deps d |} in
  networkId <- first_field network "id" ;;
  ret (networkId, IsDummyConnection connection).

Definition resourceDummyConnectionCreate : M (World Remote) (option error) :=
  request <- dummyConnection_request ;;
  let '(networkId, connection) := request in
  r <- call (AddConnection deps networkId connection) ;;
  let '(resp, err) := r in
  create_finish resourceDummyConnectionRead resp err.

End Connections.

(** **** Notions used to state the properties *)

(** A failed creation: the call returned an error, or a response whose
    status code is 300 or more. *)
Definition failedCreate (resp : option Response) (err : option error) : bool :=
  match err with
  | Some _ => true
  | None =>
      match resp with
      | Some resp => bool_decide (StatusCode resp >= 300)%Z
      | None => false
      end
  end.

(** **** Sample configurations and a sample service, for the examples *)

Module Fixture.

Definition configA : ProviderData :=
  {| access_key := "AKIA-A"; secret_key := "secret-A"; profile := "default";
     token := "token-A"; max_retries := 25 |}.

Definition configB : ProviderData :=
  {| access_key := "AKIA-B"; secret_key := "secret-B"; profile := "staging";
     token := "token-B"; max_retries := 3 |}.

(** An SDK whose configuration is the profile and the end point, and whose
    session is its configuration. *)
Definition sdk : SDK (string * string) unit (string * string) :=
  {| NewConfiguration := fun profile => (profile, "");
     WithEndPoint := fun cfg endpoint => (cfg.1, endpoint);
     NewLogConfig := tt;
     NewSession := fun cfg => cfg |}.

Definition state : ResourceData :=
  {| d_Id := "";
     d_network := [ {[ "id" := "network-1"; "href" := "/networks/network-1" ]} ];
     d_speed := 100;
     d_name := "conn";
     d_location := [ {[ "id" := "us-sea"; "href" := "/locations/us-sea" ]} ];
     d_billing_term := "HOURLY";
     d_service_key := "3f2a";
     d_description := "";
     d_high_availability := false |}.

(** A service whose AddConnection answers with the given response and
    error. *)
Definition deps (resp : option Response) (err : option error) : Deps unit unit :=
  {| AddConnection := fun _ _ r => ((resp, err), r);
     GetConnection := fun _ r => ((IsOtherConnection, None, Some (ErrorNew "unreachable")), r);
     AddCustomerNetworks := fun _ => [];
     AddNATConfiguration := fun _ => None;
     AddPeeringType := fun _ => Some {| Peering_Type_ := "PRIVATE" |};
     url_Parse := fun s => inr {| URL_Path := s |};
     filepath_Base := fun s => s;
     ResourceData_Set := fun _ _ d => inr d |}.

Definition serverError : Response :=
  {| StatusCode := 500; Header_Get := fun _ => "" |}.

Definition world : World unit := {| d := state; remote := tt |}.

End Fixture.

End Pureport.

(** * Further parts of the azurerm package *)

Module AzurermMore.
Import Azurerm.

(** ** config.go: the storage service clients built on the cached key *)

(** What the four getters use from the storage SDK and from the client's
    environment. *)
Record StorageSDK (StorageClient Blob File Table Queue : Type) : Type := {
  NewClient : string -> string -> string -> string -> bool -> error + StorageClient;
  GetBlobService : StorageClient -> Blob;
  GetFileService : StorageClient -> File;
  GetTableService : StorageClient -> Table;
  GetQueueService : StorageClient -> Queue;
  StorageEndpointSuffix : string;
  DefaultAPIVersion : string
}.
Arguments NewClient {StorageClient Blob File Table Queue} _.
Arguments GetBlobService {StorageClient Blob File Table Queue} _.
Arguments GetFileService {StorageClient Blob File Table Queue} _.
Arguments GetTableService {StorageClient Blob File Table Queue} _.
Arguments GetQueueService {StorageClient Blob File Table Queue} _.
Arguments StorageEndpointSuffix {StorageClient Blob File Table Queue} _.
Arguments DefaultAPIVersion {StorageClient Blob File Table Queue} _.

Section StorageClients.
Context {Remote StorageClient Blob File Table Queue : Type}.
Variable ListKeys : string -> string -> Remote ->
                    (AccountListKeysResult * option error) * Remote.
Variable sdk : StorageSDK StorageClient Blob File Table Queue.

Definition getBlobStorageClientForStorageAccount
    (resourceGroupName storageAccountName : string)
  : M (Process Remote) (option Blob * bool * option error) :=
  r <- getKeyForStorageAccount ListKeys resourceGroupName storageAccountName ;;
  let '(key, accountExists, err) := r in
  match err with
  | Some err => ret (None, accountExists, Some err)
  | None =>
      if negb accountExists then ret (None, false, None)
      else
        match NewClient sdk storageAccountName key (StorageEndpointSuffix sdk)
                        (DefaultAPIVersion sdk) true with
        | inl err =>
            ret (None, true,
                 Some (Wrapf "Error creating storage client for storage storeAccount %q: %s"
                             [storageAccountName] err))
        | inr storageClient =>
            let blobClient := GetBlobService sdk storageClient in
            ret (Some blobClient, true, None)
        end
  end.

Definition getFileServiceClientForStorageAccount
    (resourceGroupName storageAccountName : string)
  : M (Process Remote) (option File * bool * option error) :=
  r <- getKeyForStorageAccount ListKeys resourceGroupName storageAccountName ;;
  let '(key, accountExists, err) := r in
  match err with
  | Some err => ret (None, accountExists, Some err)
  | None =>
      if negb accountExists then ret (None, false, None)
      else
        match NewClient sdk storageAccountName key (StorageEndpointSuffix sdk)
                        (DefaultAPIVersion sdk) true with
        | inl err =>
            ret (None, true,
                 Some (Wrapf "Error creating storage client for storage storeAccount %q: %s"
                             [storageAccountName] err))
        | inr storageClient =>
            let fileClient := GetFileService sdk storageClient in
            ret (Some fileClient, true, None)
        end
  end.

Definition getTableServiceClientForStorageAccount
    (resourceGroupName storageAccountName : string)
  : M (Process Remote) (option Table * bool * option error) :=
  r <- getKeyForStorageAccount ListKeys resourceGroupName storageAccountName ;;
  let '(key, accountExists, err) := r in
  match err with
  | Some err => ret (None, accountExists, Some err)
  | None =>
      if negb accountExists then ret (None, false, None)
      else
        match NewClient sdk storageAccountName key (StorageEndpointSuffix sdk)
                        (DefaultAPIVersion sdk) true with
        | inl err =>
            ret (None, true,
                 Some (Wrapf "Error creating storage client for storage storeAccount %q: %s"
                             [storageAccountName] err))
        | inr storageClient =>
            let tableClient := GetTableService sdk storageClient in
            ret (Some tableClient, true, None)
        end
  end.

Definition getQueueServiceClientForStorageAccount
    (resourceGroupName storageAccountName : string)
  : M (Process Remote) (option Queue * bool * option error) :=
  r <- getKeyForStorageAccount ListKeys resourceGroupName storageAccountName ;;
  let '(key, accountExists, err) := r in
  match err with
  | Some err => ret (None, accountExists, Some err)
  | None =>
      if negb accountExists then ret (None, false, None)
      else
        match NewClient sdk storageAccountName key (StorageEndpointSuffix sdk)
                        (DefaultAPIVersion sdk) true with
        | inl err =>
            ret (None, true,
                 Some (Wrapf "Error creating storage client for storage storeAccount %q: %s"
                             [storageAccountName] err))
        | inr storageClient =>
            let queueClient := GetQueueService sdk storageClient in
            ret (Some queueClient, true, None)
        end
  end.

End StorageClients.

(** What each of the four getters guarantees of its result: a client
    exactly when the account exists and there is no error, on top of the
    call of [getKeyForStorageAccount] whose process state it leaves. *)
Definition getter_ok {Remote C}
    (ListKeys : string -> string -> Remote ->
                (AccountListKeysResult * option error) * Remote)
    (p : Process Remote) (rg acct : string)
    (o : outcome (Process Remote) (option C * bool * option error)) : Prop :=
  match o with
  | Done (client, accountExists, err) p' =>
      (is_Some client ↔ accountExists = true ∧ err = None) ∧
      ∃ key err0,
        getKeyForStorageAccount ListKeys rg acct p = Done (key, accountExists, err0) p' ∧
        (is_Some err0 → err = err0)
  | Blocked => ¬ mu_free p
  | Aborted _ => False
  end.

(** A storage SDK whose client is the account name and its key, refused
    when the key is empty. *)
Definition sampleStorageSDK : StorageSDK (string * string) string string string string :=
  {| NewClient := fun account key _ _ _ =>
       if decide (key = "") then inl (ErrorNew "azure: account key required")
       else inr (account, key);
     GetBlobService := fun c => "blob:" +:+ c.1;
     GetFileService := fun c => "file:" +:+ c.1;
     GetTableService := fun c => "table:" +:+ c.1;
     GetQueueService := fun c => "queue:" +:+ c.1;
     StorageEndpointSuffix := "core.windows.net";
     DefaultAPIVersion := "2016-05-31" |}.

(** ** A resource function that takes no lock: the data and the service *)

Record RW (D Remote : Type) : Type := { rd : D; rr : Remote }.
Arguments rd {D Remote} _.
Arguments rr {D Remote} _.

Definition getRD {D Remote} : M (RW D Remote) D := fun w => Done (rd w) w.

Definition modifyRD {D Remote} (f : D -> D) : M (RW D Remote) unit :=
  fun w => Done tt {| rd := f (rd w); rr := rr w |}.

Definition callR {D Remote A} (op : Remote -> A * Remote) : M (RW D Remote) A :=
  fun w => let '(a, r) := op (rr w) in Done a {| rd := rd w; rr := r |}.

(** ** resource_arm_automation_account.go *)

Module Automation.

(** Of [automation.Sku] the resource reads and writes the name only. *)
Record Sku : Type := { Sku_Name : string }.

Record Account : Type := {
  (* utils.ResponseWasNotFound(resp.Response) *)
  Account_ResponseWasNotFound : bool;
  Account_ID : option string;
  Account_Name : option string;
  Account_Location : option string;
  Account_Sku : option Sku;
  Account_Tags : option (gmap string string)
}.

Record AgentRegistrationKeys : Type := {
  Primary : option string;
  Secondary : option string
}.

Record AgentRegistration : Type := {
  Endpoint : option string;
  Keys : option AgentRegistrationKeys
}.

Record ResourceData : Type := {
  d_Id : string;
  d_IsNewResource : bool;
  d_name : string;
  d_location : string;
  d_resource_group_name : string;
  d_sku : list (gmap string string);
  d_tags : gmap string string;
  d_dsc_server_endpoint : string;
  d_dsc_primary_access_key : string;
  d_dsc_secondary_access_key : string
}.

Definition SetId (v : string) (d : ResourceData) : ResourceData :=
  {| d_Id := v; d_IsNewResource := d_IsNewResource d; d_name := d_name d;
     d_location := d_location d; d_resource_group_name := d_resource_group_name d;
     d_sku := d_sku d; d_tags := d_tags d;
     d_dsc_server_endpoint := d_dsc_server_endpoint d;
     d_dsc_primary_access_key := d_dsc_primary_access_key d;
     d_dsc_secondary_access_key := d_dsc_secondary_access_key d |}.

Definition Set_name (v : string) (d : ResourceData) : ResourceData :=
  {| d_Id := d_Id d; d_IsNewResource := d_IsNewResource d; d_name := v;
     d_location := d_location d; d_resource_group_name := d_resource_group_name d;
     d_sku := d_sku d; d_tags := d_tags d;
     d_dsc_server_endpoint := d_dsc_server_endpoint d;
     d_dsc_primary_access_key := d_dsc_primary_access_key d;
     d_dsc_secondary_access_key := d_dsc_secondary_access_key d |}.

Definition Set_resource_group_name (v : string) (d : ResourceData) : ResourceData :=
  {| d_Id := d_Id d; d_IsNewResource := d_IsNewResource d; d_name := d_name d;
     d_location := d_location d; d_resource_group_name := v;
     d_sku := d_sku d; d_tags := d_tags d;
     d_dsc_server_endpoint := d_dsc_server_endpoint d;
     d_dsc_primary_access_key := d_dsc_primary_access_key d;
     d_dsc_secondary_access_key := d_dsc_secondary_access_key d |}.

Definition Set_location (v : string) (d : ResourceData) : ResourceData :=
  {| d_Id := d_Id d; d_IsNewResource := d_IsNewResource d; d_name := d_name d;
     d_location := v; d_resource_group_name := d_resource_group_name d;
     d_sku := d_sku d; d_tags := d_tags d;
     d_dsc_server_endpoint := d_dsc_server_endpoint d;
     d_dsc_primary_access_key := d_dsc_primary_access_key d;
     d_dsc_secondary_access_key := d_dsc_secondary_access_key d |}.

Definition Set_sku (v : list (gmap string string)) (d : ResourceData) : ResourceData :=
  {| d_Id := d_Id d; d_IsNewResource := d_IsNewResource d; d_name := d_name d;
     d_location := d_location d; d_resource_group_name := d_resource_group_name d;
     d_sku := v; d_tags := d_tags d;
     d_dsc_server_endpoint := d_dsc_server_endpoint d;
     d_dsc_primary_access_key := d_dsc_primary_access_key d;
     d_dsc_secondary_access_key := d_dsc_secondary_access_key d |}.

Definition Set_dsc_server_endpoint (v : string) (d : ResourceData) : ResourceData :=
  {| d_Id := d_Id d; d_IsNewResource := d_IsNewResource d; d_name := d_name d;
     d_location := d_location d; d_resource_group_name := d_resource_group_name d;
     d_sku := d_sku d; d_tags := d_tags d;
     d_dsc_server_endpoint := v;
     d_dsc_primary_access_key := d_dsc_primary_access_key d;
     d_dsc_secondary_access_key := d_dsc_secondary_access_key d |}.

Definition Set_dsc_primary_access_key (v : string) (d : ResourceData) : ResourceData :=
  {| d_Id := d_Id d; d_IsNewResource := d_IsNewResource d; d_name := d_name d;
     d_location := d_location d; d_resource_group_name := d_resource_group_name d;
     d_sku := d_sku d; d_tags := d_tags d;
     d_dsc_server_endpoint := d_dsc_server_endpoint d;
     d_dsc_primary_access_key := v;
     d_dsc_secondary_access_key := d_dsc_secondary_access_key d |}.

Definition Set_dsc_secondary_access_key (v : string) (d : ResourceData) : ResourceData :=
  {| d_Id := d_Id d; d_IsNewResource := d_IsNewResource d; d_name := d_name d;
     d_location := d_location d; d_resource_group_name := d_resource_group_name d;
     d_sku := d_sku d; d_tags := d_tags d;
     d_dsc_server_endpoint := d_dsc_server_endpoint d;
     d_dsc_primary_access_key := d_dsc_primary_access_key d;
     d_dsc_secondary_access_key := v |}.

(** The methods of [automation.AccountClient] and of
    [automation.AgentRegistrationInfoClient] that the resource calls. *)
Record Clients (Remote : Type) : Type := {
  Get : string -> string -> Remote -> (Account * option error) * Remote;
  CreateOrUpdate : string -> string -> option Sku * option string * gmap string string ->
                   Remote -> option error * Remote;
  (* the bool is utils.ResponseWasNotFound(resp) *)
  Delete : string -> string -> Remote -> (bool * option error) * Remote;
  registration_Get : string -> string -> Remote ->
                     (AgentRegistration * option error) * Remote
}.
Arguments Get {Remote} _.
Arguments CreateOrUpdate {Remote} _.
Arguments Delete {Remote} _.
Arguments registration_Get {Remote} _.

(** What the resource file uses from the rest of the package and from the
    schema library. *)
Record Package : Type := {
  parseAzureResourceID : string -> error + ResourceID;
  requireResourcesToBeImported : bool;
  NormalizeLocation : string -> string;
  expandTags : gmap string string -> gmap string string;
  flattenAndSetTags : gmap string string -> ResourceData -> ResourceData;
  ImportAsExistsError : string -> string -> error;
  (* the error, if any, of d.Set("sku", v) *)
  Set_sku_err : list (gmap string string) -> option error
}.

Definition flattenAutomationAccountSku (sku : option Sku) : list (gmap string string) :=
  match sku with
  | None => []
  | Some sku =>
      let result : gmap string string := ∅ in
      let result := <["name" := Sku_Name sku]> result in
      [result]
  end.

(** [inputs[0]] and [input["name"].(string)] abort on an empty list and on
    a missing name. *)
Definition expandAutomationAccountSku {W} (d : ResourceData) : M W (option Sku) :=
  let inputs := d_sku d in
  input <- match inputs !! 0%nat with
           | Some input => ret input
           | None => panic "index out of range"
           end ;;
  name <- match input !! "name" with
          | Some name => ret name
          | None => panic "interface conversion: interface {} is nil, not string"
          end ;;
  let sku := {| Sku_Name := name |} in
  ret (Some sku).

Section Resource.
Context {Remote : Type}.
Variable pkg : Package.
Variable client : Clients Remote.

Definition resourceArmAutomationAccountRead : M (RW ResourceData Remote) (option error) :=
  d <- getRD ;;
  match parseAzureResourceID pkg (d_Id d) with
  | inl err => ret (Some err)
  | inr id =>
      let resGroup := ResourceGroup id in
      let name := index (Path id) "automationAccounts" in
      r <- callR (Get client resGroup name) ;;
      let '(resp, err) := r in
      match err with
      | Some err =>
          if Account_ResponseWasNotFound resp
          then modifyRD (SetId "") ;;; ret None
          else ret (Some (Wrapf "Error making Read request on Automation Account %q (Resource Group %q): %+v"
                                [name; resGroup] err))
      | None =>
          r <- callR (registration_Get client resGroup name) ;;
          let '(keysResp, err) := r in
          match err with
          | Some err =>
              if Account_ResponseWasNotFound resp
              then modifyRD (SetId "") ;;; ret None
              else ret (Some (Wrapf "Error making Read request for Agent Registration Info for Automation Account %q (Resource Group %q): %+v"
                                    [name; resGroup] err))
          | None =>
              modifyRD (Set_name (default "" (Account_Name resp))) ;;;
              modifyRD (Set_resource_group_name resGroup) ;;;
              match Account_Location resp with
              | Some location => modifyRD (Set_location (NormalizeLocation pkg location))
              | None => ret tt
              end ;;;
              let sku := flattenAutomationAccountSku (Account_Sku resp) in
              match Set_sku_err pkg sku with
              | Some err => ret (Some (Wrapf "Error setting `sku`: %+v" [] err))
              | None =>
                  modifyRD (Set_sku sku) ;;;
                  modifyRD (Set_dsc_server_endpoint (default "" (Endpoint keysResp))) ;;;
                  match Keys keysResp with
                  | Some keys =>
                      modifyRD (Set_dsc_primary_access_key (default "" (Primary keys))) ;;;
                      modifyRD (Set_dsc_secondary_access_key (default "" (Secondary keys)))
                  | None => ret tt
                  end ;;;
                  match Account_Tags resp with
                  | Some tags => modifyRD (flattenAndSetTags pkg tags)
                  | None => ret tt
                  end ;;;
                  ret None
              end
          end
      end
  end.

(** The import check at the head of create/update: [Some] is the error the
    function returns with. *)
Definition createUpdate_importCheck (d : ResourceData) (name resGroup : string)
  : M (RW ResourceData Remote) (option error) :=
  if requireResourcesToBeImported pkg && d_IsNewResource d then
    r <- callR (Get client resGroup name) ;;
    let '(existing, err) := r in
    let returned :=
      match err with
      | Some err =>
          if negb (Account_ResponseWasNotFound existing)
          then Some (Wrapf "Error checking for presence of existing Automation Account %q (Resource Group %q): %s"
                           [name; resGroup] err)
          else None
      | None => None
      end in
    match returned with
    | Some err => ret (Some err)
    | None =>
        match Account_ID existing with
        | Some id =>
            if decide (id ≠ "")
            then ret (Some (ImportAsExistsError pkg "azurerm_automation_account" id))
            else ret None
        | None => ret None
        end
    end
  else ret None.

Definition resourceArmAutomationAccountCreateUpdate
  : M (RW ResourceData Remote) (option error) :=
  d <- getRD ;;
  let name := d_name d in
  let resGroup := d_resource_group_name d in
  err <- createUpdate_importCheck d name resGroup ;;
  match err with
  | Some err => ret (Some err)
  | None =>
      let location := NormalizeLocation pkg (d_location d) in
      let tags := d_tags d in
      sku <- expandAutomationAccountSku d ;;
      let parameters := (sku, Some location, expandTags pkg tags) in
      err <- callR (CreateOrUpdate client resGroup name parameters) ;;
      match err with
      | Some err =>
          ret (Some (Wrapf "Error creating/updating Automation Account %q (Resource Group %q) %+v"
                           [name; resGroup] err))
      | None =>
          r <- callR (Get client resGroup name) ;;
          let '(read, err) := r in
          match err with
          | Some err =>
              ret (Some (Wrapf "Error retrieving Automation Account %q (Resource Group %q) %+v"
                               [name; resGroup] err))
          | None =>
              match Account_ID read with
              | None =>
                  ret (Some (Errorf "Cannot read Automation Account %q (Resource Group %q) ID"
                                    [name; resGroup]))
              | Some id =>
                  modifyRD (SetId id) ;;;
                  resourceArmAutomationAccountRead
              end
          end
      end
  end.

Definition resourceArmAutomationAccountDelete : M (RW ResourceData Remote) (option error) :=
  d <- getRD ;;
  match parseAzureResourceID pkg (d_Id d) with
  | inl err => ret (Some err)
  | inr id =>
      let resGroup := ResourceGroup id in
      let name := index (Path id) "automationAccounts" in
      r <- callR (Delete client resGroup name) ;;
      let '(resp, err) := r in
      match err with
      | Some err =>
          if resp then ret None
          else ret (Some (Wrapf "Error issuing AzureRM delete request for Automation Account '%s': %+v"
                                [name] err))
      | None => ret None
      end
  end.

End Resource.

End Automation.

(** ** data_source_managed_disk.go *)

Module ManagedDisk.

Record DiskSku : Type := { DiskSku_Name : string }.

Record DiskProperties : Type := {
  DiskSizeGB : option Z;
  OsType : string
}.

Record Disk (CreationData : Type) : Type := {
  (* utils.ResponseWasNotFound(resp.Response) *)
  Disk_ResponseWasNotFound : bool;
  Disk_ID : option string;
  Disk_Sku : option DiskSku;
  Disk_Properties : option DiskProperties;
  Disk_CreationData : option CreationData;
  Disk_Zones : option (list string);
  Disk_Tags : gmap string string
}.
Arguments Disk_ResponseWasNotFound {CreationData} _.
Arguments Disk_ID {CreationData} _.
Arguments Disk_Sku {CreationData} _.
Arguments Disk_Properties {CreationData} _.
Arguments Disk_CreationData {CreationData} _.
Arguments Disk_Zones {CreationData} _.
Arguments Disk_Tags {CreationData} _.

Record ResourceData : Type := {
  d_Id : string;
  d_name : string;
  d_resource_group_name : string;
  d_zones : list string;
  d_storage_account_type : string;
  d_source_uri : string;
  d_source_resource_id : string;
  d_os_type : string;
  d_disk_size_gb : Z;
  d_create_option : string;
  d_tags : gmap string string
}.

Definition SetId (v : string) (d : ResourceData) : ResourceData :=
  {| d_Id := v; d_name := d_name d; d_resource_group_name := d_resource_group_name d;
     d_zones := d_zones d; d_storage_account_type := d_storage_account_type d;
     d_source_uri := d_source_uri d; d_source_resource_id := d_source_resource_id d;
     d_os_type := d_os_type d; d_disk_size_gb := d_disk_size_gb d;
     d_create_option := d_create_option d; d_tags := d_tags d |}.

Definition Set_storage_account_type (v : string) (d : ResourceData) : ResourceData :=
  {| d_Id := d_Id d; d_name := d_name d; d_resource_group_name := d_resource_group_name d;
     d_zones := d_zones d; d_storage_account_type := v;
     d_source_uri := d_source_uri d; d_source_resource_id := d_source_resource_id d;
     d_os_type := d_os_type d; d_disk_size_gb := d_disk_size_gb d;
     d_create_option := d_create_option d; d_tags := d_tags d |}.

Definition Set_disk_size_gb (v : Z) (d : ResourceData) : ResourceData :=
  {| d_Id := d_Id d; d_name := d_name d; d_resource_group_name := d_resource_group_name d;
     d_zones := d_zones d; d_storage_account_type := d_storage_account_type d;
     d_source_uri := d_source_uri d; d_source_resource_id := d_source_resource_id d;
     d_os_type := d_os_type d; d_disk_size_gb := v;
     d_create_option := d_create_option d; d_tags := d_tags d |}.

Definition Set_os_type (v : string) (d : ResourceData) : ResourceData :=
  {| d_Id := d_Id d; d_name := d_name d; d_resource_group_name := d_resource_group_name d;
     d_zones := d_zones d; d_storage_account_type := d_storage_account_type d;
     d_source_uri := d_source_uri d; d_source_resource_id := d_source_resource_id d;
     d_os_type := v; d_disk_size_gb := d_disk_size_gb d;
     d_create_option := d_create_option d; d_tags := d_tags d |}.

Definition Set_zones (v : list string) (d : ResourceData) : ResourceData :=
  {| d_Id := d_Id d; d_name := d_name d; d_resource_group_name := d_resource_group_name d;
     d_zones := v; d_storage_account_type := d_storage_account_type d;
     d_source_uri := d_source_uri d; d_source_resource_id := d_source_resource_id d;
     d_os_type := d_os_type d; d_disk_size_gb := d_disk_size_gb d;
     d_create_option := d_create_option d; d_tags := d_tags d |}.

(** What the data source uses from the SDK and from the rest of the
    package. *)
Record Deps (Remote CreationData : Type) : Type := {
  Get : string -> string -> Remote -> (Disk CreationData * option error) * Remote;
  flattenAzureRmManagedDiskCreationData : CreationData -> ResourceData -> ResourceData;
  flattenAndSetTags : gmap string string -> ResourceData -> ResourceData
}.
Arguments Get {Remote CreationData} _.
Arguments flattenAzureRmManagedDiskCreationData {Remote CreationData} _.
Arguments flattenAndSetTags {Remote CreationData} _.

Section DataSource.
Context {Remote CreationData : Type}.
Variable deps : Deps Remote CreationData.

Definition dataSourceArmManagedDiskRead : M (RW ResourceData Remote) (option error) :=
  d <- getRD ;;
  let resGroup := d_resource_group_name d in
  let name := d_name d in
  r <- callR (Get deps resGroup name) ;;
  let '(resp, err) := r in
  match err with
  | Some err =>
      if Disk_ResponseWasNotFound resp
      then ret (Some (Errorf "Error: Managed Disk %q (Resource Group %q) was not found"
                             [name; resGroup]))
      else ret (Some (Wrapf "[ERROR] Error making Read request on Azure Managed Disk %q (Resource Group %q): %s"
                            [name; resGroup] err))
  | None =>
      id <- deref (Disk_ID resp) ;;
      modifyRD (SetId id) ;;;
      match Disk_Sku resp with
      | Some sku => modifyRD (Set_storage_account_type (DiskSku_Name sku))
      | None => ret tt
      end ;;;
      match Disk_Properties resp with
      | Some props =>
          match DiskSizeGB props with
          | Some diskSize => modifyRD (Set_disk_size_gb diskSize)
          | None => ret tt
          end ;;;
          if decide (OsType props ≠ "")
          then modifyRD (Set_os_type (OsType props))
          else ret tt
      | None => ret tt
      end ;;;
      match Disk_CreationData resp with
      | Some creationData =>
          modifyRD (flattenAzureRmManagedDiskCreationData deps creationData)
      | None => ret tt
      end ;;;
      modifyRD (Set_zones (default [] (Disk_Zones resp))) ;;;
      modifyRD (flattenAndSetTags deps (Disk_Tags resp)) ;;;
      ret None
  end.

End DataSource.

End ManagedDisk.

(** ** validate.go: the validation helpers *)

Module Validate.

(** The [interface{}] a validation function is handed. *)
Inductive Interface : Type :=
| IsString (s : string)
| IsOther.

(** [v.(string)] *)
Definition assertString {W} (v : Interface) : M W string :=
  match v with
  | IsString s => ret s
  | IsOther => panic "interface conversion: interface {} is not string"
  end.

(** [strings.HasPrefix] *)
Fixpoint HasPrefix (s prefix : string) : bool :=
  match prefix with
  | EmptyString => true
  | String c prefix' =>
      match s with
      | EmptyString => false
      | String c' s' => if decide (c' = c) then HasPrefix s' prefix' else false
      end
  end.

(** [strings.Join] *)
Fixpoint Join (elems : list string) (sep : string) : string :=
  match elems with
  | [] => ""
  | [e] => e
  | e :: elems' => e +:+ sep +:+ Join elems' sep
  end.

Definition newline : string := String (ascii_of_nat 10) EmptyString.

(** *** Regular expressions, as far as the two patterns of the file go.
    [regexp.MatchString] with a pattern between [^] and [$] asks whether the
    whole text is in the language of the pattern. *)
Inductive regex : Type :=
| Void
| Eps
| Class (p : ascii -> bool)
| Cat (r1 r2 : regex)
| Alt (r1 r2 : regex)
| Star (r : regex).

Definition Opt (r : regex) : regex := Alt r Eps.
Definition Plus (r : regex) : regex := Cat r (Star r).
Definition Lit (c : ascii) : regex := Class (fun c' => bool_decide (c' = c)).

Fixpoint nullable (r : regex) : bool :=
  match r with
  | Void => false
  | Eps => true
  | Class _ => false
  | Cat r1 r2 => nullable r1 && nullable r2
  | Alt r1 r2 => nullable r1 || nullable r2
  | Star _ => true
  end.

Fixpoint deriv (c : ascii) (r : regex) : regex :=
  match r with
  | Void => Void
  | Eps => Void
  | Class p => if p c then Eps else Void
  | Cat r1 r2 =>
      Alt (Cat (deriv c r1) r2) (if nullable r1 then deriv c r2 else Void)
  | Alt r1 r2 => Alt (deriv c r1) (deriv c r2)
  | Star r' => Cat (deriv c r') (Star r')
  end.

Fixpoint matches (r : regex) (s : string) : bool :=
  match s with
  | EmptyString => nullable r
  | String c s' => matches (deriv c r) s'
  end.

Definition between (lo hi : nat) (c : ascii) : bool :=
  (lo <=? nat_of_ascii c) && (nat_of_ascii c <=? hi).

(** [[0-9]] *)
Definition digit (c : ascii) : bool := between 48 57 c.

(** [[A-Za-z0-9_. ]] *)
Definition collationChar (c : ascii) : bool :=
  between 65 90 c || between 97 122 c || between 48 57 c
  || bool_decide (c = "_"%char) || bool_decide (c = "."%char)
  || bool_decide (c = " "%char).

(** [^P([0-9]+Y)?([0-9]+M)?([0-9]+W)?([0-9]+D)?(T([0-9]+H)?([0-9]+M)?([0-9]+(\.?[0-9]+)?S)?)?$] *)
Definition iso8601DurationPattern : regex :=
  let num := Plus (Class digit) in
  let part (designator : ascii) := Opt (Cat num (Lit designator)) in
  let seconds :=
    Opt (Cat (Cat num (Opt (Cat (Opt (Lit "."%char)) num))) (Lit "S"%char)) in
  Cat (Lit "P"%char)
    (Cat (part "Y"%char)
       (Cat (part "M"%char)
          (Cat (part "W"%char)
             (Cat (part "D"%char)
                (Opt (Cat (Lit "T"%char)
                        (Cat (part "H"%char) (Cat (part "M"%char) seconds)))))))).

(** [^[A-Za-z0-9_. ]+$] *)
Definition collationPattern : regex := Plus (Class collationChar).

(** The characters the duration pattern mentions. *)
Definition iso8601Char (c : ascii) : bool :=
  digit c || bool_decide (c = "P"%char) || bool_decide (c = "Y"%char)
  || bool_decide (c = "M"%char) || bool_decide (c = "W"%char)
  || bool_decide (c = "D"%char) || bool_decide (c = "T"%char)
  || bool_decide (c = "H"%char) || bool_decide (c = "S"%char)
  || bool_decide (c = "."%char).

(** Some class of the pattern takes the character. *)
Fixpoint takes (r : regex) (c : ascii) : bool :=
  match r with
  | Void | Eps => false
  | Class p => p c
  | Cat r1 r2 | Alt r1 r2 => takes r1 c || takes r2 c
  | Star r' => takes r' c
  end.

(** The language of the pattern is empty for a reason of its shape. *)
Fixpoint dead (r : regex) : bool :=
  match r with
  | Void => true
  | Eps | Class _ | Star _ => false
  | Cat r1 r2 => dead r1 || dead r2
  | Alt r1 r2 => dead r1 && dead r2
  end.

(** All characters of a string satisfy a test. *)
Fixpoint allChars (p : ascii -> bool) (s : string) : bool :=
  match s with
  | EmptyString => true
  | String c s' => p c && allChars p s'
  end.

Section Validators.
Context {W : Type}.

(** [date.ParseTime(time.RFC3339, s)] and [uuid.FromString(s)]: the error,
    if any; and [e.Error()]. *)
Variable ParseTime_RFC3339 : string -> option error.
Variable uuid_FromString : string -> option error.
Variable Error : error -> string.

Definition validateRFC3339Date (v : Interface) (k : string)
  : M W (list string * list error) :=
  let warnings := [] in
  let errors := [] in
  dateString <- assertString v ;;
  match ParseTime_RFC3339 dateString with
  | Some err =>
      ret (warnings, errors ++ [Wrapf "%q is an invalid RFC3339 date: %+v" [k] err])
  | None => ret (warnings, errors)
  end.

Definition validateUUID (v : Interface) (k : string) : M W (list string * list error) :=
  let warnings := [] in
  let errors := [] in
  s <- assertString v ;;
  match uuid_FromString s with
  | Some err => ret (warnings, errors ++ [Wrapf "%q is an invalid UUUID: %s" [k] err])
  | None => ret (warnings, errors)
  end.

Definition evaluateSchemaValidateFunc (i : Interface) (k : string)
    (validateFunc : Interface -> string -> M W (list string * list error))
  : M W (bool * option error) :=
  r <- validateFunc i k ;;
  let '(_, errors) := r in
  let errorStrings := foldl (fun errorStrings e => errorStrings ++ [Error e]) [] errors in
  if bool_decide (0 < length errors)
  then ret (false, Some (Errorf (Join errorStrings newline) []))
  else ret (true, None).

Definition validateIso8601Duration (i : Interface) (k : string)
  : M W (list string * list error) :=
  let warnings := [] in
  let errors := [] in
  match i with
  | IsOther => ret (warnings, errors ++ [Errorf "expected type of %s to be string" [k]])
  | IsString v =>
      let matched := matches iso8601DurationPattern v in
      if negb matched
      then ret (warnings,
                errors ++ [Errorf "expected %s to be in ISO 8601 duration format, got %s"
                                  [k; v]])
      else ret (warnings, errors)
  end.

Definition validateCollation (i : Interface) (k : string)
  : M W (list string * list error) :=
  let warnings := [] in
  let errors := [] in
  match i with
  | IsOther => ret (warnings, errors ++ [Errorf "expected type of %s to be string" [k]])
  | IsString v =>
      let matched := matches collationPattern v in
      if negb matched
      then ret (warnings,
                errors ++ [Errorf "%s contains invalid characters, only underscores are supported, got %s"
                                  [k; v]])
      else ret (warnings, errors)
  end.

Definition validateFilePath (v : Interface) (k : string) : M W (list string * list error) :=
  let warnings := [] in
  let errors := [] in
  val <- assertString v ;;
  if negb (HasPrefix val "/")
  then ret (warnings, errors ++ [Errorf "%q must start with `/`" [k]])
  else ret (warnings, errors).

End Validators.

End Validate.

(** ** The DDoS protection plan resource, with the order of the lock helper
       left open *)

Module LockOrder.

Section Ordered.
Context {Remote Future : Type}.

(** Modelled from the spec: the order in which [azureRMLockMultipleByName]
    (locks.go, not among the sources at hand) takes the locks of the names
    it is handed. The specification says that the locks are acquired "in a
    fixed order" ("in a stable order"): [order] arranges the names it is
    given in that order. *)
Variable order : list string -> list string.

(** Modelled from the spec: [azureRMLockMultipleByName] taking the locks of
    the names in the fixed order. *)
Definition azureRMLockMultipleByName_ordered (names : list string) (resourceType : string)
  : M (World Remote) unit :=
  azureRMLockMultipleByName (order names) resourceType.

(** Modelled from the spec: [azureRMUnlockMultipleByName] giving the locks of
    the names back in the fixed order. *)
Definition azureRMUnlockMultipleByName_ordered (names : list string) (resourceType : string)
  : M (World Remote) unit :=
  azureRMUnlockMultipleByName (order names) resourceType.

Variable pkg : Package.
Variable client : DdosProtectionPlansClient Remote Future.

(** [resourceArmDDoSProtectionPlanCreateUpdate] over these helpers; with an
    [order] that leaves the slice as it is, it is the function of that name
    above. *)
Definition resourceArmDDoSProtectionPlanCreateUpdate_ordered
  : M (World Remote) (option error) :=
  d <- getD ;;
  let name := d_name d in
  let resourceGroup := d_resource_group_name d in
  err <- createUpdate_importCheck pkg client d name resourceGroup ;;
  match err with
  | Some err => ret (Some err)
  | None =>
      let location := NormalizeLocation pkg (d_location d) in
      let tags := d_tags d in
      match extractVnetNames (parseAzureResourceID pkg) d with
      | inl err =>
          ret (Some (Wrapf "Error extracting names of Virtual Network: %+v" [] err))
      | inr vnetsToLock =>
          azureRMLockByName name azureDDoSProtectionPlanResourceName ;;;
          defer (azureRMUnlockByName name azureDDoSProtectionPlanResourceName)
            (azureRMLockMultipleByName_ordered vnetsToLock (virtualNetworkResourceName pkg) ;;;
             defer (azureRMUnlockMultipleByName_ordered vnetsToLock
                      (virtualNetworkResourceName pkg))
               (createUpdate_locked pkg client name resourceGroup location tags))
      end
  end.

(** [resourceArmDDoSProtectionPlanDelete] over these helpers. *)
Definition resourceArmDDoSProtectionPlanDelete_ordered : M (World Remote) (option error) :=
  d <- getD ;;
  match parseAzureResourceID pkg (d_Id d) with
  | inl err => ret (Some err)
  | inr id =>
      let resourceGroup := ResourceGroup id in
      let name := index (Path id) "ddosProtectionPlans" in
      r <- call (Get client resourceGroup name) ;;
      let '(read, err) := r in
      match err with
      | Some err =>
          if ResponseWasNotFound read
          then ret None
          else ret (Some (Wrapf "Error retrieving DDoS Protection Plan %q (Resource Group %q): %+v"
                                [name; resourceGroup] err))
      | None =>
          d <- getD ;;
          match extractVnetNames (parseAzureResourceID pkg) d with
          | inl err =>
              ret (Some (Wrapf "Error extracting names of Virtual Network: %+v" [] err))
          | inr vnetsToLock =>
              azureRMLockByName name azureDDoSProtectionPlanResourceName ;;;
              defer (azureRMUnlockByName name azureDDoSProtectionPlanResourceName)
                (azureRMLockMultipleByName_ordered vnetsToLock
                   (virtualNetworkResourceName pkg) ;;;
                 defer (azureRMUnlockMultipleByName_ordered vnetsToLock
                          (virtualNetworkResourceName pkg))
                   (delete_locked client name resourceGroup))
          end
      end
  end.

Definition runMutation_ordered (m : Mutation) : M (World Remote) (option error) :=
  match m with
  | CreateUpdate => resourceArmDDoSProtectionPlanCreateUpdate_ordered
  | DeleteOp => resourceArmDDoSProtectionPlanDelete_ordered
  end.

End Ordered.


(** A fixed order: the names in ascending order. *)
Definition ascending (names : list string) : list string :=
  merge_sort String.le names.

End LockOrder.

(** ** Sample services and states for the parts above *)

Module SampleMore.

Definition account_ID : string :=
  "/subscriptions/s1/resourceGroups/rg1/providers/Microsoft.Automation/automationAccounts/acct1".

Definition parse (id : string) : error + ResourceID :=
  if decide (id = account_ID)
  then inr {| ResourceGroup := "rg1"; Path := {[ "automationAccounts" := "acct1" ]} |}
  else Sample.parse id.

Definition automationPkg : Automation.Package :=
  {| Automation.parseAzureResourceID := parse;
     Automation.requireResourcesToBeImported := true;
     Automation.NormalizeLocation := fun l => l;
     Automation.expandTags := fun t => t;
     Automation.flattenAndSetTags := fun _ d => d;
     Automation.ImportAsExistsError := fun r id =>
       Errorf "A resource with the ID %q already exists" [id; r];
     Automation.Set_sku_err := fun _ => None |}.

Definition account : Automation.Account :=
  {| Automation.Account_ResponseWasNotFound := false;
     Automation.Account_ID := Some account_ID;
     Automation.Account_Name := Some "acct1";
     Automation.Account_Location := Some "westeurope";
     Automation.Account_Sku := Some {| Automation.Sku_Name := "Basic" |};
     Automation.Account_Tags := None |}.

(** The account exists; its registration information cannot be fetched,
    and deleting it answers not-found. *)
Definition automationClient : Automation.Clients unit :=
  {| Automation.Get := fun _ _ r => ((account, None), r);
     Automation.CreateOrUpdate := fun _ _ _ r => (None, r);
     Automation.Delete := fun _ _ r => ((true, Some (ErrorNew "StatusCode=404")), r);
     Automation.registration_Get := fun _ _ r =>
       (({| Automation.Endpoint := None; Automation.Keys := None |},
         Some (ErrorNew "StatusCode=404")), r) |}.

Definition automationState (isNew : bool) (sku : list (gmap string string))
  : Automation.ResourceData :=
  {| Automation.d_Id := account_ID; Automation.d_IsNewResource := isNew;
     Automation.d_name := "acct1"; Automation.d_location := "westeurope";
     Automation.d_resource_group_name := "rg1"; Automation.d_sku := sku;
     Automation.d_tags := ∅; Automation.d_dsc_server_endpoint := "";
     Automation.d_dsc_primary_access_key := "";
     Automation.d_dsc_secondary_access_key := "" |}.

Definition diskState : ManagedDisk.ResourceData :=
  {| ManagedDisk.d_Id := ""; ManagedDisk.d_name := "disk1";
     ManagedDisk.d_resource_group_name := "rg1"; ManagedDisk.d_zones := [];
     ManagedDisk.d_storage_account_type := ""; ManagedDisk.d_source_uri := "";
     ManagedDisk.d_source_resource_id := ""; ManagedDisk.d_os_type := "";
     ManagedDisk.d_disk_size_gb := 0; ManagedDisk.d_create_option := "";
     ManagedDisk.d_tags := ∅ |}.

(** A disk service that answers with the given disk and error. *)
Definition diskDeps (disk : ManagedDisk.Disk unit) (err : option error)
  : ManagedDisk.Deps unit unit :=
  {| ManagedDisk.Get := fun _ _ r => ((disk, err), r);
     ManagedDisk.flattenAzureRmManagedDiskCreationData := fun _ d => d;
     ManagedDisk.flattenAndSetTags := fun _ d => d |}.

Definition diskWithoutID : ManagedDisk.Disk unit :=
  {| ManagedDisk.Disk_ResponseWasNotFound := false; ManagedDisk.Disk_ID := None;
     ManagedDisk.Disk_Sku := None; ManagedDisk.Disk_Properties := None;
     ManagedDisk.Disk_CreationData := None; ManagedDisk.Disk_Zones := None;
     ManagedDisk.Disk_Tags := ∅ |}.

(** The DDoS package of the first sample, with the import check on. *)
Definition importingPkg : Package :=
  {| parseAzureResourceID := Sample.parse;
     requireResourcesToBeImported := true;
     virtualNetworkResourceName := "azurerm_virtual_network";
     NormalizeLocation := fun l => l;
     expandTags := fun t => t;
     flattenAndSetTags := Set_tags;
     ImportAsExistsError := fun r id =>
       Errorf "A resource with the ID %q already exists" [id; r];
     Set_virtual_network_ids_err := fun _ => None |}.

Definition newPlanWorld : World unit :=
  {| d := {| d_Id := ""; d_IsNewResource := true; d_name := "plan1";
             d_location := "westeurope"; d_resource_group_name := "rg1";
             d_virtual_network_ids := [Sample.vnetA_ID]; d_tags := ∅ |};
     remote := tt; armMutexKV := ∅; lockLog := [] |}.

(** A service on which creating the plan fails. *)
Definition failingClient : DdosProtectionPlansClient unit unit :=
  {| Azurerm.Get := fun _ _ r => ((Sample.plan, None), r);
     Azurerm.CreateOrUpdate := fun _ _ _ r => ((tt, Some (ErrorNew "StatusCode=409")), r);
     Azurerm.Delete := fun _ _ r => ((tt, Some (ErrorNew "StatusCode=409")), r);
     WaitForCompletionRef := fun _ r => (None, r) |}.

(** The sample state with an ID that is no resource ID. *)
Definition unparsableWorld : World unit :=
  {| d := {| d_Id := "plan1"; d_IsNewResource := false; d_name := "plan1";
             d_location := "westeurope"; d_resource_group_name := "rg1";
             d_virtual_network_ids := []; d_tags := ∅ |};
     remote := tt; armMutexKV := ∅; lockLog := [] |}.

(** The package of the first sample, with a schema that refuses the list of
    virtual-network IDs. *)
Definition refusingPkg : Package :=
  {| parseAzureResourceID := Sample.parse;
     requireResourcesToBeImported := false;
     virtualNetworkResourceName := "azurerm_virtual_network";
     NormalizeLocation := fun l => l;
     expandTags := fun t => t;
     flattenAndSetTags := Set_tags;
     ImportAsExistsError := fun r id =>
       Errorf "A resource with the ID %q already exists" [id; r];
     Set_virtual_network_ids_err := fun _ =>
       Some (ErrorNew "virtual_network_ids: computed attribute cannot be set") |}.

End SampleMore.

End AzurermMore.

(** * Further samples for the Pureport resources *)

Module PureportMore.
Import Pureport.

(** The answer to a creation that went through. *)
Definition created : Response :=
  {| StatusCode := 201;
     Header_Get := fun key =>
       if decide (key = "location") then "/connections/conn-42" else "" |}.

(** The sample service, with a URL parser that refuses every string. *)
Definition depsUnparsable (resp : option Response) (err : option error) : Deps unit unit :=
  {| AddConnection := AddConnection (Fixture.deps resp err);
     GetConnection := GetConnection (Fixture.deps resp err);
     AddCustomerNetworks := AddCustomerNetworks (Fixture.deps resp err);
     AddNATConfiguration := AddNATConfiguration (Fixture.deps resp err);
     AddPeeringType := AddPeeringType (Fixture.deps resp err);
     url_Parse := fun _ => inl (ErrorNew "parse: invalid URI for request");
     filepath_Base := filepath_Base (Fixture.deps resp err);
     ResourceData_Set := ResourceData_Set (Fixture.deps resp err) |}.

(** The sample service after a creation that went through: the path of the
    Location header is /connections/conn-42 and its base name conn-42. *)
Definition depsCreated : Deps unit unit :=
  {| AddConnection := fun _ _ r => ((Some created, None), r);
     GetConnection := GetConnection (Fixture.deps None None);
     AddCustomerNetworks := AddCustomerNetworks (Fixture.deps None None);
     AddNATConfiguration := AddNATConfiguration (Fixture.deps None None);
     AddPeeringType := AddPeeringType (Fixture.deps None None);
     url_Parse := fun s => inr {| URL_Path := s |};
     filepath_Base := fun path =>
       if decide (path = "/connections/conn-42") then "conn-42" else path;
     ResourceData_Set := ResourceData_Set (Fixture.deps None None) |}.

(** The sample state without any location. *)
Definition stateWithoutLocation : ResourceData :=
  {| d_Id := ""; d_network := d_network Fixture.state; d_speed := 100;
     d_name := "conn"; d_location := []; d_billing_term := "HOURLY";
     d_service_key := "3f2a"; d_description := ""; d_high_availability := false |}.

(** What both read functions do with a failed call, for the words [kind] of
    their messages. *)
Definition read_failure {Remote} (kind : string) (w : World Remote)
    (resp : option Response) (err : option error) (r : Remote)
  : option (outcome (World Remote) (option error)) :=
  match resp with
  | None => Some (Aborted "invalid memory address or nil pointer dereference")
  | Some resp =>
      match err with
      | Some err =>
          Some (Done (Some (Wrapf ("Error reading data for " +:+ kind +:+ " Connection: %s")
                                  [] err))
                     {| d := if bool_decide (StatusCode resp = 404%Z)
                             then SetId "" (d w) else d w;
                        remote := r |})
      | None =>
          if bool_decide (StatusCode resp >= 300)%Z
          then Some (Done (Some (Errorf ("Error Response while reading " +:+ kind
                                         +:+ " Connection: code=%v") []))
                          {| d := d w; remote := r |})
          else None
      end
  end.

End PureportMore.

(** * Properties *)

(** ** The Pureport provider and its connection resources *)

Module PureportFacts.
Import Pureport.

(** C6. providerConfigure does not read the configuration: whatever the
    SDK and the logger state, two configurations (in particular the sample
    ones, which differ in access_key, secret_key, profile, token and
    max_retries) yield the same session, the same error and the same logger
    state. The schema of [Provider_Schema] declares these five fields, yet no
    pair of configurations is told apart. *)
Theorem providerConfigure_ignores_credentials {Configuration LogConfig Session : Type}
    (sdk : SDK Configuration LogConfig Session) (logger : option LogConfig) :
  (∀ d1 d2 : ProviderData,
     providerConfigure sdk d1 logger = providerConfigure sdk d2 logger) ∧
  providerConfigure sdk Fixture.configA logger = providerConfigure sdk Fixture.configB logger ∧
  providerConfigure sdk Fixture.configA logger
  = Done (NewSession sdk (WithEndPoint sdk (NewConfiguration sdk "")
                                       "https://dev1-api.pureportdev.com"), None)
         (Some (NewLogConfig sdk)) ∧
  (fst <$> Provider_Schema) = ["access_key"; "secret_key"; "profile"; "token"; "max_retries"].
Proof. repeat split. Qed.

(** On the sample SDK the session carries the fixed end point and the empty
    profile for both sample configurations. *)
Example sample_providerConfigure :
  providerConfigure Fixture.sdk Fixture.configA None
  = Done (("", "https://dev1-api.pureportdev.com"), None) (Some tt) ∧
  providerConfigure Fixture.sdk Fixture.configB None
  = Done (("", "https://dev1-api.pureportdev.com"), None) (Some tt).
Proof. split; reflexivity. Qed.

Section ConnectionFacts.
Context {Remote Nat : Type}.
Variable deps : Deps Remote Nat.
Implicit Types w : World Remote.

(** Reading a field of the first element of a list does not change the
    world. *)
Lemma first_field_pure l key w v w' :
  first_field l key w = Done v w' → w' = w.
Proof.
  unfold first_field. destruct (l !! 0%nat) as [m|]; [|discriminate].
  destruct (m !! key); [|discriminate]. by intros [= _ <-].
Qed.

Lemma first_link_pure l w v w' : first_link l w = Done v w' → w' = w.
Proof.
  unfold first_link, bind.
  destruct (first_field l "id" w) as [id w1| |] eqn:E1; [|discriminate..].
  apply first_field_pure in E1 as ->.
  destruct (first_field l "href" w) as [href w2| |] eqn:E2; [|discriminate..].
  apply first_field_pure in E2 as ->. by intros [= _ <-].
Qed.

(** Building the request only reads the state. *)
Lemma azureConnection_request_pure w v w' :
  azureConnection_request deps w = Done v w' → w' = w.
Proof.
  unfold azureConnection_request, bind, getD. cbv beta iota.
  destruct (first_link (d_location (d w)) w) as [ll w1| |] eqn:E1; [|discriminate..].
  apply first_link_pure in E1 as ->.
  destruct (first_link (d_network (d w)) w) as [nl w2| |] eqn:E2; [|discriminate..].
  apply first_link_pure in E2 as ->. simpl.
  destruct (first_field (d_network (d w)) "id" w) as [id w3| |] eqn:E3; [|discriminate..].
  apply first_field_pure in E3 as ->. by intros [= _ <-].
Qed.

Lemma dummyConnection_request_pure w v w' :
  dummyConnection_request deps w = Done v w' → w' = w.
Proof.
  unfold dummyConnection_request, bind, getD. cbv beta iota.
  destruct (first_link (d_location (d w)) w) as [ll w1| |] eqn:E1; [|discriminate..].
  apply first_link_pure in E1 as ->.
  destruct (first_link (d_network (d w)) w) as [nl w2| |] eqn:E2; [|discriminate..].
  apply first_link_pure in E2 as ->. simpl.
  destruct (first_field (d_network (d w)) "id" w) as [id w3| |] eqn:E3; [|discriminate..].
  apply first_field_pure in E3 as ->. by intros [= _ <-].
Qed.

(** After a failed AddConnection both create functions end the same way. *)
Lemma create_finish_failed read resp err w :
  failedCreate resp err = true →
  create_finish deps read resp err w
  = Done None {| d := SetId "" (d w); remote := remote w |}.
Proof.
  unfold failedCreate, create_finish. destruct err as [err|]; [done|].
  destruct resp as [resp|]; [|discriminate]. intros H.
  unfold bind, deref, ret. simpl. by rewrite H.
Qed.

End ConnectionFacts.

(** C8. Whenever resourceAzureConnectionCreate or
    resourceDummyConnectionCreate gets to its AddConnection call and the call
    fails (it returns an error, or a response whose status code is 300 or
    more), the function sets the ID to the empty string and returns nil, the
    rest of the state being as it was: no error reaches the caller. *)
Theorem failed_create_clears_id_and_returns_nil {Remote Nat : Type}
    (deps : Deps Remote Nat) (w : World Remote) :
  match azureConnection_request deps w with
  | Done (networkId, connection) _ =>
      let '((resp, err), r) := AddConnection deps networkId connection (remote w) in
      if failedCreate resp err
      then resourceAzureConnectionCreate deps w
           = Done None {| d := SetId "" (d w); remote := r |}
      else True
  | Blocked | Aborted _ => True
  end ∧
  match dummyConnection_request deps w with
  | Done (networkId, connection) _ =>
      let '((resp, err), r) := AddConnection deps networkId connection (remote w) in
      if failedCreate resp err
      then resourceDummyConnectionCreate deps w
           = Done None {| d := SetId "" (d w); remote := r |}
      else True
  | Blocked | Aborted _ => True
  end.
Proof.
  split.
  - destruct (azureConnection_request deps w) as [[networkId connection] w0| |] eqn:E;
      [|done|done].
    pose proof (azureConnection_request_pure deps _ _ _ E) as ->.
    destruct (AddConnection deps networkId connection (remote w)) as [[resp err] r] eqn:EA.
    destruct (failedCreate resp err) eqn:Hf; [|done].
    unfold resourceAzureConnectionCreate, bind. rewrite E.
    unfold call. rewrite EA. by rewrite create_finish_failed.
  - destruct (dummyConnection_request deps w) as [[networkId connection] w0| |] eqn:E;
      [|done|done].
    pose proof (dummyConnection_request_pure deps _ _ _ E) as ->.
    destruct (AddConnection deps networkId connection (remote w)) as [[resp err] r] eqn:EA.
    destruct (failedCreate resp err) eqn:Hf; [|done].
    unfold resourceDummyConnectionCreate, bind. rewrite E.
    unfold call. rewrite EA. by rewrite create_finish_failed.
Qed.

(** With a well-formed state both create functions get to the call; a
    transport error and a 500 response both end in nil with the ID empty. *)
Example sample_failed_create :
  resourceAzureConnectionCreate (Fixture.deps None (Some (ErrorNew "connection refused")))
                                Fixture.world
  = Done None {| d := SetId "" Fixture.state; remote := tt |} ∧
  resourceAzureConnectionCreate (Fixture.deps (Some Fixture.serverError) None) Fixture.world
  = Done None {| d := SetId "" Fixture.state; remote := tt |} ∧
  resourceDummyConnectionCreate (Fixture.deps None (Some (ErrorNew "connection refused")))
                                Fixture.world
  = Done None {| d := SetId "" Fixture.state; remote := tt |} ∧
  resourceDummyConnectionCreate (Fixture.deps (Some Fixture.serverError) None) Fixture.world
  = Done None {| d := SetId "" Fixture.state; remote := tt |}.
Proof. repeat split; vm_compute; reflexivity. Qed.

End PureportFacts.

(** ** extractVnetNames and flattenArmVirtualNetworkIDs *)

Module AzurermFacts.
Import Azurerm.

Lemma sliceContainsValue_elem_of input value :
  sliceContainsValue input value = true ↔ value ∈ input.
Proof.
  induction input as [|v input IH]; simpl.
  - split; [discriminate | intros H; inversion H].
  - destruct (decide (v = value)) as [->|Hne].
    + split; [intros _; left | reflexivity].
    + rewrite IH. split; [by right|].
      intros H. apply elem_of_cons in H as [H|H]; [congruence | done].
Qed.

Lemma sliceContainsValue_false input value :
  sliceContainsValue input value = false ↔ value ∉ input.
Proof.
  rewrite <- sliceContainsValue_elem_of.
  destruct (sliceContainsValue input value); split; congruence.
Qed.

Lemma filter_not_in_nil (l : list string) :
  filter (fun n => n ∉ @nil string) l = l.
Proof.
  induction l as [|x l IH]; [done|].
  rewrite filter_cons_True by apply not_elem_of_nil. by rewrite IH.
Qed.

Lemma firstOccurrences_elem_of names n :
  n ∈ firstOccurrences names ↔ n ∈ names.
Proof.
  induction names as [|m names IH]; simpl; [done|].
  rewrite !elem_of_cons, list_elem_of_filter, IH.
  destruct (decide (n = m)); naive_solver.
Qed.

Lemma firstOccurrences_NoDup names : NoDup (firstOccurrences names).
Proof.
  induction names as [|m names IH]; simpl; [constructor|].
  constructor.
  - rewrite list_elem_of_filter. naive_solver.
  - by apply NoDup_filter.
Qed.

Section ExtractFacts.
Variable parse : string -> error + ResourceID.

(** The loop of extractVnetNames fails exactly at the first ID that does not
    parse, with the error of the parser. *)
Lemma extractVnetNames_loop_inl vnetIDs : ∀ vnetNames err,
  extractVnetNames_loop parse vnetIDs vnetNames = inl err →
  ∃ vnetID, vnetID ∈ vnetIDs ∧ parse vnetID = inl err.
Proof.
  induction vnetIDs as [|vnetID rest IH]; intros vnetNames err; simpl; [discriminate|].
  destruct (parse vnetID) as [e|rid] eqn:Hp.
  - intros [= <-]. exists vnetID. split; [left | done].
  - destruct (negb _); intros H; apply IH in H as (x & Hx & Hpx);
      exists x; (split; [by right | done]).
Qed.

(** When it succeeds every ID parsed, and the names are those collected
    before followed by the first occurrences of the new ones. *)
Lemma extractVnetNames_loop_inr vnetIDs : ∀ vnetNames names,
  extractVnetNames_loop parse vnetIDs vnetNames = inr names →
  ∃ ns, Forall2 (fun vnetID n => vnetNameOf parse vnetID = Some n) vnetIDs ns ∧
        names = vnetNames ++ filter (fun n => n ∉ vnetNames) (firstOccurrences ns).
Proof.
  induction vnetIDs as [|vnetID rest IH]; intros vnetNames names; simpl.
  - intros [= <-]. exists []. split; [constructor|]. simpl. by rewrite app_nil_r.
  - destruct (parse vnetID) as [e|rid] eqn:Hp; [discriminate|].
    set (n := index (Path rid) "virtualNetworks").
    assert (Hn : vnetNameOf parse vnetID = Some n) by (unfold vnetNameOf; by rewrite Hp).
    destruct (sliceContainsValue vnetNames n) eqn:Hc; simpl; intros H;
      apply IH in H as (ns & Hns & ->); exists (n :: ns);
      (split; [by constructor|]); simpl.
    + apply sliceContainsValue_elem_of in Hc.
      rewrite filter_cons_False by naive_solver.
      f_equal. rewrite list_filter_filter. apply list_filter_iff.
      intros m. split; [|by intros [? _]]. intros Hm. split; [done|]. congruence.
    + apply sliceContainsValue_false in Hc.
      rewrite filter_cons_True by done.
      rewrite <- app_assoc. simpl. do 2 f_equal.
      rewrite list_filter_filter. apply list_filter_iff.
      intros m. rewrite not_elem_of_app, list_elem_of_singleton. naive_solver.
Qed.

Lemma extractVnetNames_inr d names :
  extractVnetNames parse d = inr names →
  ∃ ns, Forall2 (fun vnetID n => vnetNameOf parse vnetID = Some n)
                 (d_virtual_network_ids d) ns ∧
        names = firstOccurrences ns.
Proof.
  intros H. apply extractVnetNames_loop_inr in H as (ns & Hns & ->).
  exists ns. split; [done|]. simpl.
  by rewrite filter_not_in_nil.
Qed.

(** The names of a list of IDs that all parse are the names that some ID
    of the list carries. *)
Lemma names_of_ids vnetIDs ns :
  Forall2 (fun vnetID n => vnetNameOf parse vnetID = Some n) vnetIDs ns →
  (∀ n, n ∈ ns ↔ ∃ vnetID, vnetID ∈ vnetIDs ∧ vnetNameOf parse vnetID = Some n) ∧
  Forall (fun vnetID => is_Some (vnetNameOf parse vnetID)) vnetIDs.
Proof.
  intros Hns. split.
  - intros n. split.
    + intros Hn. apply list_elem_of_lookup in Hn as [i Hi].
      destruct (Forall2_lookup_r _ _ _ _ _ Hns Hi) as (x & Hx & Hxn).
      exists x. split; [by eapply list_elem_of_lookup_2 | done].
    + intros (x & Hx & Hxn). apply list_elem_of_lookup in Hx as [i Hi].
      destruct (Forall2_lookup_l _ _ _ _ _ Hns Hi) as (y & Hy & Hxy).
      assert (y = n) as -> by congruence. by eapply list_elem_of_lookup_2.
  - apply Forall_forall. intros x Hx. apply list_elem_of_lookup in Hx as [i Hi].
    destruct (Forall2_lookup_l _ _ _ _ _ Hns Hi) as (y & _ & Hxy). by exists y.
Qed.

End ExtractFacts.

(** C5. For every list of virtual-network IDs in state, extractVnetNames
    either returns the names of the IDs as a set (no name twice; a name is
    returned exactly when some ID of the list carries it; every ID parsed),
    or returns the error of an ID of the list that does not parse; hence it
    returns an error if and only if some ID of the list fails to parse. *)
Theorem extractVnetNames_set_or_error (parse : string -> error + ResourceID)
    (d : ResourceData) :
  match extractVnetNames parse d with
  | inr names =>
      NoDup names ∧
      (∀ n, n ∈ names ↔
            ∃ vnetID, vnetID ∈ d_virtual_network_ids d ∧ vnetNameOf parse vnetID = Some n) ∧
      Forall (fun vnetID => is_Some (vnetNameOf parse vnetID)) (d_virtual_network_ids d)
  | inl err => ∃ vnetID, vnetID ∈ d_virtual_network_ids d ∧ parse vnetID = inl err
  end ∧
  ((∃ err, extractVnetNames parse d = inl err) ↔
   ∃ vnetID, vnetID ∈ d_virtual_network_ids d ∧ vnetNameOf parse vnetID = None).
Proof.
  destruct (extractVnetNames parse d) as [err|names] eqn:He.
  - pose proof (extractVnetNames_loop_inl parse _ _ _ He) as (x & Hx & Hpx).
    split; [by exists x|]. split; [|by exists err].
    intros _. exists x. split; [done|]. unfold vnetNameOf. by rewrite Hpx.
  - apply extractVnetNames_inr in He as (ns & Hns & ->).
    destruct (names_of_ids parse _ _ Hns) as [Hin Hall].
    split; [split; [apply firstOccurrences_NoDup | split; [|done]]|].
    + intros n. by rewrite firstOccurrences_elem_of.
    + split; [intros [? ?]; discriminate|].
      intros (x & Hx & Hnone). rewrite Forall_forall in Hall.
      destruct (Hall x Hx) as [? ?]. congruence.
Qed.

(** The loop of flattenArmVirtualNetworkIDs appends the IDs that are not
    nil, and neither aborts nor touches the world. *)
Lemma flatten_loop {W : Type} (subs : list SubResource) : ∀ (acc : list string) (w : W),
  rangeM (fun vnetIDs subRes =>
            match SubResource_ID subRes with
            | Some _ => bind (deref (SubResource_ID subRes))
                             (fun id => ret (vnetIDs ++ [id]))
            | None => ret vnetIDs
            end) subs acc w
  = Done (acc ++ omap SubResource_ID subs) w.
Proof.
  induction subs as [|[[id|]] subs IH]; intros acc w; simpl.
  - by rewrite app_nil_r.
  - unfold bind at 1. simpl. etrans; [apply IH|]. by rewrite <- app_assoc.
  - unfold bind at 1. simpl. apply IH.
Qed.

Lemma flattenArmVirtualNetworkIDs_run {W : Type} (input : option (list SubResource))
    (w : W) :
  flattenArmVirtualNetworkIDs input w =
  Done (match input with
        | Some subs => omap SubResource_ID subs
        | None => []
        end) w.
Proof.
  destruct input as [subs|]; [|reflexivity].
  unfold flattenArmVirtualNetworkIDs. simpl. unfold bind at 1. simpl.
  apply (flatten_loop subs [] w).
Qed.

(** C7. flattenArmVirtualNetworkIDs is total: it never aborts on a nil
    dereference, leaves the world as it is, returns the empty list for nil,
    and otherwise the IDs of the elements whose ID pointer is not nil, in
    their order. *)
Theorem flattenArmVirtualNetworkIDs_total {W : Type} (input : option (list SubResource))
    (w : W) :
  flattenArmVirtualNetworkIDs input w =
  Done (match input with
        | None => []
        | Some subs => omap SubResource_ID subs
        end) w.
Proof.
  destruct input as [subs|]; [|reflexivity].
  unfold flattenArmVirtualNetworkIDs. simpl. unfold bind at 1. simpl.
  apply (flatten_loop subs [] w).
Qed.

(** ** The named locks *)

Section LockFacts.
Context {Remote : Type}.
Implicit Types w : World Remote.

Lemma lock_neutral_ret {A} (a : A) : lock_neutral (Remote:=Remote) (ret a).
Proof. intros w. by exists a, w. Qed.

Lemma lock_neutral_bind {A B} (m : M (World Remote) A) (k : A → M (World Remote) B) :
  lock_neutral m → (∀ a, lock_neutral (k a)) → lock_neutral (bind m k).
Proof.
  intros Hm Hk w. destruct (Hm w) as (a & w1 & E1 & Hh1 & Hl1).
  destruct (Hk a w1) as (b & w2 & E2 & Hh2 & Hl2).
  exists b, w2. unfold bind. rewrite E1, E2. split; [done|]. split; congruence.
Qed.

Lemma lock_neutral_getD : lock_neutral (Remote:=Remote) getD.
Proof. intros w. by exists (d w), w. Qed.

Lemma lock_neutral_modifyD f : lock_neutral (Remote:=Remote) (modifyD f).
Proof. intros w. unfold modifyD. by eexists _, _. Qed.

Lemma lock_neutral_call {A} (op : Remote → A * Remote) : lock_neutral (call op).
Proof. intros w. unfold call. destruct (op (remote w)) as [a r]. by eexists _, _. Qed.

Lemma lock_neutral_flatten input :
  lock_neutral (Remote:=Remote) (flattenArmVirtualNetworkIDs input).
Proof.
  intros w. destruct input as [subs|]; [|by eexists _, _].
  unfold flattenArmVirtualNetworkIDs. simpl. unfold bind at 1. simpl.
  rewrite (flatten_loop subs [] w). by eexists _, _.
Qed.

End LockFacts.

Create HintDb locks.
#[local] Hint Resolve lock_neutral_ret lock_neutral_getD lock_neutral_modifyD
  lock_neutral_call lock_neutral_flatten : locks.

(** Goes through a function body made of neutral steps, taking each
    branch of its conditionals. *)
Ltac lock_neutral_body :=
  repeat first
    [ progress auto with locks
    | apply lock_neutral_bind; [|intros ?]
    | match goal with
      | |- lock_neutral (match ?x with _ => _ end) => destruct x
      end ].

Lemma acquired_app l1 l2 : acquired (l1 ++ l2) = acquired l1 ++ acquired l2.
Proof. apply omap_app. Qed.

Lemma released_app l1 l2 : released (l1 ++ l2) = released l1 ++ released l2.
Proof. apply omap_app. Qed.

Lemma acquired_Acquire keys : acquired (Acquire <$> keys) = keys.
Proof. induction keys; simpl; [done|]. by f_equal. Qed.

Lemma acquired_Release keys : acquired (Release <$> keys) = [].
Proof. induction keys; simpl; done. Qed.

Lemma released_Acquire keys : released (Acquire <$> keys) = [].
Proof. induction keys; simpl; done. Qed.

Lemma released_Release keys : released (Release <$> keys) = keys.
Proof. induction keys; simpl; [done|]. by f_equal. Qed.

(** The shape of log that the locked region leaves is one in which all is
    released. *)
Lemma all_released_intro {Remote} (w w' : World Remote) :
  armMutexKV w' = armMutexKV w ∧
  (lockLog w' = lockLog w ∨
   ∃ (vnets : list string) pk vk,
     NoDup (pk :: vk) ∧ (∀ k, k ∈ pk :: vk → k ∉ armMutexKV w) ∧
     lockLog w' = lockLog w ++ Acquire pk :: (Acquire <$> vk)
                              ++ (Release <$> vk) ++ [Release pk]) →
  all_released w w'.
Proof.
  intros [Hh [Hl|(vnets & pk & vk & Hnd & Hfresh & Hl)]]; unfold all_released, newEvents.
  - rewrite Hl, drop_all, app_nil_r. repeat split; [done|constructor|done].
  - rewrite Hl, drop_app_length. split; [done|]. simpl.
    rewrite !acquired_app, !released_app, acquired_Acquire, acquired_Release,
      released_Acquire, released_Release. simpl. rewrite app_nil_r.
    split; [|split; [|done]].
    + apply Permutation_cons_append.
    + rewrite Hh. apply Forall_forall. intros k Hk. by apply Hfresh.
Qed.

Lemma append_inj_l (s a b : string) : s +:+ a = s +:+ b → a = b.
Proof. induction s as [|c s IH]; simpl; [done|]. intros [= H]. by apply IH. Qed.

(** For one resource type, different names have different keys. *)
Lemma lockKey_inj resourceType : Inj (=) (=) (fun name => lockKey name resourceType).
Proof.
  intros n1 n2 H. unfold lockKey in H.
  apply append_inj_l in H. by apply (append_inj_l ".") in H.
Qed.

Section RegionFacts.
Context {Remote Future : Type}.
Variable pkg : Package.
Variable client : DdosProtectionPlansClient Remote Future.
Implicit Types w : World Remote.

Lemma lock_neutral_Read : lock_neutral (resourceArmDDoSProtectionPlanRead pkg client).
Proof. unfold resourceArmDDoSProtectionPlanRead. lock_neutral_body. Qed.

Lemma lock_neutral_createUpdate_locked name resourceGroup location tags :
  lock_neutral (createUpdate_locked pkg client name resourceGroup location tags).
Proof.
  pose proof lock_neutral_Read.
  unfold createUpdate_locked. lock_neutral_body.
Qed.

Lemma lock_neutral_importCheck d name resourceGroup :
  lock_neutral (createUpdate_importCheck pkg client d name resourceGroup).
Proof. unfold createUpdate_importCheck. lock_neutral_body. Qed.

Lemma lock_neutral_delete_locked name resourceGroup :
  lock_neutral (delete_locked client name resourceGroup).
Proof. unfold delete_locked. lock_neutral_body. Qed.

(** Locking a list of names either waits for ever or has taken the key of
    each, none of which was held and no two of which are equal. *)
Lemma azureRMLockMultipleByName_spec names resourceType : ∀ w,
  match azureRMLockMultipleByName names resourceType w with
  | Done _ w' =>
      let keys := vnetKeys resourceType names in
      d w' = d w ∧ remote w' = remote w ∧
      armMutexKV w' = list_to_set keys ∪ armMutexKV w ∧
      NoDup keys ∧ (∀ k, k ∈ keys → k ∉ armMutexKV w) ∧
      lockLog w' = lockLog w ++ (Acquire <$> keys)
  | Blocked => True
  | Aborted _ => False
  end.
Proof.
  induction names as [|name names IH]; intros w; simpl.
  - rewrite app_nil_r. repeat split; [set_solver | constructor | set_solver].
  - unfold bind at 1. unfold azureRMLockByName at 1.
    destruct (decide (lockKey name resourceType ∈ armMutexKV w)) as [|Hfree]; [done|].
    match goal with |- context [azureRMLockMultipleByName _ _ ?w1] => specialize (IH w1) end.
    destruct (azureRMLockMultipleByName names resourceType _) as [[] w'| |]; [|done|done].
    simpl in IH. destruct IH as (Hd & Hr & Hheld & Hnd & Hfresh & Hlog).
    repeat split; try done.
    + rewrite Hheld. set_solver.
    + constructor; [|done]. intros Hin. apply Hfresh in Hin. set_solver.
    + intros k Hk. apply elem_of_cons in Hk as [->|Hk]; [done|].
      apply Hfresh in Hk. set_solver.
    + rewrite Hlog. simpl. by rewrite <- app_assoc.
Qed.

(** Unlocking a list of distinct names whose keys are all held returns and
    gives each key back. *)
Lemma azureRMUnlockMultipleByName_spec names resourceType : ∀ w,
  let keys := vnetKeys resourceType names in
  NoDup keys → (∀ k, k ∈ keys → k ∈ armMutexKV w) →
  ∃ w', azureRMUnlockMultipleByName names resourceType w = Done tt w' ∧
        d w' = d w ∧ remote w' = remote w ∧
        armMutexKV w' = armMutexKV w ∖ list_to_set keys ∧
        lockLog w' = lockLog w ++ (Release <$> keys).
Proof.
  induction names as [|name names IH]; intros w; simpl; intros Hnd Hheld.
  - exists w. rewrite app_nil_r. repeat split. set_solver.
  - apply NoDup_cons in Hnd as [Hnotin Hnd].
    unfold bind at 1. unfold azureRMUnlockByName at 1.
    rewrite decide_True by (apply Hheld; left).
    match goal with |- context [azureRMUnlockMultipleByName _ _ ?w1] =>
      destruct (IH w1 Hnd) as (w' & E & Hd & Hr & Hh & Hl) end.
    { simpl. intros k Hk. apply elem_of_difference. split.
      - apply Hheld. by right.
      - intros ->%elem_of_singleton. done. }
    exists w'. rewrite E. simpl in *. repeat split; try done.
    + rewrite Hh. set_solver.
    + rewrite Hl. by rewrite <- app_assoc.
Qed.

(** The locked region of create/update and delete: lock the plan, defer its
    unlock, lock the virtual networks, defer their unlock, run the body. *)
Lemma locked_region_spec {A} name vnets (body : M (World Remote) A) w :
  lock_neutral body →
  let pk := lockKey name azureDDoSProtectionPlanResourceName in
  let vk := vnetKeys (virtualNetworkResourceName pkg) vnets in
  match bind (azureRMLockByName name azureDDoSProtectionPlanResourceName)
          (fun _ => defer (azureRMUnlockByName name azureDDoSProtectionPlanResourceName)
             (bind (azureRMLockMultipleByName vnets (virtualNetworkResourceName pkg))
                (fun _ => defer (azureRMUnlockMultipleByName vnets
                                   (virtualNetworkResourceName pkg)) body))) w with
  | Done _ w' =>
      armMutexKV w' = armMutexKV w ∧
      lockLog w' = lockLog w ++ Acquire pk :: (Acquire <$> vk)
                               ++ (Release <$> vk) ++ [Release pk] ∧
      NoDup (pk :: vk) ∧ (∀ k, k ∈ pk :: vk → k ∉ armMutexKV w)
  | Blocked => True
  | Aborted _ => False
  end.
Proof.
  intros Hbody pk vk. unfold bind at 1. unfold azureRMLockByName at 1. fold pk.
  destruct (decide (pk ∈ armMutexKV w)) as [|Hpk]; [done|].
  unfold defer at 1. unfold bind at 1.
  match goal with |- context [azureRMLockMultipleByName _ _ ?w1] =>
    pose proof (azureRMLockMultipleByName_spec vnets (virtualNetworkResourceName pkg) w1) as HL;
    destruct (azureRMLockMultipleByName vnets (virtualNetworkResourceName pkg) w1)
      as [[] w2| |] end; [|done|done].
  simpl in HL. fold vk in HL. destruct HL as (_ & _ & Hh2 & Hnd & Hfresh & Hl2).
  unfold defer at 1.
  destruct (Hbody w2) as (a & w3 & -> & Hh3 & Hl3).
  destruct (azureRMUnlockMultipleByName_spec vnets (virtualNetworkResourceName pkg) w3)
    as (w4 & -> & _ & _ & Hh4 & Hl4); [done| |].
  { intros k Hk. rewrite Hh3, Hh2. set_solver. }
  fold vk in Hh4, Hl4.
  unfold azureRMUnlockByName. fold pk.
  assert (Hpk_vk : pk ∉ vk) by (intros Hin; apply Hfresh in Hin; set_solver).
  rewrite decide_True by (rewrite Hh4, Hh3, Hh2; set_solver).
  assert (Hvk : ∀ k, k ∈ vk → k ∉ armMutexKV w)
    by (intros k Hk; apply Hfresh in Hk; set_solver).
  simpl. split; [|split; [|split]].
  - rewrite Hh4, Hh3, Hh2. set_solver.
  - rewrite Hl4, Hl3, Hl2. rewrite <- !app_assoc. done.
  - by constructor.
  - intros k [->|Hk]%elem_of_cons; [done | by apply Hvk].
Qed.

(** What a mutation does to the locks, whichever way it returns: nothing,
    or the locked region around the names of [extractVnetNames]. *)
Lemma mutation_locks (m : Mutation) w :
  match runMutation pkg client m w with
  | Done _ w' =>
      armMutexKV w' = armMutexKV w ∧
      (lockLog w' = lockLog w ∨
       ∃ vnets,
         let pk := lockKey (planNameFor pkg m (d w)) azureDDoSProtectionPlanResourceName in
         let vk := vnetKeys (virtualNetworkResourceName pkg) vnets in
         extractVnetNames (parseAzureResourceID pkg) (d w) = inr vnets ∧
         NoDup (pk :: vk) ∧ (∀ k, k ∈ pk :: vk → k ∉ armMutexKV w) ∧
         lockLog w' = lockLog w ++ Acquire pk :: (Acquire <$> vk)
                                  ++ (Release <$> vk) ++ [Release pk])
  | Blocked => True
  | Aborted _ => False
  end.
Proof.
  destruct m; simpl.
  - unfold resourceArmDDoSProtectionPlanCreateUpdate.
    unfold bind at 1. unfold getD at 1. unfold bind at 1.
    destruct (lock_neutral_importCheck (d w) (d_name (d w)) (d_resource_group_name (d w)) w)
      as (err & w1 & -> & Hh1 & Hl1).
    destruct err as [err|]; [by split; [|left]|].
    destruct (extractVnetNames _ (d w)) as [err|vnets] eqn:He; [by split; [|left]|].
    pose proof (locked_region_spec (d_name (d w)) vnets _ w1
                  (lock_neutral_createUpdate_locked (d_name (d w))
                     (d_resource_group_name (d w))
                     (NormalizeLocation pkg (d_location (d w))) (d_tags (d w)))) as HR.
    simpl in HR.
    match type of HR with match ?x with _ => _ end =>
      match goal with |- match ?y with _ => _ end => change y with x end;
      destruct x as [r w'| |] end; [|done|done].
    destruct HR as (Hh & Hl & Hnd & Hfresh). split; [congruence|]. right.
    exists vnets. rewrite <- Hh1, <- Hl1. done.
  - unfold resourceArmDDoSProtectionPlanDelete.
    unfold bind at 1. unfold getD at 1.
    destruct (parseAzureResourceID pkg (d_Id (d w))) as [err|id] eqn:Hp; [by split; [|left]|].
    unfold bind at 1.
    destruct (lock_neutral_call
                (Get client (ResourceGroup id) (index (Path id) "ddosProtectionPlans")) w)
      as ([read err] & w1 & E1 & Hh1 & Hl1).
    assert (Hd1 : d w1 = d w).
    { revert E1. unfold call. destruct (Get _ _ _ _). by intros [= _ <-]. }
    rewrite E1.
    destruct err as [err|].
    { destruct (ResponseWasNotFound read); by split; [|left]. }
    unfold bind at 1. unfold getD at 1. rewrite Hd1.
    destruct (extractVnetNames _ (d w)) as [err|vnets] eqn:He; [by split; [|left]|].
    pose proof (locked_region_spec (index (Path id) "ddosProtectionPlans") vnets _ w1
                  (lock_neutral_delete_locked (index (Path id) "ddosProtectionPlans")
                     (ResourceGroup id))) as HR.
    simpl in HR.
    match type of HR with match ?x with _ => _ end =>
      match goal with |- match ?y with _ => _ end => change y with x end;
      destruct x as [r w'| |] end; [|done|done].
    destruct HR as (Hh & Hl & Hnd & Hfresh). split; [congruence|]. right.
    exists vnets. rewrite <- Hh1, <- Hl1. done.
Qed.

(** If the keys are distinct and none is held, locking the names returns. *)
Lemma azureRMLockMultipleByName_returns names resourceType : ∀ w,
  NoDup (vnetKeys resourceType names) →
  (∀ k, k ∈ vnetKeys resourceType names → k ∉ armMutexKV w) →
  ∃ w', azureRMLockMultipleByName names resourceType w = Done tt w'.
Proof.
  induction names as [|name names IH]; intros w; simpl; intros Hnd Hfree.
  - by exists w.
  - apply NoDup_cons in Hnd as [Hnotin Hnd].
    unfold bind at 1. unfold azureRMLockByName at 1.
    rewrite decide_False by (apply Hfree; left).
    apply IH; [done|]. simpl. intros k Hk.
    apply not_elem_of_union. split.
    + intros ->%elem_of_singleton. done.
    + apply Hfree. by right.
Qed.

(** The locked region returns when its keys are distinct and free. *)
Lemma locked_region_returns {A} name vnets (body : M (World Remote) A) w :
  lock_neutral body →
  let pk := lockKey name azureDDoSProtectionPlanResourceName in
  let vk := vnetKeys (virtualNetworkResourceName pkg) vnets in
  NoDup (pk :: vk) → (∀ k, k ∈ pk :: vk → k ∉ armMutexKV w) →
  ∃ r w',
    bind (azureRMLockByName name azureDDoSProtectionPlanResourceName)
      (fun _ => defer (azureRMUnlockByName name azureDDoSProtectionPlanResourceName)
         (bind (azureRMLockMultipleByName vnets (virtualNetworkResourceName pkg))
            (fun _ => defer (azureRMUnlockMultipleByName vnets
                               (virtualNetworkResourceName pkg)) body))) w
    = Done r w'.
Proof.
  intros Hbody pk vk [Hpk_vk Hnd]%NoDup_cons Hfree.
  unfold bind at 1. unfold azureRMLockByName at 1. fold pk.
  rewrite decide_False by (apply Hfree; left).
  unfold defer at 1. unfold bind at 1.
  match goal with |- context [azureRMLockMultipleByName _ _ ?w1] =>
    pose proof (azureRMLockMultipleByName_spec vnets (virtualNetworkResourceName pkg) w1) as HL;
    destruct (azureRMLockMultipleByName_returns vnets (virtualNetworkResourceName pkg) w1)
      as [w2 E2] end; [done| |].
  { simpl. intros k Hk. apply not_elem_of_union. split.
    - intros ->%elem_of_singleton. done.
    - apply Hfree. by right. }
  rewrite E2 in HL |- *. simpl in HL. fold vk in HL.
  destruct HL as (_ & _ & Hh2 & _ & _ & _).
  unfold defer at 1.
  destruct (Hbody w2) as (a & w3 & -> & Hh3 & _).
  destruct (azureRMUnlockMultipleByName_spec vnets (virtualNetworkResourceName pkg) w3)
    as (w4 & -> & _ & _ & Hh4 & _); [done| |].
  { intros k Hk. rewrite Hh3, Hh2. set_solver. }
  fold vk in Hh4. unfold azureRMUnlockByName. fold pk.
  rewrite decide_True by (rewrite Hh4, Hh3, Hh2; set_solver).
  by eexists _, _.
Qed.

(** A mutation returns when the keys it is about to take are free and the
    key of the plan is none of the keys of the virtual networks. *)
Lemma mutation_returns (m : Mutation) w :
  (∀ vnets, extractVnetNames (parseAzureResourceID pkg) (d w) = inr vnets →
     let pk := lockKey (planNameFor pkg m (d w)) azureDDoSProtectionPlanResourceName in
     let vk := vnetKeys (virtualNetworkResourceName pkg) vnets in
     (pk ∉ vk) ∧ (∀ k, k ∈ pk :: vk → k ∉ armMutexKV w)) →
  ∃ r w', runMutation pkg client m w = Done r w'.
Proof.
  intros Hfree.
  assert (Hkeys : ∀ vnets,
            extractVnetNames (parseAzureResourceID pkg) (d w) = inr vnets →
            NoDup (vnetKeys (virtualNetworkResourceName pkg) vnets)).
  { intros vnets (ns & _ & ->)%extractVnetNames_inr.
    unfold vnetKeys.
    apply (@NoDup_fmap_2 _ _ _ (lockKey_inj (virtualNetworkResourceName pkg))),
      firstOccurrences_NoDup. }
  destruct m; simpl in *.
  - unfold resourceArmDDoSProtectionPlanCreateUpdate.
    unfold bind at 1. unfold getD at 1. unfold bind at 1.
    destruct (lock_neutral_importCheck (d w) (d_name (d w)) (d_resource_group_name (d w)) w)
      as (err & w1 & -> & Hh1 & Hl1).
    destruct err as [err|]; [by eexists _, _|].
    destruct (extractVnetNames _ (d w)) as [err|vnets] eqn:He; [by eexists _, _|].
    destruct (Hfree vnets eq_refl) as [Hpk Hf].
    apply locked_region_returns.
    + apply lock_neutral_createUpdate_locked.
    + constructor; [done | by apply Hkeys].
    + by rewrite Hh1.
  - unfold resourceArmDDoSProtectionPlanDelete.
    unfold bind at 1. unfold getD at 1.
    destruct (parseAzureResourceID pkg (d_Id (d w))) as [err|id] eqn:Hp; [by eexists _, _|].
    unfold bind at 1.
    destruct (lock_neutral_call
                (Get client (ResourceGroup id) (index (Path id) "ddosProtectionPlans")) w)
      as ([read err] & w1 & E1 & Hh1 & Hl1).
    assert (Hd1 : d w1 = d w).
    { revert E1. unfold call. destruct (Get _ _ _ _). by intros [= _ <-]. }
    rewrite E1.
    destruct err as [err|].
    { destruct (ResponseWasNotFound read); by eexists _, _. }
    unfold bind at 1. unfold getD at 1. rewrite Hd1.
    destruct (extractVnetNames _ (d w)) as [err|vnets] eqn:He; [by eexists _, _|].
    destruct (Hfree vnets eq_refl) as [Hpk Hf].
    apply locked_region_returns.
    + apply lock_neutral_delete_locked.
    + constructor; [done | by apply Hkeys].
    + by rewrite Hh1.
Qed.

(** The keys a mutation has locked when it returns: none, or the key of
    the plan and then those of the names of state, first occurrences only. *)
Lemma locksAcquired_mutation (m : Mutation) w :
  locksAcquired (runMutation pkg client m) w = [] ∨
  ∃ ns, Forall2 (fun vnetID n => vnetNameOf (parseAzureResourceID pkg) vnetID = Some n)
                (d_virtual_network_ids (d w)) ns ∧
        locksAcquired (runMutation pkg client m) w =
          lockKey (planNameFor pkg m (d w)) azureDDoSProtectionPlanResourceName
          :: vnetKeys (virtualNetworkResourceName pkg) (firstOccurrences ns).
Proof.
  pose proof (mutation_locks m w) as H. unfold locksAcquired.
  destruct (runMutation pkg client m w) as [r w'| |]; [|by left|by left].
  destruct H as [_ [Hl|(vnets & He & _ & _ & Hl)]].
  - left. unfold newEvents. rewrite Hl, drop_all. done.
  - right. apply extractVnetNames_inr in He as (ns & Hns & ->).
    exists ns. split; [done|].
    unfold newEvents. rewrite Hl, drop_app_length. simpl. f_equal.
    rewrite !acquired_app, acquired_Acquire, acquired_Release. simpl.
    by rewrite app_nil_r.
Qed.

End RegionFacts.

(** C1. Whichever way resourceArmDDoSProtectionPlanCreateUpdate and
    resourceArmDDoSProtectionPlanDelete return (nil or an error), every key
    they acquired has been released: the keys acquired are the keys
    released, none is held at return, and the held keys are those held
    before the call. Neither function aborts; a call that waits for ever on
    a lock never returns. *)
Theorem locks_released_on_every_return {Remote Future : Type} (pkg : Package)
    (client : DdosProtectionPlansClient Remote Future) (w : World Remote) :
  match resourceArmDDoSProtectionPlanCreateUpdate pkg client w with
  | Done _ w' => all_released w w'
  | Blocked => True
  | Aborted _ => False
  end ∧
  match resourceArmDDoSProtectionPlanDelete pkg client w with
  | Done _ w' => all_released w w'
  | Blocked => True
  | Aborted _ => False
  end.
Proof.
  split.
  - pose proof (mutation_locks pkg client CreateUpdate w) as H. simpl in H.
    destruct (resourceArmDDoSProtectionPlanCreateUpdate pkg client w) as [r w'| |];
      [|done|done].
    apply all_released_intro.
    destruct H as [Hh [Hl|(vnets & _ & Hnd & Hfresh & Hl)]]; (split; [done|]);
      [by left | right; by eexists vnets, _, _].
  - pose proof (mutation_locks pkg client DeleteOp w) as H. simpl in H.
    destruct (resourceArmDDoSProtectionPlanDelete pkg client w) as [r w'| |];
      [|done|done].
    apply all_released_intro.
    destruct H as [Hh [Hl|(vnets & _ & Hnd & Hfresh & Hl)]]; (split; [done|]);
      [by left | right; by eexists vnets, _, _].
Qed.


(** On the sample state create/update returns nil, with both kinds of lock
    taken and given back. *)
Example sample_createUpdate_log :
  match resourceArmDDoSProtectionPlanCreateUpdate Sample.pkg Sample.client
          (Sample.world [Sample.vnetA_ID; Sample.vnetB_ID; Sample.vnetA_ID]) with
  | Done r w' =>
      r = None ∧ armMutexKV w' = ∅ ∧
      lockLog w' = [Acquire "azurerm_ddos_protection_plan.plan1";
                    Acquire "azurerm_virtual_network.vnetA";
                    Acquire "azurerm_virtual_network.vnetB";
                    Release "azurerm_virtual_network.vnetA";
                    Release "azurerm_virtual_network.vnetB";
                    Release "azurerm_ddos_protection_plan.plan1"]
  | _ => False
  end.
Proof. vm_compute. repeat split. Qed.

(** ** resourceArmDDoSProtectionPlanRead *)

(** C10 (as stated) fails in its second half: the read function returns a
    non-nil error without any failed Get. The sample service answers every
    Get with success; yet with an ID in state that does not parse the read
    returns the parse error (and leaves the world as it is), and with a
    schema that refuses the list of virtual-network IDs it returns the error
    of writing virtual_network_ids after a Get that succeeded. *)
Lemma Read_error_without_failed_Get :
  (∀ resourceGroup name r, (Get Sample.client resourceGroup name r).1.2 = None) ∧
  resourceArmDDoSProtectionPlanRead Sample.pkg Sample.client
    AzurermMore.SampleMore.unparsableWorld
  = Done (Some (ErrorNew "Cannot parse Azure ID")) AzurermMore.SampleMore.unparsableWorld ∧
  resourceArmDDoSProtectionPlanRead AzurermMore.SampleMore.refusingPkg Sample.client
    (Sample.world [])
  = Done (Some (Wrapf "Error setting `virtual_network_ids`: %+v" []
                  (ErrorNew "virtual_network_ids: computed attribute cannot be set")))
         (Sample.world []).
Proof.
  split; [done|]. split; [reflexivity|]. by vm_compute.
Qed.

(** C10 (as amended). The read function always returns, and it returns a
    non-nil error in exactly three cases. When the ID in state does not
    parse, it returns the parse error, with no Get and no change. When the
    ID parses and the remote Get fails, it looks at the response: if the
    response is not-found it sets the ID to the empty string and returns
    nil, changing nothing else; otherwise it returns a non-nil error and
    leaves the state as it is. When Get succeeds, it returns an error if
    and only if writing virtual_network_ids fails, and that error wraps the
    one of the write. *)
Theorem Read_error_cases {Remote Future : Type} (pkg : Package)
    (client : DdosProtectionPlansClient Remote Future) (w : World Remote) :
  match parseAzureResourceID pkg (d_Id (d w)) with
  | inl err => resourceArmDDoSProtectionPlanRead pkg client w = Done (Some err) w
  | inr id =>
      let resourceGroup := ResourceGroup id in
      let name := index (Path id) "ddosProtectionPlans" in
      match Get client resourceGroup name (remote w) with
      | ((plan, Some err), r) =>
          if ResponseWasNotFound plan
          then resourceArmDDoSProtectionPlanRead pkg client w =
               Done None {| d := SetId "" (d w); remote := r;
                            armMutexKV := armMutexKV w; lockLog := lockLog w |}
          else resourceArmDDoSProtectionPlanRead pkg client w =
               Done (Some (Wrapf "Error making Read request on DDoS Protection Plan %q (Resource Group %q): %+v"
                                 [name; resourceGroup] err))
                    {| d := d w; remote := r;
                       armMutexKV := armMutexKV w; lockLog := lockLog w |}
      | ((plan, None), _) =>
          let written :=
            match Properties plan with
            | Some props =>
                Set_virtual_network_ids_err pkg
                  (match VirtualNetworks props with
                   | Some subs => omap SubResource_ID subs
                   | None => []
                   end)
            | None => None
            end in
          match resourceArmDDoSProtectionPlanRead pkg client w with
          | Done (Some err') _ =>
              ∃ err, written = Some err ∧
                     err' = Wrapf "Error setting `virtual_network_ids`: %+v" [] err
          | Done None _ => written = None
          | Blocked | Aborted _ => False
          end
      end
  end.
Proof.
  destruct (parseAzureResourceID pkg (d_Id (d w))) as [e|id] eqn:Hp.
  { unfold resourceArmDDoSProtectionPlanRead, bind, getD. cbv beta iota. by rewrite Hp. }
  simpl.
  destruct (Get client (ResourceGroup id) (index (Path id) "ddosProtectionPlans") (remote w))
    as [[plan [err|]] r] eqn:Hg.
  - unfold resourceArmDDoSProtectionPlanRead, bind, getD, call. cbv beta iota.
    rewrite Hp. cbv beta iota. rewrite Hg.
    destruct (ResponseWasNotFound plan); reflexivity.
  - unfold resourceArmDDoSProtectionPlanRead, bind, getD, call. cbv beta iota.
    rewrite Hp. cbv beta iota. rewrite Hg. unfold modifyD at 1 2. cbv beta iota.
    destruct (Location plan) as [location|]; unfold modifyD at 1, ret at 1; cbv beta iota;
      (destruct (Properties plan) as [props|]; [|done]);
      rewrite flattenArmVirtualNetworkIDs_run;
      (destruct (Set_virtual_network_ids_err pkg _) as [err|] eqn:Hs; [|done]);
      simpl; by exists err.
Qed.

(** A plan that has gone: the sample state read against a service that
    answers 404 loses its ID and the read returns nil. *)
Example sample_Read_not_found :
  resourceArmDDoSProtectionPlanRead Sample.pkg Sample.clientNotFound (Sample.world []) =
  Done None {| d := SetId "" (Sample.state []); remote := tt;
               armMutexKV := ∅; lockLog := [] |}.
Proof. reflexivity. Qed.

(** The error returns of the read function that come before and after the
    Get: an ID that does not parse is returned as it is, without any call. *)
Lemma Read_unparsable_id {Remote Future : Type} (pkg : Package)
    (client : DdosProtectionPlansClient Remote Future) (w : World Remote) err :
  parseAzureResourceID pkg (d_Id (d w)) = inl err →
  resourceArmDDoSProtectionPlanRead pkg client w = Done (Some err) w.
Proof.
  intros H. unfold resourceArmDDoSProtectionPlanRead, bind, getD. cbv beta iota.
  by rewrite H.
Qed.

(** ** The storage-key cache *)

Section CacheFacts.
Context {Remote : Type}.
Variable ListKeys : string → string → Remote →
                    (AccountListKeysResult * option error) * Remote.
Implicit Types p : Process Remote.

(** What one call does, whichever way it goes. With the mutex free it
    returns; the mutex is left as found; a hit changes nothing; a miss makes
    one ListKeys call and stores the key exactly when one was fetched. *)
Lemma getKeyForStorageAccount_spec p resourceGroupName storageAccountName :
  let cacheIndex := cacheIndexOf resourceGroupName storageAccountName in
  match getKeyForStorageAccount ListKeys resourceGroupName storageAccountName p with
  | Done r p' =>
      storageKeyCacheMu p' = storageKeyCacheMu p ∧
      match storageKeyCache p !! cacheIndex with
      | Some key => r = (key, true, None) ∧ p' = p
      | None =>
          let answer := ListKeys resourceGroupName storageAccountName (storage p) in
          storage p' = answer.2 ∧
          listKeysCalls p' = listKeysCalls p ++ [(resourceGroupName, storageAccountName)] ∧
          match firstKey answer.1 with
          | Some key =>
              r = (key, true, None) ∧
              storageKeyCache p' = <[cacheIndex := key]> (storageKeyCache p)
          | None =>
              storageKeyCache p' = storageKeyCache p ∧ r.1.1 = "" ∧
              (if ListKeys_ResponseWasNotFound answer.1.1
               then r = ("", false, None) else is_Some r.2)
          end
      end
  | Blocked => ¬ mu_free p
  | Aborted _ => False
  end.
Proof.
  destruct p as [[n wr] cache st calls]. unfold mu_free. simpl.
  unfold getKeyForStorageAccount, bind, RLock, RUnlock, withMu, cacheLookup. simpl.
  destruct wr; simpl; [by intros [=]|].
  destruct (cache !! cacheIndexOf resourceGroupName storageAccountName) as [key|] eqn:Hc.
  { simpl. done. }
  unfold Lock, withMu. simpl.
  destruct n as [|n]; simpl; [|by intros [=]].
  unfold defer, getKey_locked, bind, cacheLookup. simpl. rewrite Hc.
  unfold fetchKey, bind, callListKeys. simpl.
  destruct (ListKeys resourceGroupName storageAccountName st) as [[[nf keys] err] st'].
  simpl. destruct nf; simpl; [by eauto|].
  destruct err as [err|]; simpl; [by eauto 10|].
  destruct keys as [keys|]; simpl; [|by eauto 10].
  unfold bind. simpl.
  destruct keys as [|[[v|]] keys]; simpl; by eauto 10.
Qed.

(** A sequence of calls: the mutex is left as found, the cache only grows,
    and a call for a pair that was cached at the start returns its key. *)
Lemma getKeys_spec calls : ∀ p,
  match getKeys ListKeys calls p with
  | Done rs p' =>
      storageKeyCacheMu p' = storageKeyCacheMu p ∧
      storageKeyCache p ⊆ storageKeyCache p' ∧
      Forall2 (fun call r => ∀ key,
                 storageKeyCache p !! cacheIndexOf call.1 call.2 = Some key →
                 r = (key, true, None)) calls rs
  | Blocked => ¬ mu_free p
  | Aborted _ => False
  end.
Proof.
  induction calls as [|[rg acct] calls IH]; intros p; simpl.
  - split; [done|]. split; [done|constructor].
  - unfold bind at 1.
    pose proof (getKeyForStorageAccount_spec p rg acct) as H1. simpl in H1.
    destruct (getKeyForStorageAccount ListKeys rg acct p) as [r p1| |]; [|done|done].
    destruct H1 as [Hmu H1].
    assert (Hsub : storageKeyCache p ⊆ storageKeyCache p1).
    { destruct (storageKeyCache p !! cacheIndexOf rg acct) as [key|] eqn:Hc.
      - by destruct H1 as [_ ->].
      - destruct H1 as (_ & _ & H1). destruct (firstKey _).
        + destruct H1 as [_ ->]. by apply insert_subseteq.
        + by destruct H1 as [-> _]. }
    unfold bind at 1. specialize (IH p1).
    destruct (getKeys ListKeys calls p1) as [rs p2| |];
      [|unfold mu_free in *; by rewrite <- Hmu|done].
    destruct IH as (Hmu2 & Hsub2 & Hall). simpl.
    split; [congruence|]. split; [by etrans|].
    constructor.
    + simpl. intros key Hkey. rewrite Hkey in H1. by destruct H1 as [-> _].
    + eapply Forall2_impl; [exact Hall|]. simpl. intros call r' Hr key Hkey.
      apply Hr. by eapply lookup_weaken.
Qed.

End CacheFacts.

(** The index identifies the pair as long as resource-group names hold no
    slash, which Azure does not allow in them. *)
Lemma cacheIndexOf_inj rg1 acct1 rg2 acct2 :
  no_slash rg1 → no_slash rg2 →
  cacheIndexOf rg1 acct1 = cacheIndexOf rg2 acct2 → rg1 = rg2 ∧ acct1 = acct2.
Proof.
  unfold cacheIndexOf. revert rg2.
  induction rg1 as [|c rg1 IH]; intros [|c' rg2]; simpl.
  - intros _ _ [= H]. split; [done | exact H].
  - intros _ [Hc _] [= Hc' _]. by destruct Hc.
  - intros [Hc _] _ [= Hc' _]. by destruct Hc.
  - intros [_ H1] [_ H2] [= -> H]. destruct (IH rg2 H1 H2 H) as [-> ->]. done.
Qed.

(** C3. With its mutex free, getKeyForStorageAccount is a read-through
    cache: when the cache holds an entry for the pair it returns that key
    with accountExists = true and no error, and nothing changes (ListKeys
    is not called); when it holds none it calls ListKeys once, and if a key
    was fetched it stores the first returned key under the pair and returns
    it. *)
Theorem getKeyForStorageAccount_read_through {Remote : Type}
    (ListKeys : string → string → Remote → (AccountListKeysResult * option error) * Remote)
    (p : Process Remote) (resourceGroupName storageAccountName : string) :
  mu_free p →
  let cacheIndex := cacheIndexOf resourceGroupName storageAccountName in
  match storageKeyCache p !! cacheIndex with
  | Some key =>
      getKeyForStorageAccount ListKeys resourceGroupName storageAccountName p
      = Done (key, true, None) p
  | None =>
      ∃ r p',
        getKeyForStorageAccount ListKeys resourceGroupName storageAccountName p
        = Done r p' ∧
        listKeysCalls p' = listKeysCalls p ++ [(resourceGroupName, storageAccountName)] ∧
        ∀ key,
          firstKey (ListKeys resourceGroupName storageAccountName (storage p)).1 = Some key →
          r = (key, true, None) ∧
          storageKeyCache p' = <[cacheIndex := key]> (storageKeyCache p)
  end.
Proof.
  intros Hfree cacheIndex.
  pose proof (getKeyForStorageAccount_spec ListKeys p resourceGroupName storageAccountName)
    as H. simpl in H. fold cacheIndex in H.
  destruct (getKeyForStorageAccount ListKeys resourceGroupName storageAccountName p)
    as [r p'| |]; [|done|done].
  destruct H as [_ H].
  destruct (storageKeyCache p !! cacheIndex) as [key|].
  - by destruct H as [-> ->].
  - destruct H as (_ & Hcalls & H). exists r, p'. split; [done|]. split; [done|].
    intros key Hkey. by rewrite Hkey in H.
Qed.

(** C9. getKeyForStorageAccount changes the cache only on full success: a
    return with an error or with accountExists = false leaves the cache as it
    was; if the cache changed, then no error is returned, accountExists is
    true, and the change is the insertion, under a pair that had no entry,
    of the key fetched from ListKeys, which is the key returned; and when
    ListKeys answers not-found on a miss the result is ("", false, nil) with
    the cache unchanged. The call returns whenever its mutex is free. *)
Theorem getKeyForStorageAccount_caches_only_on_success {Remote : Type}
    (ListKeys : string → string → Remote → (AccountListKeysResult * option error) * Remote)
    (p : Process Remote) (resourceGroupName storageAccountName : string) :
  let cacheIndex := cacheIndexOf resourceGroupName storageAccountName in
  let answer := ListKeys resourceGroupName storageAccountName (storage p) in
  match getKeyForStorageAccount ListKeys resourceGroupName storageAccountName p with
  | Done (key, accountExists, err) p' =>
      (is_Some err ∨ accountExists = false → storageKeyCache p' = storageKeyCache p) ∧
      (storageKeyCache p' ≠ storageKeyCache p →
         err = None ∧ accountExists = true ∧
         storageKeyCache p !! cacheIndex = None ∧
         firstKey answer.1 = Some key ∧
         storageKeyCache p' = <[cacheIndex := key]> (storageKeyCache p)) ∧
      (storageKeyCache p !! cacheIndex = None →
       ListKeys_ResponseWasNotFound answer.1.1 = true →
         (key, accountExists, err) = ("", false, None) ∧
         storageKeyCache p' = storageKeyCache p)
  | Blocked => ¬ mu_free p
  | Aborted _ => False
  end.
Proof.
  intros cacheIndex answer.
  pose proof (getKeyForStorageAccount_spec ListKeys p resourceGroupName storageAccountName)
    as H. simpl in H. fold cacheIndex answer in H.
  destruct (getKeyForStorageAccount ListKeys resourceGroupName storageAccountName p)
    as [[[key accountExists] err] p'| |]; [|done|done].
  destruct H as [_ H].
  destruct (storageKeyCache p !! cacheIndex) as [key'|] eqn:Hc.
  - destruct H as [[= -> -> ->] ->].
    split; [done|]. split; [done|]. by intros [=].
  - destruct H as (_ & _ & H).
    destruct (firstKey answer.1) as [key'|] eqn:Hk.
    + destruct H as [[= -> -> ->] Hins]. split; [|split].
      * intros [[? [=]]|[=]].
      * done.
      * intros _ Hnf. exfalso. revert Hk. unfold firstKey.
        destruct answer.1 as [accountKeys err']. simpl in Hnf. by rewrite Hnf.
    + destruct H as (Hsame & _ & Hnf). split; [done|]. split; [done|].
      intros _ E. by rewrite E in Hnf.
Qed.

(** C4. No call removes or overwrites an entry of the cache: after any
    calls, run any further calls; the cache before them is contained in the
    cache after them, and each of them that asks for a pair cached before
    them returns the cached key. With the mutex free every call returns. *)
Theorem storageKeyCache_entries_live_for_ever {Remote : Type}
    (ListKeys : string → string → Remote → (AccountListKeysResult * option error) * Remote)
    (earlier later : list (string * string)) (p : Process Remote) :
  match getKeys ListKeys earlier p with
  | Done _ p1 =>
      match getKeys ListKeys later p1 with
      | Done rs p2 =>
          storageKeyCache p ⊆ storageKeyCache p1 ∧
          storageKeyCache p1 ⊆ storageKeyCache p2 ∧
          dom (storageKeyCache p1) ⊆ dom (storageKeyCache p2) ∧
          length rs = length later ∧
          ∀ i resourceGroupName storageAccountName key,
            later !! i = Some (resourceGroupName, storageAccountName) →
            storageKeyCache p1 !! cacheIndexOf resourceGroupName storageAccountName
              = Some key →
            rs !! i = Some (key, true, None)
      | Blocked => ¬ mu_free p
      | Aborted _ => False
      end
  | Blocked => ¬ mu_free p
  | Aborted _ => False
  end.
Proof.
  pose proof (getKeys_spec ListKeys earlier p) as H1.
  destruct (getKeys ListKeys earlier p) as [rs1 p1| |]; [|done|done].
  destruct H1 as (Hmu1 & Hsub1 & _).
  pose proof (getKeys_spec ListKeys later p1) as H2.
  destruct (getKeys ListKeys later p1) as [rs p2| |];
    [|unfold mu_free in *; by rewrite <- Hmu1|done].
  destruct H2 as (_ & Hsub2 & Hall).
  split; [done|]. split; [done|]. split; [by apply subseteq_dom|].
  split; [symmetry; by eapply Forall2_length|].
  intros i rg acct key Hi Hkey.
  destruct (Forall2_lookup_l _ _ _ _ _ Hall Hi) as (r & Hr & Hspec).
  rewrite Hr. f_equal. by apply Hspec.
Qed.

(** The sample storage service: the first call fetches and caches the first
    key, the second is answered from the cache without a call, and an unknown
    account leaves the cache alone. *)
Example sample_getKeys :
  getKeys SampleStorage.ListKeys [("rg1", "acct1"); ("rg1", "acct1"); ("rg1", "nope")]
          SampleStorage.start
  = Done [("key-one", true, None); ("key-one", true, None); ("", false, None)]
         {| storageKeyCacheMu := {| readers := 0; writer := false |};
            storageKeyCache := {[ "rg1/acct1" := "key-one" ]};
            storage := tt;
            listKeysCalls := [("rg1", "acct1"); ("rg1", "nope")] |}.
Proof. vm_compute. reflexivity. Qed.

Lemma getKeyForStorageAccount_read_through_witness :
  getKeyForStorageAccount SampleStorage.ListKeys "rg1" "acct1" SampleStorage.warm
  = Done ("key-one", true, None) SampleStorage.warm.
Proof.
  apply (getKeyForStorageAccount_read_through SampleStorage.ListKeys
           SampleStorage.warm "rg1" "acct1").
  reflexivity.
Defined.

End AzurermFacts.

(** * The order of the locks *)

Module LockOrderFacts.
Import Azurerm AzurermFacts AzurermMore AzurermMore.LockOrder.

(** With the order that leaves the slice as it is, the mutations are those
    of the resource file with the helpers that lock in the order of the
    slice. *)
Lemma runMutation_ordered_id {Remote Future : Type} (pkg : Package)
    (client : DdosProtectionPlansClient Remote Future) (m : Mutation) :
  runMutation_ordered (fun names => names) pkg client m = runMutation pkg client m.
Proof. by destruct m. Qed.


Section Facts.
Context {Remote Future : Type}.
Variable order : list string → list string.
Variable pkg : Package.
Variable client : DdosProtectionPlansClient Remote Future.
Implicit Types w : World Remote.

(** What a mutation does to the locks, whichever way it returns: nothing,
    or the locked region around the names of [extractVnetNames], arranged
    by [order]. *)
Lemma mutation_locks_ordered (m : Mutation) w :
  match runMutation_ordered order pkg client m w with
  | Done _ w' =>
      armMutexKV w' = armMutexKV w ∧
      (lockLog w' = lockLog w ∨
       ∃ vnets,
         let pk := lockKey (planNameFor pkg m (d w)) azureDDoSProtectionPlanResourceName in
         let vk := vnetKeys (virtualNetworkResourceName pkg) (order vnets) in
         extractVnetNames (parseAzureResourceID pkg) (d w) = inr vnets ∧
         NoDup (pk :: vk) ∧ (∀ k, k ∈ pk :: vk → k ∉ armMutexKV w) ∧
         lockLog w' = lockLog w ++ Acquire pk :: (Acquire <$> vk)
                                  ++ (Release <$> vk) ++ [Release pk])
  | Blocked => True
  | Aborted _ => False
  end.
Proof.
  destruct m; simpl.
  - unfold resourceArmDDoSProtectionPlanCreateUpdate_ordered,
      azureRMLockMultipleByName_ordered, azureRMUnlockMultipleByName_ordered.
    unfold bind at 1. unfold getD at 1. unfold bind at 1.
    destruct (lock_neutral_importCheck pkg client (d w) (d_name (d w))
                (d_resource_group_name (d w)) w)
      as (err & w1 & -> & Hh1 & Hl1).
    destruct err as [err|]; [by split; [|left]|].
    destruct (extractVnetNames _ (d w)) as [err|vnets] eqn:He; [by split; [|left]|].
    pose proof (locked_region_spec pkg (d_name (d w)) (order vnets) _ w1
                  (lock_neutral_createUpdate_locked pkg client (d_name (d w))
                     (d_resource_group_name (d w))
                     (NormalizeLocation pkg (d_location (d w))) (d_tags (d w)))) as HR.
    simpl in HR.
    match type of HR with match ?x with _ => _ end =>
      match goal with |- match ?y with _ => _ end => change y with x end;
      destruct x as [r w'| |] end; [|done|done].
    destruct HR as (Hh & Hl & Hnd & Hfresh). split; [congruence|]. right.
    exists vnets. rewrite <- Hh1, <- Hl1. done.
  - unfold resourceArmDDoSProtectionPlanDelete_ordered,
      azureRMLockMultipleByName_ordered, azureRMUnlockMultipleByName_ordered.
    unfold bind at 1. unfold getD at 1.
    destruct (parseAzureResourceID pkg (d_Id (d w))) as [err|id] eqn:Hp; [by split; [|left]|].
    unfold bind at 1.
    destruct (lock_neutral_call
                (Get client (ResourceGroup id) (index (Path id) "ddosProtectionPlans")) w)
      as ([read err] & w1 & E1 & Hh1 & Hl1).
    assert (Hd1 : d w1 = d w).
    { revert E1. unfold call. destruct (Get _ _ _ _). by intros [= _ <-]. }
    rewrite E1.
    destruct err as [err|].
    { destruct (ResponseWasNotFound read); by split; [|left]. }
    unfold bind at 1. unfold getD at 1. rewrite Hd1.
    destruct (extractVnetNames _ (d w)) as [err|vnets] eqn:He; [by split; [|left]|].
    pose proof (locked_region_spec pkg (index (Path id) "ddosProtectionPlans") (order vnets)
                  _ w1
                  (lock_neutral_delete_locked client (index (Path id) "ddosProtectionPlans")
                     (ResourceGroup id))) as HR.
    simpl in HR.
    match type of HR with match ?x with _ => _ end =>
      match goal with |- match ?y with _ => _ end => change y with x end;
      destruct x as [r w'| |] end; [|done|done].
    destruct HR as (Hh & Hl & Hnd & Hfresh). split; [congruence|]. right.
    exists vnets. rewrite <- Hh1, <- Hl1. done.
Qed.

(** Whatever the order of the helper, every key acquired is released when
    the mutation returns. *)
Lemma locks_released_ordered (m : Mutation) w :
  match runMutation_ordered order pkg client m w with
  | Done _ w' => all_released w w'
  | Blocked => True
  | Aborted _ => False
  end.
Proof.
  pose proof (mutation_locks_ordered m w) as H.
  destruct (runMutation_ordered order pkg client m w) as [r w'| |]; [|done|done].
  apply all_released_intro.
  destruct H as [Hh [Hl|(vnets & _ & Hnd & Hfresh & Hl)]]; (split; [done|]);
    [by left | right; by eexists vnets, _, _].
Qed.


End Facts.



(** On the two sample states, which list the same two virtual networks in
    opposite orders, create/update and delete with the ascending order take
    the same three locks, in the same sequence. *)
Example sample_ordered_log :
  ∀ m vnetIDs,
    vnetIDs ∈ [[Sample.vnetA_ID; Sample.vnetB_ID]; [Sample.vnetB_ID; Sample.vnetA_ID]] →
    locksAcquired (runMutation_ordered ascending Sample.pkg Sample.client m)
                  (Sample.world vnetIDs)
    = ["azurerm_ddos_protection_plan.plan1";
       "azurerm_virtual_network.vnetA"; "azurerm_virtual_network.vnetB"].
Proof.
  intros m vnetIDs Hin.
  repeat (apply elem_of_cons in Hin as [->|Hin]); [..|by apply elem_of_nil in Hin];
    destruct m; by vm_compute.
Qed.

End LockOrderFacts.

(** ** More on the DDoS protection plan resource *)

Module DDoSMoreFacts.
Import Azurerm AzurermFacts AzurermMore.

Lemma vnetNameOf_Some_parse parse vnetID n :
  vnetNameOf parse vnetID = Some n → ∃ rid, parse vnetID = inr rid.
Proof. unfold vnetNameOf. destruct (parse vnetID) as [e|rid]; [done | by exists rid]. Qed.

(** X1. extractVnetNames succeeds exactly when every ID of state parses,
    and it then returns the virtual-network names of the IDs in the order of
    state, each name at the place of its first occurrence. *)
Theorem extractVnetNames_in_order_of_state (parse : string → error + ResourceID)
    (d : ResourceData) (names : list string) :
  extractVnetNames parse d = inr names ↔
  ∃ ns, Forall2 (fun vnetID n => vnetNameOf parse vnetID = Some n)
                (d_virtual_network_ids d) ns ∧
        names = firstOccurrences ns.
Proof.
  split; [apply extractVnetNames_inr|].
  intros (ns & Hns & ->).
  destruct (extractVnetNames parse d) as [err|names'] eqn:He.
  - apply extractVnetNames_loop_inl in He as (x & Hx & Hpx).
    destruct (names_of_ids parse _ _ Hns) as [_ Hall].
    rewrite Forall_forall in Hall. destruct (Hall x Hx) as [n Hn].
    apply vnetNameOf_Some_parse in Hn as [rid Hrid]. congruence.
  - apply extractVnetNames_inr in He as (ns' & Hns' & ->).
    f_equal. f_equal. eapply Forall2_unique; [exact Hns'|exact Hns|].
    intros x y1 y2 H1 H2. congruence.
Qed.

Lemma extractVnetNames_loop_first_error parse pre vnetID post err : ∀ vnetNames,
  Forall (fun x => is_Some (vnetNameOf parse x)) pre →
  parse vnetID = inl err →
  extractVnetNames_loop parse (pre ++ vnetID :: post) vnetNames = inl err.
Proof.
  induction pre as [|x pre IH]; intros vnetNames Hpre Hp; simpl.
  - by rewrite Hp.
  - apply Forall_cons in Hpre as [[n Hn] Hpre].
    apply vnetNameOf_Some_parse in Hn as [rid ->].
    destruct (negb _); by apply IH.
Qed.

(** X2. extractVnetNames stops at the first ID that does not parse and
    returns the parser's error for that ID, whatever follows it. *)
Theorem extractVnetNames_first_error (parse : string → error + ResourceID)
    (d : ResourceData) (pre post : list string) (vnetID : string) (err : error) :
  d_virtual_network_ids d = pre ++ vnetID :: post →
  Forall (fun x => is_Some (vnetNameOf parse x)) pre →
  parse vnetID = inl err →
  extractVnetNames parse d = inl err.
Proof.
  intros Hd Hpre Hp. unfold extractVnetNames. rewrite Hd.
  by apply extractVnetNames_loop_first_error.
Qed.

Lemma extractVnetNames_first_error_witness :
  extractVnetNames Sample.parse (Sample.state [Sample.vnetA_ID; "vnetC"; Sample.vnetB_ID])
  = inl (ErrorNew "Cannot parse Azure ID").
Proof.
  apply (extractVnetNames_first_error Sample.parse
           (Sample.state [Sample.vnetA_ID; "vnetC"; Sample.vnetB_ID])
           [Sample.vnetA_ID] [Sample.vnetB_ID] "vnetC").
  - reflexivity.
  - repeat constructor. vm_compute. eauto.
  - reflexivity.
Defined.

Section MutationFacts.
Context {Remote Future : Type}.
Variable pkg : Package.
Variable client : DdosProtectionPlansClient Remote Future.
Implicit Types w : World Remote.

(** The locked region, step by step: with distinct free keys it runs the
    body in the world where the keys are held, and gives them back. *)
Lemma locked_region_exact {A} name vnets (body : M (World Remote) A) w (a : A) w2 :
  let pk := lockKey name azureDDoSProtectionPlanResourceName in
  let vk := vnetKeys (virtualNetworkResourceName pkg) vnets in
  let locked := {| d := d w; remote := remote w;
                   armMutexKV := list_to_set vk ∪ ({[pk]} ∪ armMutexKV w);
                   lockLog := (lockLog w ++ [Acquire pk]) ++ (Acquire <$> vk) |} in
  NoDup (pk :: vk) → (∀ k, k ∈ pk :: vk → k ∉ armMutexKV w) →
  body locked = Done a w2 →
  armMutexKV w2 = armMutexKV locked → lockLog w2 = lockLog locked →
  bind (azureRMLockByName name azureDDoSProtectionPlanResourceName)
    (fun _ => defer (azureRMUnlockByName name azureDDoSProtectionPlanResourceName)
       (bind (azureRMLockMultipleByName vnets (virtualNetworkResourceName pkg))
          (fun _ => defer (azureRMUnlockMultipleByName vnets
                             (virtualNetworkResourceName pkg)) body))) w
  = Done a {| d := d w2; remote := remote w2; armMutexKV := armMutexKV w;
              lockLog := lockLog w ++ Acquire pk :: (Acquire <$> vk)
                                   ++ (Release <$> vk) ++ [Release pk] |}.
Proof.
  intros pk vk locked [Hpk_vk Hnd]%NoDup_cons Hfree Hbody Hh2 Hl2.
  unfold bind at 1. unfold azureRMLockByName at 1. fold pk.
  rewrite decide_False by (apply Hfree; left).
  unfold defer at 1. unfold bind at 1.
  match goal with |- context [azureRMLockMultipleByName _ _ ?w1] =>
    pose proof (azureRMLockMultipleByName_spec vnets (virtualNetworkResourceName pkg) w1) as HL;
    destruct (azureRMLockMultipleByName_returns vnets (virtualNetworkResourceName pkg) w1)
      as [wl El] end; [done| |].
  { simpl. intros k Hk. apply not_elem_of_union. split.
    - intros ->%elem_of_singleton. done.
    - apply Hfree. by right. }
  rewrite El in HL |- *. simpl in HL. fold vk in HL.
  destruct HL as (Hd & Hr & Hh & _ & _ & Hl).
  assert (wl = locked) as ->.
  { destruct wl; simpl in *; subst; reflexivity. }
  unfold defer at 1. rewrite Hbody.
  destruct (azureRMUnlockMultipleByName_spec vnets (virtualNetworkResourceName pkg) w2)
    as (w4 & -> & Hd4 & Hr4 & Hh4 & Hl4); [done| |].
  { intros k Hk. rewrite Hh2. simpl. set_solver. }
  fold vk in Hh4, Hl4. unfold azureRMUnlockByName. fold pk.
  rewrite decide_True by (rewrite Hh4, Hh2; simpl; set_solver).
  f_equal. rewrite Hd4, Hr4, Hh4, Hl4, Hh2, Hl2. simpl. f_equal.
  - assert (∀ k, k ∈ vk → k ∉ armMutexKV w) by (intros k Hk; apply Hfree; by right).
    assert (pk ∉ armMutexKV w) by (apply Hfree; left). set_solver.
  - rewrite <- !app_assoc. done.
Qed.

(** X3. Delete looks the plan up before it locks anything. An ID that does
    not parse is returned as the error; a failed Get with a not-found
    response makes delete return nil (the plan is gone already); any other
    failed Get is returned as an error. In all three cases no lock is taken
    and the data, its ID included, is left as it was. *)
Theorem Delete_of_a_missing_plan_is_nil (w : World Remote) :
  match parseAzureResourceID pkg (d_Id (d w)) with
  | inl err => resourceArmDDoSProtectionPlanDelete pkg client w = Done (Some err) w
  | inr id =>
      let resourceGroup := ResourceGroup id in
      let name := index (Path id) "ddosProtectionPlans" in
      match Get client resourceGroup name (remote w) with
      | ((read, Some err), r) =>
          resourceArmDDoSProtectionPlanDelete pkg client w
          = Done (if ResponseWasNotFound read then None
                  else Some (Wrapf "Error retrieving DDoS Protection Plan %q (Resource Group %q): %+v"
                                   [name; resourceGroup] err))
                 {| d := d w; remote := r;
                    armMutexKV := armMutexKV w; lockLog := lockLog w |}
      | ((_, None), _) => True
      end
  end.
Proof.
  unfold resourceArmDDoSProtectionPlanDelete, bind, getD, call. cbv beta iota.
  destruct (parseAzureResourceID pkg (d_Id (d w))) as [e|id] eqn:Hp; [done|].
  cbv beta iota zeta.
  destruct (Get client (ResourceGroup id) (index (Path id) "ddosProtectionPlans") (remote w))
    as [[read [err|]] r] eqn:Hg; [|done].
  by destruct (ResponseWasNotFound read).
Qed.

(** X4. With the import requirement on, create/update of a new resource
    whose name is taken (the Get answers with a non-empty ID, and either
    succeeds or fails with a not-found response) returns the "already
    exists" error for that ID: nothing is locked, nothing is created and the
    data is left as it was. *)
Theorem CreateUpdate_refuses_an_existing_plan (w : World Remote)
    (existing : DdosProtectionPlan) (err : option error) (r : Remote) (id : string) :
  requireResourcesToBeImported pkg = true →
  d_IsNewResource (d w) = true →
  Get client (d_resource_group_name (d w)) (d_name (d w)) (remote w)
  = ((existing, err), r) →
  err = None ∨ ResponseWasNotFound existing = true →
  ID existing = Some id → id ≠ "" →
  resourceArmDDoSProtectionPlanCreateUpdate pkg client w
  = Done (Some (ImportAsExistsError pkg "azurerm_ddos_protection_plan" id))
         {| d := d w; remote := r; armMutexKV := armMutexKV w; lockLog := lockLog w |}.
Proof.
  intros Hreq Hnew Hget Herr Hid Hne.
  unfold resourceArmDDoSProtectionPlanCreateUpdate, bind, getD. cbv beta iota.
  unfold createUpdate_importCheck. rewrite Hreq, Hnew. simpl.
  unfold bind, call. rewrite Hget. cbv beta iota zeta.
  assert (match err with
          | Some err0 =>
              if negb (ResponseWasNotFound existing)
              then Some (Wrapf "Error checking for presence of existing DDoS Protection Plan %q (Resource Group %q): %s"
                               [d_name (d w); d_resource_group_name (d w)] err0)
              else None
          | None => None
          end = None) as ->.
  { destruct Herr as [->| ->]; [done|]. by destruct err. }
  rewrite Hid. rewrite decide_True by done. reflexivity.
Qed.

(** X5. When some virtual-network ID of state does not parse, a mutation
    returns without having taken any lock; create/update then always
    returns an error. *)
Theorem mutation_with_a_bad_vnet_id_takes_no_lock (m : Mutation) (w : World Remote)
    (err : error) :
  extractVnetNames (parseAzureResourceID pkg) (d w) = inl err →
  match runMutation pkg client m w with
  | Done r w' =>
      lockLog w' = lockLog w ∧ armMutexKV w' = armMutexKV w ∧
      (m = CreateUpdate → is_Some r)
  | Blocked | Aborted _ => False
  end.
Proof.
  intros He.
  destruct (mutation_returns pkg client m w) as (r & w' & E).
  { intros vnets Hv. congruence. }
  pose proof (mutation_locks pkg client m w) as H. rewrite E in H |- *.
  destruct H as [Hh [Hl|(vnets & Hv & _)]]; [|congruence].
  split; [done|]. split; [done|]. intros ->. revert E. simpl.
  unfold resourceArmDDoSProtectionPlanCreateUpdate.
  unfold bind at 1. unfold getD at 1. unfold bind at 1.
  destruct (lock_neutral_importCheck pkg client (d w) (d_name (d w))
              (d_resource_group_name (d w)) w) as (e & w1 & -> & _ & _).
  destruct e as [e|]; [by intros [= <- _]|].
  rewrite He. by intros [= <- _].
Qed.

(** X6. The locks of a mutation are nested: if it locks at all, the lock of
    the plan is the first one taken and the last one given back, the locks
    of the virtual networks are taken after it in the order of the names and
    all given back before it; nothing else happens to the locks. *)
Theorem mutation_locks_are_nested (m : Mutation) (w : World Remote) :
  match runMutation pkg client m w with
  | Done _ w' =>
      newEvents w w' = [] ∨
      ∃ vnets,
        let pk := lockKey (planNameFor pkg m (d w)) azureDDoSProtectionPlanResourceName in
        let vk := vnetKeys (virtualNetworkResourceName pkg) vnets in
        extractVnetNames (parseAzureResourceID pkg) (d w) = inr vnets ∧
        newEvents w w' = Acquire pk :: (Acquire <$> vk) ++ (Release <$> vk) ++ [Release pk]
  | Blocked => True
  | Aborted _ => False
  end.
Proof.
  pose proof (mutation_locks pkg client m w) as H.
  destruct (runMutation pkg client m w) as [r w'| |]; [|done|done].
  destruct H as [_ [Hl|(vnets & Hv & _ & _ & Hl)]]; unfold newEvents.
  - left. by rewrite Hl, drop_all.
  - right. exists vnets. split; [done|]. by rewrite Hl, drop_app_length.
Qed.

(** X7. A mutation cannot wait on itself: if the keys it is about to take
    are held by nobody and the key of the plan is not the key of one of the
    virtual networks, it returns. *)
Theorem mutation_returns_when_its_keys_are_free (m : Mutation) (w : World Remote)
    (vnets : list string) :
  let pk := lockKey (planNameFor pkg m (d w)) azureDDoSProtectionPlanResourceName in
  let vk := vnetKeys (virtualNetworkResourceName pkg) vnets in
  extractVnetNames (parseAzureResourceID pkg) (d w) = inr vnets →
  pk ∉ vk → (∀ k, k ∈ pk :: vk → k ∉ armMutexKV w) →
  ∃ r w', runMutation pkg client m w = Done r w'.
Proof.
  intros pk vk He Hpk Hfree. apply mutation_returns.
  intros vnets' He'. rewrite He in He'. injection He' as <-. done.
Qed.

(** X8. When the CreateOrUpdate call fails (on a resource for which the
    import check does not apply), create/update returns the error wrapped,
    having taken and given back its locks; the data, its ID included, is as
    it was. *)
Theorem CreateUpdate_failure_leaves_the_data (w : World Remote) (vnets : list string)
    (future : Future) (err : error) (r : Remote) :
  let name := d_name (d w) in
  let resourceGroup := d_resource_group_name (d w) in
  let pk := lockKey name azureDDoSProtectionPlanResourceName in
  let vk := vnetKeys (virtualNetworkResourceName pkg) vnets in
  requireResourcesToBeImported pkg && d_IsNewResource (d w) = false →
  extractVnetNames (parseAzureResourceID pkg) (d w) = inr vnets →
  pk ∉ vk → (∀ k, k ∈ pk :: vk → k ∉ armMutexKV w) →
  CreateOrUpdate client resourceGroup name
    (Some (NormalizeLocation pkg (d_location (d w))), expandTags pkg (d_tags (d w)))
    (remote w) = ((future, Some err), r) →
  resourceArmDDoSProtectionPlanCreateUpdate pkg client w
  = Done (Some (Wrapf "Error creating/updating DDoS Protection Plan %q (Resource Group %q): %+v"
                      [name; resourceGroup] err))
         {| d := d w; remote := r; armMutexKV := armMutexKV w;
            lockLog := lockLog w ++ Acquire pk :: (Acquire <$> vk)
                                 ++ (Release <$> vk) ++ [Release pk] |}.
Proof.
  intros name resourceGroup pk vk Himp He Hpk Hfree Hcall.
  assert (Hnd : NoDup (pk :: vk)).
  { constructor; [done|]. apply extractVnetNames_inr in He as (ns & _ & ->).
    unfold vk, vnetKeys.
    apply (@NoDup_fmap_2 _ _ _ (lockKey_inj (virtualNetworkResourceName pkg))),
      firstOccurrences_NoDup. }
  unfold resourceArmDDoSProtectionPlanCreateUpdate.
  unfold bind at 1. unfold getD at 1. unfold bind at 1.
  unfold createUpdate_importCheck. rewrite Himp. unfold ret at 1.
  rewrite He.
  destruct w as [dw rw hw lw]. simpl in *.
  rewrite (locked_region_exact name vnets _ _
             (Some (Wrapf "Error creating/updating DDoS Protection Plan %q (Resource Group %q): %+v"
                          [name; resourceGroup] err))
             {| d := dw; remote := r;
                armMutexKV := list_to_set vk ∪ ({[pk]} ∪ hw);
                lockLog := (lw ++ [Acquire pk]) ++ (Acquire <$> vk) |});
    [reflexivity|done|done| |reflexivity|reflexivity].
  unfold createUpdate_locked, bind, call. simpl. fold name resourceGroup.
  by rewrite Hcall.
Qed.

End MutationFacts.

Lemma CreateUpdate_refuses_an_existing_plan_witness :
  resourceArmDDoSProtectionPlanCreateUpdate SampleMore.importingPkg Sample.client
    SampleMore.newPlanWorld
  = Done (Some (Errorf "A resource with the ID %q already exists"
                       [Sample.plan_ID; "azurerm_ddos_protection_plan"]))
         SampleMore.newPlanWorld.
Proof.
  apply (CreateUpdate_refuses_an_existing_plan SampleMore.importingPkg Sample.client
           SampleMore.newPlanWorld Sample.plan None tt Sample.plan_ID).
  - reflexivity.
  - reflexivity.
  - reflexivity.
  - by left.
  - reflexivity.
  - discriminate.
Defined.

Lemma mutation_with_a_bad_vnet_id_takes_no_lock_witness :
  match runMutation Sample.pkg Sample.client CreateUpdate (Sample.world ["vnetC"]) with
  | Done r w' =>
      lockLog w' = lockLog (Sample.world ["vnetC"]) ∧
      armMutexKV w' = armMutexKV (Sample.world ["vnetC"]) ∧
      (CreateUpdate = CreateUpdate → is_Some r)
  | Blocked | Aborted _ => False
  end.
Proof.
  apply (mutation_with_a_bad_vnet_id_takes_no_lock Sample.pkg Sample.client CreateUpdate
           (Sample.world ["vnetC"]) (ErrorNew "Cannot parse Azure ID")).
  reflexivity.
Defined.

(** The keys of the sample state are distinct and nobody holds them. *)
Lemma sample_keys_free (k : string) :
  k ∈ ["azurerm_ddos_protection_plan.plan1"; "azurerm_virtual_network.vnetA";
       "azurerm_virtual_network.vnetB"] → k ∉ (∅ : gset string).
Proof. intros _. apply not_elem_of_empty. Defined.

Lemma sample_plan_key_apart :
  "azurerm_ddos_protection_plan.plan1"
  ∉ ["azurerm_virtual_network.vnetA"; "azurerm_virtual_network.vnetB"].
Proof. intros H. repeat (apply elem_of_cons in H as [H|H]; [discriminate|]). inversion H. Defined.

Lemma mutation_returns_when_its_keys_are_free_witness :
  ∃ r w', runMutation Sample.pkg Sample.client DeleteOp
            (Sample.world [Sample.vnetA_ID; Sample.vnetB_ID]) = Done r w'.
Proof.
  apply (mutation_returns_when_its_keys_are_free Sample.pkg Sample.client DeleteOp
           (Sample.world [Sample.vnetA_ID; Sample.vnetB_ID]) ["vnetA"; "vnetB"]).
  - reflexivity.
  - apply sample_plan_key_apart.
  - apply sample_keys_free.
Defined.

Lemma CreateUpdate_failure_leaves_the_data_witness :
  resourceArmDDoSProtectionPlanCreateUpdate Sample.pkg SampleMore.failingClient
    (Sample.world [Sample.vnetA_ID; Sample.vnetB_ID])
  = Done (Some (Wrapf "Error creating/updating DDoS Protection Plan %q (Resource Group %q): %+v"
                      ["plan1"; "rg1"] (ErrorNew "StatusCode=409")))
         {| d := Sample.state [Sample.vnetA_ID; Sample.vnetB_ID]; remote := tt;
            armMutexKV := ∅;
            lockLog := [Acquire "azurerm_ddos_protection_plan.plan1";
                        Acquire "azurerm_virtual_network.vnetA";
                        Acquire "azurerm_virtual_network.vnetB";
                        Release "azurerm_virtual_network.vnetA";
                        Release "azurerm_virtual_network.vnetB";
                        Release "azurerm_ddos_protection_plan.plan1"] |}.
Proof.
  apply (CreateUpdate_failure_leaves_the_data Sample.pkg SampleMore.failingClient
           (Sample.world [Sample.vnetA_ID; Sample.vnetB_ID]) ["vnetA"; "vnetB"]
           tt (ErrorNew "StatusCode=409") tt).
  - reflexivity.
  - reflexivity.
  - apply sample_plan_key_apart.
  - apply sample_keys_free.
  - reflexivity.
Defined.

End DDoSMoreFacts.

(** ** More on the storage-key cache and the clients built on it *)

Module CacheMoreFacts.
Import Azurerm AzurermFacts AzurermMore.

Section Facts.
Context {Remote : Type}.
Variable ListKeys : string → string → Remote →
                    (AccountListKeysResult * option error) * Remote.
Implicit Types p : Process Remote.

(** X9. getKeyForStorageAccount leaves storageKeyCacheMu as it found it on
    every return (hit, fetched key, not-found, or error), and it never
    unlocks a mutex it does not hold. It waits only if a writer is inside,
    or, on a miss, if a reader is. *)
Theorem getKeyForStorageAccount_leaves_the_mutex (p : Process Remote)
    (resourceGroupName storageAccountName : string) :
  match getKeyForStorageAccount ListKeys resourceGroupName storageAccountName p with
  | Done _ p' => storageKeyCacheMu p' = storageKeyCacheMu p
  | Blocked =>
      writer (storageKeyCacheMu p) = true ∨
      (storageKeyCache p !! cacheIndexOf resourceGroupName storageAccountName = None ∧
       readers (storageKeyCacheMu p) ≠ 0)
  | Aborted _ => False
  end.
Proof.
  destruct p as [[n wr] cache st calls]. simpl.
  unfold getKeyForStorageAccount, bind, RLock, RUnlock, withMu, cacheLookup. simpl.
  destruct wr; simpl; [by left|].
  destruct (cache !! cacheIndexOf resourceGroupName storageAccountName) as [key|] eqn:Hc;
    [done|].
  unfold Lock, withMu. simpl.
  destruct n as [|n]; simpl; [|by right].
  unfold defer, getKey_locked, bind, cacheLookup. simpl. rewrite Hc.
  unfold fetchKey, bind, callListKeys. simpl.
  destruct (ListKeys resourceGroupName storageAccountName st) as [[[nf keys] err] st'].
  simpl. destruct nf; simpl; [done|].
  destruct err as [err|]; simpl; [done|].
  destruct keys as [keys|]; simpl; [|done].
  unfold bind. simpl.
  by destruct keys as [|[[v|]] keys].
Qed.

(** X10. A failure is not remembered: when a call for a pair that is not
    cached fetches no key (not-found, an error, or no usable key), the next
    call for the pair asks ListKeys again. *)
Theorem getKeyForStorageAccount_does_not_cache_failures (p : Process Remote)
    (resourceGroupName storageAccountName : string) :
  mu_free p →
  storageKeyCache p !! cacheIndexOf resourceGroupName storageAccountName = None →
  firstKey (ListKeys resourceGroupName storageAccountName (storage p)).1 = None →
  ∃ r1 p1 r2 p2,
    getKeyForStorageAccount ListKeys resourceGroupName storageAccountName p = Done r1 p1 ∧
    getKeyForStorageAccount ListKeys resourceGroupName storageAccountName p1 = Done r2 p2 ∧
    storageKeyCache p1 = storageKeyCache p ∧
    listKeysCalls p2 = listKeysCalls p ++ [(resourceGroupName, storageAccountName);
                                           (resourceGroupName, storageAccountName)].
Proof.
  intros Hfree Hmiss Hnone.
  pose proof (getKeyForStorageAccount_spec ListKeys p resourceGroupName storageAccountName)
    as H1. simpl in H1.
  destruct (getKeyForStorageAccount ListKeys resourceGroupName storageAccountName p)
    as [r1 p1| |] eqn:E1; [|done|done].
  rewrite Hmiss, Hnone in H1. destruct H1 as (Hmu & _ & Hcalls1 & Hcache & _).
  pose proof (getKeyForStorageAccount_spec ListKeys p1 resourceGroupName storageAccountName)
    as H2. simpl in H2.
  destruct (getKeyForStorageAccount ListKeys resourceGroupName storageAccountName p1)
    as [r2 p2| |] eqn:E2; [|unfold mu_free in *; by rewrite <- Hmu in Hfree|done].
  rewrite Hcache, Hmiss in H2. destruct H2 as (_ & _ & Hcalls2 & _).
  exists r1, p1, r2, p2. split; [done|]. split; [done|]. split; [done|].
  rewrite Hcalls2, Hcalls1, <- app_assoc. done.
Qed.

Lemma string_app_assoc (a b c : string) : (a +:+ b) +:+ c = a +:+ (b +:+ c).
Proof.
  induction a as [|x a IH]; [reflexivity|].
  change (String x ((a +:+ b) +:+ c) = String x (a +:+ (b +:+ c))). by rewrite IH.
Qed.

(** The cache index runs the two names together. *)
Lemma cacheIndexOf_assoc rg x acct :
  cacheIndexOf (rg +:+ "/" +:+ x) acct = cacheIndexOf rg (x +:+ "/" +:+ acct).
Proof. unfold cacheIndexOf. by rewrite !string_app_assoc. Qed.

(** X11. The cache index does not keep the two names apart when they hold a
    slash: a key cached for the pair (rg/x, acct) is served, without any
    ListKeys call, to a call for the pair (rg, x/acct). *)
Theorem getKeyForStorageAccount_index_collision (p : Process Remote)
    (rg x acct key : string) :
  mu_free p →
  storageKeyCache p !! cacheIndexOf (rg +:+ "/" +:+ x) acct = Some key →
  getKeyForStorageAccount ListKeys rg (x +:+ "/" +:+ acct) p = Done (key, true, None) p.
Proof.
  intros Hfree Hkey. rewrite cacheIndexOf_assoc in Hkey.
  pose proof (getKeyForStorageAccount_spec ListKeys p rg (x +:+ "/" +:+ acct)) as H.
  simpl in H.
  destruct (getKeyForStorageAccount ListKeys rg (x +:+ "/" +:+ acct) p)
    as [r p'| |]; [|done|done].
  rewrite Hkey in H. by destruct H as (_ & -> & ->).
Qed.

(** X12. For resource-group names without a slash (Azure allows none), a
    call for one pair never changes what the cache holds for another pair. *)
Theorem getKeyForStorageAccount_keeps_other_pairs (p : Process Remote)
    (rg1 acct1 rg2 acct2 : string) :
  no_slash rg1 → no_slash rg2 → (rg1, acct1) ≠ (rg2, acct2) →
  match getKeyForStorageAccount ListKeys rg1 acct1 p with
  | Done _ p' =>
      storageKeyCache p' !! cacheIndexOf rg2 acct2
      = storageKeyCache p !! cacheIndexOf rg2 acct2
  | Blocked => ¬ mu_free p
  | Aborted _ => False
  end.
Proof.
  intros H1 H2 Hne.
  pose proof (getKeyForStorageAccount_spec ListKeys p rg1 acct1) as H. simpl in H.
  destruct (getKeyForStorageAccount ListKeys rg1 acct1 p) as [r p'| |]; [|done|done].
  destruct H as [_ H].
  destruct (storageKeyCache p !! cacheIndexOf rg1 acct1) as [key|].
  - by destruct H as [_ ->].
  - destruct H as (_ & _ & H). destruct (firstKey _) as [key|].
    + destruct H as [_ ->]. apply lookup_insert_ne.
      intros Heq. apply cacheIndexOf_inj in Heq as [-> ->]; done.
    + by destruct H as [-> _].
Qed.

End Facts.

Section ClientFacts.
Context {Remote StorageClient Blob File Table Queue : Type}.
Variable ListKeys : string → string → Remote →
                    (AccountListKeysResult * option error) * Remote.
Variable sdk : StorageSDK StorageClient Blob File Table Queue.
Implicit Types p : Process Remote.

(** X13. Each of the four storage-client getters returns a client exactly
    when it reports accountExists = true and no error; it reports the
    accountExists of getKeyForStorageAccount, hands on its error unchanged,
    and does nothing to the process beyond what that call does (a missing
    account gives (nil, false, nil), a failure to build the client gives an
    error with accountExists = true). *)
Theorem storage_client_getters (p : Process Remote) (rg acct : string) :
  getter_ok ListKeys p rg acct
    (getBlobStorageClientForStorageAccount ListKeys sdk rg acct p) ∧
  getter_ok ListKeys p rg acct
    (getFileServiceClientForStorageAccount ListKeys sdk rg acct p) ∧
  getter_ok ListKeys p rg acct
    (getTableServiceClientForStorageAccount ListKeys sdk rg acct p) ∧
  getter_ok ListKeys p rg acct
    (getQueueServiceClientForStorageAccount ListKeys sdk rg acct p).
Proof.
  pose proof (getKeyForStorageAccount_spec ListKeys p rg acct) as H. simpl in H.
  unfold getBlobStorageClientForStorageAccount, getFileServiceClientForStorageAccount,
    getTableServiceClientForStorageAccount, getQueueServiceClientForStorageAccount,
    getter_ok, bind.
  destruct (getKeyForStorageAccount ListKeys rg acct p)
    as [[[key ex0] err0] p'| |]; [|done|done].
  clear H.
  repeat split;
    (destruct err0 as [err0|]; simpl;
      [split; [split; [by intros [? [=]] | by intros [_ [=]]] | by eauto]|]);
    (destruct ex0; simpl;
      [|split; [split; [by intros [? [=]] | by intros [[=] _]] | by eexists _, _]]);
    (destruct (NewClient sdk acct key _ _ true) as [e|c]; simpl;
      (split; [split; [try by intros [? [=]]; by eauto | try by intros [_ [=]]; by eauto]
              | eexists _, _; split; [done | by intros [? [=]]]])).
Qed.

End ClientFacts.

Lemma getKeyForStorageAccount_does_not_cache_failures_witness :
  ∃ r1 p1 r2 p2,
    getKeyForStorageAccount SampleStorage.ListKeys "rg1" "nope" SampleStorage.start
    = Done r1 p1 ∧
    getKeyForStorageAccount SampleStorage.ListKeys "rg1" "nope" p1 = Done r2 p2 ∧
    storageKeyCache p1 = storageKeyCache SampleStorage.start ∧
    listKeysCalls p2 = listKeysCalls SampleStorage.start ++ [("rg1", "nope"); ("rg1", "nope")].
Proof.
  apply (getKeyForStorageAccount_does_not_cache_failures SampleStorage.ListKeys
           SampleStorage.start "rg1" "nope"); reflexivity.
Defined.

Lemma getKeyForStorageAccount_index_collision_witness :
  getKeyForStorageAccount SampleStorage.ListKeys "" ("rg1" +:+ "/" +:+ "acct1")
    {| storageKeyCacheMu := {| readers := 0; writer := false |};
       storageKeyCache := {[ "/rg1/acct1" := "key-one" ]}; storage := tt;
       listKeysCalls := [] |}
  = Done ("key-one", true, None)
      {| storageKeyCacheMu := {| readers := 0; writer := false |};
         storageKeyCache := {[ "/rg1/acct1" := "key-one" ]}; storage := tt;
         listKeysCalls := [] |}.
Proof.
  apply (getKeyForStorageAccount_index_collision SampleStorage.ListKeys _ "" "rg1" "acct1").
  - reflexivity.
  - reflexivity.
Defined.

Lemma sample_no_slash : no_slash "rg1".
Proof. simpl. repeat split; discriminate. Defined.

Lemma getKeyForStorageAccount_keeps_other_pairs_witness :
  match getKeyForStorageAccount SampleStorage.ListKeys "rg1" "acct1" SampleStorage.start with
  | Done _ p' =>
      storageKeyCache p' !! cacheIndexOf "rg1" "acct2"
      = storageKeyCache SampleStorage.start !! cacheIndexOf "rg1" "acct2"
  | Blocked => ¬ mu_free SampleStorage.start
  | Aborted _ => False
  end.
Proof.
  apply (getKeyForStorageAccount_keeps_other_pairs SampleStorage.ListKeys
           SampleStorage.start "rg1" "acct1" "rg1" "acct2").
  - apply sample_no_slash.
  - apply sample_no_slash.
  - discriminate.
Defined.

End CacheMoreFacts.

(** ** The automation account resource and the managed disk data source *)

Module AutomationFacts.
Import Azurerm AzurermMore AzurermMore.Automation.

Section Facts.
Context {Remote : Type}.
Variable pkg : Package.
Variable client : Clients Remote.
Implicit Types w : RW ResourceData Remote.

(** X14. How the read function of the automation account treats failures.
    An ID that does not parse is returned as the error, before any call. A
    failed Get of the account clears the ID and returns nil when its
    response is not-found, and is an error otherwise. A failed Get of the
    agent registration information is judged by the response of the account,
    not by its own: after a successful account Get whose response is not
    not-found, it is an error and the ID is kept, whatever the registration
    call answered. *)
Theorem Automation_Read_failures (w : RW ResourceData Remote) :
  match parseAzureResourceID pkg (d_Id (rd w)) with
  | inl err => resourceArmAutomationAccountRead pkg client w = Done (Some err) w
  | inr id =>
      let resGroup := ResourceGroup id in
      let name := index (Path id) "automationAccounts" in
      match Get client resGroup name (rr w) with
      | ((resp, Some err), r) =>
          resourceArmAutomationAccountRead pkg client w
          = if Account_ResponseWasNotFound resp
            then Done None {| rd := SetId "" (rd w); rr := r |}
            else Done (Some (Wrapf "Error making Read request on Automation Account %q (Resource Group %q): %+v"
                                   [name; resGroup] err))
                      {| rd := rd w; rr := r |}
      | ((resp, None), r) =>
          match registration_Get client resGroup name r with
          | ((_, Some err), r') =>
              resourceArmAutomationAccountRead pkg client w
              = if Account_ResponseWasNotFound resp
                then Done None {| rd := SetId "" (rd w); rr := r' |}
                else Done (Some (Wrapf "Error making Read request for Agent Registration Info for Automation Account %q (Resource Group %q): %+v"
                                       [name; resGroup] err))
                          {| rd := rd w; rr := r' |}
          | ((_, None), _) => True
          end
      end
  end.
Proof.
  unfold resourceArmAutomationAccountRead, bind, getRD, callR. cbv beta iota.
  destruct (parseAzureResourceID pkg (d_Id (rd w))) as [e|id]; [done|].
  cbv beta iota zeta.
  destruct (Get client (ResourceGroup id) (index (Path id) "automationAccounts") (rr w))
    as [[resp [err|]] r].
  - by destruct (Account_ResponseWasNotFound resp).
  - cbv beta iota. simpl.
    destruct (registration_Get client (ResourceGroup id)
                (index (Path id) "automationAccounts") r) as [[keys [err|]] r']; [|done].
    by destruct (Account_ResponseWasNotFound resp).
Qed.

(** X15. Deleting an automation account never touches the data (the ID is
    not cleared by the function), never aborts, and makes at most the one
    Delete call; it returns nil exactly when the ID parses and the call
    either succeeds or fails with a not-found response. *)
Theorem Automation_Delete_keeps_the_data (w : RW ResourceData Remote) :
  match resourceArmAutomationAccountDelete pkg client w with
  | Done r w' =>
      rd w' = rd w ∧
      match parseAzureResourceID pkg (d_Id (rd w)) with
      | inl err => r = Some err ∧ rr w' = rr w
      | inr id =>
          let answer := Delete client (ResourceGroup id)
                          (index (Path id) "automationAccounts") (rr w) in
          rr w' = answer.2 ∧
          (r = None ↔ answer.1.2 = None ∨ answer.1.1 = true)
      end
  | Blocked | Aborted _ => False
  end.
Proof.
  unfold resourceArmAutomationAccountDelete, bind, getRD, callR. cbv beta iota.
  destruct (parseAzureResourceID pkg (d_Id (rd w))) as [e|id]; [done|].
  cbv beta iota zeta.
  destruct (Delete client (ResourceGroup id) (index (Path id) "automationAccounts") (rr w))
    as [[nf [err|]] r]; simpl.
  - destruct nf; simpl; (split; [done|]); (split; [done|]); naive_solver.
  - split; [done|]. split; [done|]. naive_solver.
Qed.

(** X16. The two directions of the sku mapping, which carry the name of
    the sku and nothing else. Expanding the flattened form of a sku gives
    the sku made of that sku's name alone; the flattened form of nil is the
    empty list, on which expanding aborts (index out of range); and whenever
    expanding returns, it has read only the name of the first element, so
    that flattening its result gives the one-element list with that name. *)
Theorem sku_round_trip {W : Type} (d : ResourceData) (w : W) :
  (∀ sku, expandAutomationAccountSku (Set_sku (flattenAutomationAccountSku (Some sku)) d) w
          = Done (Some {| Sku_Name := Sku_Name sku |}) w) ∧
  expandAutomationAccountSku (Set_sku (flattenAutomationAccountSku None) d) w
  = Aborted "index out of range" ∧
  match expandAutomationAccountSku d w with
  | Done sku w' =>
      w' = w ∧
      ∃ input name, d_sku d !! 0%nat = Some input ∧ input !! "name" = Some name ∧
                    flattenAutomationAccountSku sku = [ {[ "name" := name ]} ]
  | Blocked => False
  | Aborted _ => d_sku d !! 0%nat = None ∨
                 ∃ input, d_sku d !! 0%nat = Some input ∧ input !! "name" = None
  end.
Proof.
  split; [|split].
  - intros [n]. unfold expandAutomationAccountSku, bind. simpl.
    by rewrite lookup_insert_eq.
  - reflexivity.
  - unfold expandAutomationAccountSku, bind.
    destruct (d_sku d !! 0%nat) as [input|] eqn:Hi; simpl; [|by left].
    destruct (input !! "name") as [name|] eqn:Hn; simpl; [|right; by exists input].
    split; [done|]. by exists input, name.
Qed.

(** X17. Create/update of an automation account, when the import check
    does not apply, the sku is well formed, and both the CreateOrUpdate and
    the following Get succeed with an ID: it stores that ID and then does
    exactly what the read function does from there. *)
Theorem Automation_CreateUpdate_sets_the_ID_and_reads (w : RW ResourceData Remote)
    (sku : option Sku) (read : Account) (id : string) (r1 r2 : Remote) :
  let name := d_name (rd w) in
  let resGroup := d_resource_group_name (rd w) in
  requireResourcesToBeImported pkg && d_IsNewResource (rd w) = false →
  expandAutomationAccountSku (rd w) w = Done sku w →
  CreateOrUpdate client resGroup name
    (sku, Some (NormalizeLocation pkg (d_location (rd w))), expandTags pkg (d_tags (rd w)))
    (rr w) = (None, r1) →
  Get client resGroup name r1 = ((read, None), r2) →
  Account_ID read = Some id →
  resourceArmAutomationAccountCreateUpdate pkg client w
  = resourceArmAutomationAccountRead pkg client {| rd := SetId id (rd w); rr := r2 |}.
Proof.
  intros name resGroup Himp Hsku Hcreate Hget Hid.
  unfold resourceArmAutomationAccountCreateUpdate.
  unfold bind at 1. unfold getRD at 1. unfold bind at 1.
  unfold createUpdate_importCheck. rewrite Himp. unfold ret at 1.
  unfold bind at 1. rewrite Hsku.
  unfold bind at 1. unfold callR at 1. fold name resGroup. rewrite Hcreate.
  unfold bind at 1. unfold callR at 1. simpl. rewrite Hget, Hid.
  unfold bind at 1. unfold modifyRD at 1. reflexivity.
Qed.

End Facts.

Lemma Automation_CreateUpdate_sets_the_ID_and_reads_witness :
  resourceArmAutomationAccountCreateUpdate SampleMore.automationPkg
    SampleMore.automationClient
    {| rd := SampleMore.automationState false [ {[ "name" := "Basic" ]} ]; rr := tt |}
  = resourceArmAutomationAccountRead SampleMore.automationPkg SampleMore.automationClient
      {| rd := SetId SampleMore.account_ID
                 (SampleMore.automationState false [ {[ "name" := "Basic" ]} ]);
         rr := tt |}.
Proof.
  apply (Automation_CreateUpdate_sets_the_ID_and_reads SampleMore.automationPkg
           SampleMore.automationClient
           {| rd := SampleMore.automationState false [ {[ "name" := "Basic" ]} ]; rr := tt |}
           (Some {| Sku_Name := "Basic" |}) SampleMore.account SampleMore.account_ID tt tt).
  - reflexivity.
  - reflexivity.
  - reflexivity.
  - reflexivity.
  - reflexivity.
Defined.

(** The sample account exists but its registration information answers
    404: the read function returns an error and keeps the ID. *)
Example sample_registration_not_found :
  resourceArmAutomationAccountRead SampleMore.automationPkg SampleMore.automationClient
    {| rd := SampleMore.automationState false []; rr := tt |}
  = Done (Some (Wrapf "Error making Read request for Agent Registration Info for Automation Account %q (Resource Group %q): %+v"
                      ["acct1"; "rg1"] (ErrorNew "StatusCode=404")))
         {| rd := SampleMore.automationState false []; rr := tt |}.
Proof. vm_compute. reflexivity. Qed.

End AutomationFacts.

Module ManagedDiskFacts.
Import Azurerm AzurermMore AzurermMore.ManagedDisk.

Section Facts.
Context {Remote CreationData : Type}.
Variable deps : Deps Remote CreationData.
Implicit Types w : RW ResourceData Remote.

(** X18. For the managed disk data source every failed Get is an error, a
    not-found response included (it has its own message); the data is then
    left as it was and the ID is not set. *)
Theorem ManagedDisk_Read_failure_is_an_error (w : RW ResourceData Remote) :
  let resGroup := d_resource_group_name (rd w) in
  let name := d_name (rd w) in
  match Get deps resGroup name (rr w) with
  | ((resp, Some err), r) =>
      dataSourceArmManagedDiskRead deps w
      = Done (Some (if Disk_ResponseWasNotFound resp
                    then Errorf "Error: Managed Disk %q (Resource Group %q) was not found"
                                [name; resGroup]
                    else Wrapf "[ERROR] Error making Read request on Azure Managed Disk %q (Resource Group %q): %s"
                               [name; resGroup] err))
             {| rd := rd w; rr := r |}
  | ((_, None), _) => True
  end.
Proof.
  unfold dataSourceArmManagedDiskRead, bind, getRD, callR. cbv beta iota zeta.
  destruct (Get deps (d_resource_group_name (rd w)) (d_name (rd w)) (rr w))
    as [[resp [err|]] r]; [|done].
  by destruct (Disk_ResponseWasNotFound resp).
Qed.

(** X19. After a successful Get the data source dereferences the ID of the
    disk without a check: a disk without ID aborts the read with a nil
    dereference, before anything is written; with an ID the read returns
    nil, and no further call is made. *)
Theorem ManagedDisk_Read_needs_an_ID (w : RW ResourceData Remote) :
  match Get deps (d_resource_group_name (rd w)) (d_name (rd w)) (rr w) with
  | ((resp, None), r) =>
      match Disk_ID resp with
      | None =>
          dataSourceArmManagedDiskRead deps w
          = Aborted "invalid memory address or nil pointer dereference"
      | Some _ =>
          ∃ w', dataSourceArmManagedDiskRead deps w = Done None w' ∧ rr w' = r
      end
  | ((_, Some _), _) => True
  end.
Proof.
  unfold dataSourceArmManagedDiskRead, bind, getRD, callR. cbv beta iota zeta.
  destruct (Get deps (d_resource_group_name (rd w)) (d_name (rd w)) (rr w))
    as [[resp [err|]] r]; [done|].
  cbv beta iota. destruct (Disk_ID resp) as [id|]; [|reflexivity].
  simpl.
  destruct (Disk_Sku resp); destruct (Disk_Properties resp) as [props|];
    try destruct (DiskSizeGB props); try destruct (decide (OsType props ≠ ""));
    destruct (Disk_CreationData resp); simpl; by eexists.
Qed.

End Facts.

(** A disk that the service returns without an ID. *)
Example sample_disk_without_ID :
  dataSourceArmManagedDiskRead (SampleMore.diskDeps SampleMore.diskWithoutID None)
    {| rd := SampleMore.diskState; rr := tt |}
  = Aborted "invalid memory address or nil pointer dereference".
Proof. reflexivity. Qed.

End ManagedDiskFacts.

(** ** More on the Pureport connection resources *)

Module ConnectionMoreFacts.
Import Pureport PureportFacts PureportMore.

Section Facts.
Context {Remote Nat : Type}.
Variable deps : Deps Remote Nat.
Implicit Types w : World Remote.

(** X20. What both read functions make of a failed GetConnection. With no
    response at all (a transport error) they abort on a nil dereference.
    With a response and an error they return an error, and clear the ID as
    well when the status is 404 (so a connection that is gone is an error to
    the caller, not nil). With a response of status 300 or more and no error
    they return an error and leave the data alone. *)
Theorem connection_Read_failures (w : World Remote) :
  match GetConnection deps (d_Id (d w)) (remote w) with
  | ((_, resp, err), r) =>
      match read_failure "Azure" w resp err r with
      | Some o => resourceAzureConnectionRead deps w = o
      | None => True
      end ∧
      match read_failure "Dummy" w resp err r with
      | Some o => resourceDummyConnectionRead deps w = o
      | None => True
      end
  end.
Proof.
  unfold resourceAzureConnectionRead, resourceDummyConnectionRead, read_get,
    read_failure, bind, getD, call. cbv beta iota.
  destruct (GetConnection deps (d_Id (d w)) (remote w)) as [[[c resp] err] r].
  cbv beta iota.
  destruct resp as [resp|]; [|by destruct err].
  destruct err as [err|]; simpl.
  - unfold modifyD, ret. by destruct (bool_decide (StatusCode resp = 404%Z)).
  - by destruct (bool_decide (StatusCode resp >= 300)%Z).
Qed.

(** The end of both create functions after a call that went through. *)
Lemma create_finish_created read resp w :
  (StatusCode resp < 300)%Z →
  create_finish deps read (Some resp) None w
  = match url_Parse deps (Header_Get resp "location") with
    | inl _ => Done None w
    | inr u =>
        let id := filepath_Base deps (URL_Path u) in
        if decide (id = "") then Done None {| d := SetId "" (d w); remote := remote w |}
        else read {| d := SetId id (d w); remote := remote w |}
    end.
Proof.
  intros Hs. unfold create_finish, bind, deref, ret. simpl.
  rewrite bool_decide_eq_false_2 by lia.
  destruct (url_Parse deps (Header_Get resp "location")) as [e|u]; [done|].
  unfold modifyD. simpl.
  destruct (decide (filepath_Base deps (URL_Path u) = "")) as [->|]; done.
Qed.

(** Whatever way the create functions end, an error is one of the read
    function. *)
Lemma create_finish_error read resp err w e w' :
  create_finish deps read resp err w = Done (Some e) w' →
  ∃ rsp u,
    resp = Some rsp ∧ err = None ∧ (StatusCode rsp < 300)%Z ∧
    url_Parse deps (Header_Get rsp "location") = inr u ∧
    filepath_Base deps (URL_Path u) ≠ "" ∧
    read {| d := SetId (filepath_Base deps (URL_Path u)) (d w); remote := remote w |}
    = Done (Some e) w'.
Proof.
  destruct err as [err|]; [discriminate|].
  destruct resp as [rsp|]; [|discriminate].
  destruct (decide (StatusCode rsp < 300)%Z) as [Hs|Hs].
  - rewrite create_finish_created by done.
    destruct (url_Parse deps (Header_Get rsp "location")) as [e'|u] eqn:Hu; [discriminate|].
    simpl. destruct (decide (filepath_Base deps (URL_Path u) = "")) as [|Hne];
      [discriminate|].
    intros H. by exists rsp, u.
  - unfold create_finish, bind, deref, ret. simpl.
    rewrite bool_decide_eq_true_2 by lia. discriminate.
Qed.

(** X21. The create functions have no error of their own: whenever
    resourceAzureConnectionCreate or resourceDummyConnectionCreate returns a
    non-nil error, the AddConnection call had gone through with a status
    below 300, the ID had been set to the non-empty base name of the path of
    the Location header, and the error is the one the read function of the
    resource returned from that state. *)
Theorem create_errors_come_from_the_read (w : World Remote) :
  match resourceAzureConnectionCreate deps w with
  | Done (Some e) w' =>
      ∃ networkId connection resp r u,
        let id := filepath_Base deps (URL_Path u) in
        azureConnection_request deps w = Done (networkId, connection) w ∧
        AddConnection deps networkId connection (remote w) = ((Some resp, None), r) ∧
        (StatusCode resp < 300)%Z ∧
        url_Parse deps (Header_Get resp "location") = inr u ∧ id ≠ "" ∧
        resourceAzureConnectionRead deps {| d := SetId id (d w); remote := r |}
        = Done (Some e) w'
  | _ => True
  end ∧
  match resourceDummyConnectionCreate deps w with
  | Done (Some e) w' =>
      ∃ networkId connection resp r u,
        let id := filepath_Base deps (URL_Path u) in
        dummyConnection_request deps w = Done (networkId, connection) w ∧
        AddConnection deps networkId connection (remote w) = ((Some resp, None), r) ∧
        (StatusCode resp < 300)%Z ∧
        url_Parse deps (Header_Get resp "location") = inr u ∧ id ≠ "" ∧
        resourceDummyConnectionRead deps {| d := SetId id (d w); remote := r |}
        = Done (Some e) w'
  | _ => True
  end.
Proof.
  split.
  - unfold resourceAzureConnectionCreate, bind.
    destruct (azureConnection_request deps w) as [[networkId connection] w0| |] eqn:E;
      [|done|done].
    pose proof (azureConnection_request_pure deps _ _ _ E) as ->.
    unfold call.
    destruct (AddConnection deps networkId connection (remote w)) as [[resp err] r] eqn:EA.
    match goal with |- match ?x with _ => _ end =>
      destruct x as [[e|] w'| |] eqn:EF end; try done.
    apply create_finish_error in EF as (rsp & u & -> & -> & Hs & Hu & Hne & Hread).
    by exists networkId, connection, rsp, r, u.
  - unfold resourceDummyConnectionCreate, bind.
    destruct (dummyConnection_request deps w) as [[networkId connection] w0| |] eqn:E;
      [|done|done].
    pose proof (dummyConnection_request_pure deps _ _ _ E) as ->.
    unfold call.
    destruct (AddConnection deps networkId connection (remote w)) as [[resp err] r] eqn:EA.
    match goal with |- match ?x with _ => _ end =>
      destruct x as [[e|] w'| |] eqn:EF end; try done.
    apply create_finish_error in EF as (rsp & u & -> & -> & Hs & Hu & Hne & Hread).
    by exists networkId, connection, rsp, r, u.
Qed.

(** X22. After an AddConnection that went through (no error, status below
    300), both create functions take the ID from the Location header: if the
    header does not parse as a URL they return nil and leave the data, the
    ID included, as it was; otherwise they set the ID to the base name of the
    path and go on as the read function of the resource does (or return nil
    at once if that name is empty). *)
Theorem create_takes_the_ID_from_the_Location_header (w : World Remote)
    (networkId : string) (connection : Connection Nat) (resp : Response) (r : Remote) :
  AddConnection deps networkId connection (remote w) = ((Some resp, None), r) →
  (StatusCode resp < 300)%Z →
  let finish read :=
    match url_Parse deps (Header_Get resp "location") with
    | inl _ => Done None {| d := d w; remote := r |}
    | inr u =>
        let id := filepath_Base deps (URL_Path u) in
        if decide (id = "") then Done None {| d := SetId "" (d w); remote := r |}
        else read {| d := SetId id (d w); remote := r |}
    end in
  (azureConnection_request deps w = Done (networkId, connection) w →
   resourceAzureConnectionCreate deps w = finish (resourceAzureConnectionRead deps)) ∧
  (dummyConnection_request deps w = Done (networkId, connection) w →
   resourceDummyConnectionCreate deps w = finish (resourceDummyConnectionRead deps)).
Proof.
  intros Hadd Hs finish. split; intros Hreq.
  - unfold resourceAzureConnectionCreate, bind. rewrite Hreq. unfold call. rewrite Hadd.
    by rewrite create_finish_created.
  - unfold resourceDummyConnectionCreate, bind. rewrite Hreq. unfold call. rewrite Hadd.
    by rewrite create_finish_created.
Qed.

(** X23. Both create functions index the first element of the location
    and of the network list without a check: with an empty location list or
    an empty network list they abort before any request is made (with an
    empty location list the reason is index out of range). *)
Theorem create_aborts_without_location_or_network (w : World Remote) :
  d_location (d w) = [] ∨ d_network (d w) = [] →
  ∃ why,
    resourceAzureConnectionCreate deps w = Aborted why ∧
    resourceDummyConnectionCreate deps w = Aborted why ∧
    (d_location (d w) = [] → why = "index out of range").
Proof.
  intros H.
  unfold resourceAzureConnectionCreate, resourceDummyConnectionCreate,
    azureConnection_request, dummyConnection_request, bind, getD. cbv beta iota.
  destruct (d_location (d w)) as [|m l] eqn:Hl.
  - by exists "index out of range".
  - destruct H as [?|Hn]; [done|]. rewrite Hn.
    unfold first_link at 1 3, first_field, bind. simpl.
    destruct (m !! "id"); [|by eexists].
    destruct (m !! "href"); by eexists.
Qed.

Lemma int32_range (n : Z) : (-2147483648 ≤ int32 n < 2147483648)%Z.
Proof.
  unfold int32.
  pose proof (Z.mod_pos_bound (n + 2147483648) 4294967296 ltac:(lia)). lia.
Qed.

Lemma int32_small (n : Z) : (-2147483648 ≤ n < 2147483648)%Z → int32 n = n.
Proof. intros H. unfold int32. rewrite Z.mod_small by lia. lia. Qed.

Lemma int32_wraps (n : Z) : ∃ k : Z, (int32 n = n + k * 4294967296)%Z.
Proof.
  unfold int32. exists (- ((n + 2147483648) `div` 4294967296))%Z.
  pose proof (Z.div_mod (n + 2147483648) 4294967296 ltac:(lia)). lia.
Qed.

(** X24. The body of the request. Whenever a create function gets to its
    call, the speed it sends is the configured speed converted to int32: it
    lies in the int32 range, differs from the configured speed by a multiple
    of 2^32, and is the configured speed itself when that fits; and the
    network ID in the path of the call is the ID of the network link in the
    body. *)
Theorem request_speed_and_network (w : World Remote) :
  match azureConnection_request deps w with
  | Done (networkId, IsAzureExpressRouteConnection c) _ =>
      az_Speed c = int32 (d_speed (d w)) ∧
      (-2147483648 ≤ az_Speed c < 2147483648)%Z ∧
      (∃ k : Z, az_Speed c = d_speed (d w) + k * 4294967296)%Z ∧
      ((-2147483648 ≤ d_speed (d w) < 2147483648)%Z → az_Speed c = d_speed (d w)) ∧
      Link_Id <$> az_Network c = Some networkId
  | Done _ _ => False
  | Blocked => False
  | Aborted _ => True
  end ∧
  match dummyConnection_request deps w with
  | Done (networkId, IsDummyConnection c) _ =>
      dm_Speed c = int32 (d_speed (d w)) ∧
      (-2147483648 ≤ dm_Speed c < 2147483648)%Z ∧
      (∃ k : Z, dm_Speed c = d_speed (d w) + k * 4294967296)%Z ∧
      ((-2147483648 ≤ d_speed (d w) < 2147483648)%Z → dm_Speed c = d_speed (d w)) ∧
      Link_Id <$> dm_Network c = Some networkId
  | Done _ _ => False
  | Blocked => False
  | Aborted _ => True
  end.
Proof.
  unfold azureConnection_request, dummyConnection_request, bind, getD. cbv beta iota.
  unfold first_link, first_field, bind.
  destruct (d_location (d w) !! 0%nat) as [ml|]; [|done].
  destruct (ml !! "id"); [|done]. destruct (ml !! "href"); [|done]. simpl.
  destruct (d_network (d w) !! 0%nat) as [mn|]; [|done].
  destruct (mn !! "id"); [|done]. destruct (mn !! "href"); [|done]. simpl.
  pose proof (int32_range (d_speed (d w))). pose proof (int32_wraps (d_speed (d w))).
  pose proof (int32_small (d_speed (d w))). done.
Qed.

End Facts.

Lemma create_takes_the_ID_from_the_Location_header_witness :
  resourceAzureConnectionCreate depsCreated Fixture.world
  = resourceAzureConnectionRead depsCreated
      {| d := SetId "conn-42" Fixture.state; remote := tt |}.
Proof.
  refine (proj1 (create_takes_the_ID_from_the_Location_header depsCreated Fixture.world
                   "network-1" _ created tt eq_refl eq_refl) _).
  reflexivity.
Defined.

Lemma create_aborts_without_location_or_network_witness :
  ∃ why,
    resourceAzureConnectionCreate (Fixture.deps None None)
      {| d := stateWithoutLocation; remote := tt |} = Aborted why ∧
    resourceDummyConnectionCreate (Fixture.deps None None)
      {| d := stateWithoutLocation; remote := tt |} = Aborted why ∧
    (d_location stateWithoutLocation = [] → why = "index out of range").
Proof.
  apply (create_aborts_without_location_or_network (Fixture.deps None None)
           {| d := stateWithoutLocation; remote := tt |}).
  by left.
Defined.

(** A configured speed of 2^31 is sent as -2^31. *)
Example int32_of_a_large_speed : int32 2147483648 = (-2147483648)%Z.
Proof. reflexivity. Qed.

End ConnectionMoreFacts.

(** ** The validation helpers *)

Module ValidateFacts.
Import AzurermMore.Validate.

Lemma dead_nullable r : dead r = true → nullable r = false.
Proof.
  induction r as [| |p|r1 IH1 r2 IH2|r1 IH1 r2 IH2|r IH]; simpl; try done.
  - intros [H|H]%orb_true_iff; [rewrite IH1 by done | rewrite IH2 by done];
      [done | apply andb_false_r].
  - intros [H1 H2]%andb_true_iff. by rewrite IH1, IH2.
Qed.

Lemma dead_deriv c r : dead r = true → dead (deriv c r) = true.
Proof.
  induction r as [| |p|r1 IH1 r2 IH2|r1 IH1 r2 IH2|r IH]; simpl; try done.
  - intros [H|H]%orb_true_iff.
    + rewrite IH1 by done. rewrite (dead_nullable r1) by done. done.
    + rewrite H, orb_true_r. simpl. destruct (nullable r1); [by apply IH2 | done].
  - intros [H1 H2]%andb_true_iff. by rewrite IH1, IH2.
Qed.

Lemma matches_dead s : ∀ r, dead r = true → matches r s = false.
Proof.
  induction s as [|c s IH]; intros r H; simpl.
  - by apply dead_nullable.
  - by apply IH, dead_deriv.
Qed.

Lemma takes_deriv c c' r : takes (deriv c r) c' = true → takes r c' = true.
Proof.
  induction r as [| |p|r1 IH1 r2 IH2|r1 IH1 r2 IH2|r IH]; simpl; try done.
  - by destruct (p c).
  - rewrite !orb_true_iff. intros [[H|H]|H]; [left; by apply IH1 | by right |].
    destruct (nullable r1); [right; by apply IH2 | done].
  - rewrite !orb_true_iff. intros [H|H]; [left; by apply IH1 | right; by apply IH2].
  - rewrite orb_true_iff. intros [H|H]; [by apply IH | done].
Qed.

Lemma not_takes_dead c r : takes r c = false → dead (deriv c r) = true.
Proof.
  induction r as [| |p|r1 IH1 r2 IH2|r1 IH1 r2 IH2|r IH]; simpl; try done.
  - by intros ->.
  - intros [H1 H2]%orb_false_iff. rewrite IH1 by done. simpl.
    destruct (nullable r1); [by apply IH2 | done].
  - intros [H1 H2]%orb_false_iff. by rewrite IH1, IH2.
  - intros H. by rewrite IH.
Qed.

(** A text in the language of a pattern is made of characters that the
    pattern mentions. *)
Lemma matches_takes s : ∀ r, matches r s = true → allChars (takes r) s = true.
Proof.
  induction s as [|c s IH]; intros r H; simpl in *; [done|].
  apply andb_true_iff. split.
  - destruct (takes r c) eqn:Ht; [done|].
    apply (not_takes_dead c) in Ht. by rewrite (matches_dead s _ Ht) in H.
  - apply IH in H. clear IH. induction s as [|c' s IHs]; simpl in *; [done|].
    apply andb_true_iff in H as [H1 H2]. apply andb_true_iff. split; [|by apply IHs].
    by eapply takes_deriv.
Qed.

Lemma matches_Alt s : ∀ r1 r2, matches (Alt r1 r2) s = matches r1 s || matches r2 s.
Proof. induction s as [|c s IH]; intros r1 r2; simpl; [done|]. apply IH. Qed.

Lemma matches_Cat_Eps s : ∀ r, matches (Cat Eps r) s = matches r s.
Proof.
  destruct s as [|c s]; intros r; simpl; [done|].
  rewrite matches_Alt. by rewrite (matches_dead s (Cat Void r)).
Qed.

Lemma matches_Star_Class p s :
  matches (Star (Class p)) s = allChars p s.
Proof.
  induction s as [|c s IH]; simpl; [done|].
  destruct (p c); simpl.
  - by rewrite matches_Cat_Eps.
  - by apply matches_dead.
Qed.

Lemma matches_Plus_Class p s :
  matches (Plus (Class p)) s = true ↔ s ≠ "" ∧ allChars p s = true.
Proof.
  destruct s as [|c s]; simpl; [naive_solver|].
  rewrite matches_Alt, (matches_dead s Void) by done. rewrite orb_false_r.
  destruct (p c); simpl.
  - rewrite matches_Cat_Eps, matches_Star_Class. naive_solver.
  - rewrite (matches_dead s) by done. naive_solver.
Qed.

Lemma takes_iso8601DurationPattern c :
  takes iso8601DurationPattern c = iso8601Char c.
Proof. destruct c as [[] [] [] [] [] [] [] []]; reflexivity. Qed.

Lemma allChars_ext p q s : (∀ c, p c = q c) → allChars p s = allChars q s.
Proof. intros H. induction s as [|c s IH]; simpl; [done|]. by rewrite H, IH. Qed.

(** A text in the language of the duration pattern begins with P. *)
Lemma matches_iso8601_P s :
  matches iso8601DurationPattern s = true → ∃ rest, s = String "P" rest.
Proof.
  destruct s as [|c s]; [discriminate|].
  destruct (decide (c = "P"%char)) as [->|Hne]; [by eexists|].
  intros H. exfalso. revert H. unfold iso8601DurationPattern.
  cbn [matches deriv nullable Lit].
  rewrite bool_decide_eq_false_2 by done.
  rewrite matches_Alt, !matches_dead by done. done.
Qed.

Section Facts.
Context {W : Type}.
Implicit Types w : W.

(** X25. validateCollation never aborts and never warns; it accepts
    exactly the non-empty strings made of letters, digits, underscore, dot
    and space, and reports one error for anything else (the empty string
    and a value that is not a string included). *)
Theorem validateCollation_accepts (i : Interface) (k : string) (w : W) :
  ∃ errors,
    validateCollation i k w = Done ([], errors) w ∧
    length errors ≤ 1 ∧
    (errors = [] ↔ ∃ v, i = IsString v ∧ v ≠ "" ∧ allChars collationChar v = true).
Proof.
  unfold validateCollation. destruct i as [v|].
  - destruct (matches collationPattern v) eqn:Hm; simpl.
    + exists []. split; [done|]. split; [simpl; lia|]. split; [|done].
      intros _. exists v. split; [done|]. by apply matches_Plus_Class.
    + eexists. split; [reflexivity|]. split; [simpl; lia|]. split; [done|].
      intros (v' & [= <-] & Hv). apply matches_Plus_Class in Hv.
      unfold collationPattern in Hm. congruence.
  - eexists. split; [reflexivity|]. split; [simpl; lia|]. split; [done|].
    by intros (v' & [=] & _).
Qed.

(** X26. validateIso8601Duration never aborts and never warns, and reports
    at most one error. What it accepts is a string that begins with P and
    holds nothing but digits, the designators P, Y, M, W, D, T, H, S and the
    dot; so the empty string, a value that is not a string, and lower-case
    designators are all refused. *)
Theorem validateIso8601Duration_accepts_only (i : Interface) (k : string) (w : W) :
  ∃ errors,
    validateIso8601Duration i k w = Done ([], errors) w ∧
    length errors ≤ 1 ∧
    (errors = [] →
     ∃ rest, i = IsString (String "P" rest) ∧ allChars iso8601Char rest = true).
Proof.
  unfold validateIso8601Duration. destruct i as [v|].
  - destruct (matches iso8601DurationPattern v) eqn:Hm; simpl.
    + exists []. split; [done|]. split; [simpl; lia|]. intros _.
      destruct (matches_iso8601_P v Hm) as [rest ->]. exists rest. split; [done|].
      apply matches_takes in Hm.
      rewrite (allChars_ext _ _ _ takes_iso8601DurationPattern) in Hm.
      change (iso8601Char "P" && allChars iso8601Char rest = true) in Hm.
      by apply andb_true_iff in Hm as [_ Hm].
    + eexists. split; [reflexivity|]. split; [simpl; lia|]. done.
  - eexists. split; [reflexivity|]. split; [simpl; lia|]. done.
Qed.

Variable Error : error → string.

Lemma errorStrings_fmap (errors : list error) : ∀ acc,
  foldl (fun errorStrings e => errorStrings ++ [Error e]) acc errors
  = acc ++ (Error <$> errors).
Proof.
  induction errors as [|e errors IH]; intros acc; simpl.
  - by rewrite app_nil_r.
  - rewrite IH. by rewrite <- app_assoc.
Qed.

(** X27. evaluateSchemaValidateFunc runs the validation function once and
    looks only at its errors (warnings are dropped): without errors it
    returns (true, nil); with errors it returns false and the error that
    fmt.Errorf makes of one argument, its format, which is the messages of
    the errors, in their order, joined by newlines. The join is handed over
    as the format and not as an argument of a format, so that what the
    error reads is left to fmt.Errorf: a message is not told apart from a
    formatting directive. It aborts only if the validation function does. *)
Theorem evaluateSchemaValidateFunc_join_is_the_format (i : Interface) (k : string)
    (validateFunc : Interface → string → M W (list string * list error)) (w : W) :
  match validateFunc i k w with
  | Done (warnings, errors) w' =>
      evaluateSchemaValidateFunc Error i k validateFunc w
      = Done (match errors with
              | [] => (true, None)
              | _ :: _ => (false, Some (Errorf (Join (Error <$> errors) newline) []))
              end) w'
  | Blocked => evaluateSchemaValidateFunc Error i k validateFunc w = Blocked
  | Aborted why => evaluateSchemaValidateFunc Error i k validateFunc w = Aborted why
  end.
Proof.
  unfold evaluateSchemaValidateFunc, bind.
  destruct (validateFunc i k w) as [[warnings errors] w'| |]; [|done|done].
  rewrite errorStrings_fmap. simpl. destruct errors as [|e errors]; [done|].
  rewrite bool_decide_eq_true_2 by (simpl; lia). done.
Qed.

(** X28. A path is valid exactly when it begins with a slash:
    evaluateSchemaValidateFunc applied to validateFilePath returns
    (true, nil) for such a string and (false, an error) for every other
    string, the empty one included; on a value that is not a string it
    aborts, validateFilePath asserting the type without a check. *)
Theorem validateFilePath_wants_a_leading_slash (i : Interface) (k : string) (w : W) :
  match i with
  | IsString v =>
      ∃ ok err,
        evaluateSchemaValidateFunc Error i k validateFilePath w = Done (ok, err) w ∧
        (ok = true ↔ ∃ rest, v = String "/" rest) ∧
        (err = None ↔ ok = true)
  | IsOther =>
      ∃ why, evaluateSchemaValidateFunc Error i k validateFilePath w = Aborted why
  end.
Proof.
  destruct i as [v|]; [|by eexists].
  unfold evaluateSchemaValidateFunc, validateFilePath, bind. simpl.
  destruct v as [|c v]; simpl.
  - eexists _, _. split; [reflexivity|]. split; [|done]. split; [done|]. by intros [? ?].
  - destruct (decide (c = "/"%char)) as [->|Hne]; simpl.
    + assert (HasPrefix v "" = true) as -> by (by destruct v). simpl.
      eexists _, _. split; [reflexivity|]. split; [|done]. split; [|done]. by eexists.
    + eexists _, _. split; [reflexivity|]. split; [|done]. split; [done|].
      intros [rest [= -> _]]. done.
Qed.

End Facts.

(** Some durations, accepted and refused. *)
Example iso8601_samples :
  matches iso8601DurationPattern "P1Y2M3W4DT5H6M7.5S" = true ∧
  matches iso8601DurationPattern "PT15M" = true ∧
  matches iso8601DurationPattern "P" = true ∧
  matches iso8601DurationPattern "P1" = false ∧
  matches iso8601DurationPattern "1D" = false ∧
  matches iso8601DurationPattern "P1DT" = true ∧
  matches iso8601DurationPattern "PT1H1D" = false ∧
  matches iso8601DurationPattern "p1d" = false.
Proof. repeat split; vm_compute; reflexivity. Qed.

End ValidateFacts.
